(** * EventsService: the WebSocket events client of the Qminder JavaScript API

    A shallow embedding of [src/services/EventsService.ts].  The service
    object and the platform it talks to (sockets, timers, user callbacks)
    are one explicit state; every method and every socket handler is a
    state transformer that either returns or throws, keeping the mutations
    made before the throw, as JavaScript does.

    Conventions of the model:
    - JavaScript values are the type [JsVal]; numbers are the integers
      (only [typeof] and equality with constants are ever looked at);
    - a user function is a token with a flag telling whether calling it
      throws and one telling whether what it then throws is [null] or
      [undefined]; calls are recorded in the platform's [invoked] log;
      user functions do not call back into the service;
    - [JSON.parse], [JSON.stringify] and the conversion of a value to a
      property key belong to the platform and are parameters;
    - the dispatch table is the finite map of the identifiers bound by
      [subscribe]; what a JavaScript object inherits from its prototype
      is not part of it;
    - [send] records every frame it is handed, whatever the state of the
      socket; console output is not part of the state. *)

From Stdlib Require Import ZArith String Ascii List Bool Lia.
From stdpp Require Import base list gmap strings.
Import ListNotations.

Local Open Scope Z_scope.

(** ** JavaScript values *)

Record JsFun := { fn_tag : nat; fn_throws : bool; fn_nullish : bool }.

#[warnings="-register-all"] Inductive JsVal :=
| VUndefined
| VNull
| VBool (b : bool)
| VNum (n : Z)
| VStr (s : string)
| VFun (f : JsFun)
| VObj (props : list (string * JsVal)).

Definition typeof (v : JsVal) : string :=
  match v with
  | VUndefined => "undefined"
  | VNull => "object"
  | VBool _ => "boolean"
  | VNum _ => "number"
  | VStr _ => "string"
  | VFun _ => "function"
  | VObj _ => "object"
  end.

(** [if (v)]: the ToBoolean conversion. *)
Definition truthy (v : JsVal) : bool :=
  match v with
  | VUndefined | VNull => false
  | VBool b => b
  | VNum n => negb (n =? 0)
  | VStr s => negb (String.eqb s "")
  | VFun _ | VObj _ => true
  end.

Fixpoint assoc (k : string) (props : list (string * JsVal)) : option JsVal :=
  match props with
  | [] => None
  | (k', v) :: rest => if String.eqb k k' then Some v else assoc k rest
  end.

(** [v.k] for a [v] that is neither [undefined] nor [null]. *)
Definition get_prop (v : JsVal) (k : string) : JsVal :=
  match v with
  | VObj props => default VUndefined (assoc k props)
  | _ => VUndefined
  end.

(** ** The data of the service *)

Inductive EventType :=
| TICKET_CREATED | TICKET_CALLED | TICKET_RECALLED | TICKET_CANCELLED
| TICKET_SERVED | TICKET_CHANGED | OVERVIEW_MONITOR_CHANGE | SIGN_IN_CHANGE
| LINES_CHANGED | LOCATION_CHANGE.

Definition EventType_name (t : EventType) : string :=
  match t with
  | TICKET_CREATED => "TICKET_CREATED"
  | TICKET_CALLED => "TICKET_CALLED"
  | TICKET_RECALLED => "TICKET_RECALLED"
  | TICKET_CANCELLED => "TICKET_CANCELLED"
  | TICKET_SERVED => "TICKET_SERVED"
  | TICKET_CHANGED => "TICKET_CHANGED"
  | OVERVIEW_MONITOR_CHANGE => "OVERVIEW_MONITOR_CHANGE"
  | SIGN_IN_CHANGE => "SIGN_IN_CHANGE"
  | LINES_CHANGED => "LINES_CHANGED"
  | LOCATION_CHANGE => "LOCATION_CHANGE"
  end.

(** [EventSubscription]: the fields [subscribe], [id], [line], [location]
    and [parameters] of the source; an absent optional field is [None]. *)
Record EventSubscription := {
  sub_subscribe : EventType;
  sub_id : string;
  sub_line : option JsVal;
  sub_location : option JsVal;
  sub_parameters : option JsVal;
}.

(** The subscription as the object [JSON.stringify] sees: properties in
    the order they were created, absent ones left out. *)
Definition opt_prop (k : string) (o : option JsVal) : list (string * JsVal) :=
  match o with
  | Some v => [(k, v)]
  | None => []
  end.

Definition subscription_object (sub : EventSubscription) : JsVal :=
  VObj ([("id"%string, VStr (sub_id sub));
         ("subscribe"%string, VStr (EventType_name (sub_subscribe sub)))]
        ++ opt_prop "line" (sub_line sub)
        ++ opt_prop "location" (sub_location sub)
        ++ opt_prop "parameters" (sub_parameters sub)).

Record EventsService := {
  apiKey : string;
  apiServer : string;
  socket : option nat;
  connecting : bool;
  connected : bool;
  retryTimeout : option nat;
  pingInterval : option nat;
  subscriptions : list EventSubscription;
  connectionRetries : Z;
  subscriptionCallbackMap : gmap string JsVal;
  onConnectCallbacks : list JsVal;
  onDisconnectCallbacks : list JsVal;
}.

(** The platform: the sockets ever created, indexed by handle, each with
    its url and [readyState] (0 connecting, 1 open, 2 closing, 3 closed);
    the text frames sent, oldest first, with the socket they were sent on;
    the pending timeouts and the running intervals with their delay in
    milliseconds; the next timer handle; the calls of user functions,
    oldest first. *)
Record Platform := {
  sockets : list (string * Z);
  sent : list (nat * string);
  timeouts : list (nat * Z);
  intervals : list (nat * Z);
  nextTimer : nat;
  invoked : list JsFun;
}.

Record State := { svc : EventsService; env : Platform }.

(** ** Returning and throwing *)

Inductive Exn :=
| JsError (message : string)
| TypeError
| SyntaxError
| ThrownBy (f : JsFun).

Inductive Outcome (A : Type) :=
| Return (a : A) (s : State)
| Throw (e : Exn) (s : State).
Arguments Return {A} a s.
Arguments Throw {A} e s.

Definition final {A} (o : Outcome A) : State :=
  match o with
  | Return _ s => s
  | Throw _ s => s
  end.

Definition threw {A} (o : Outcome A) : option Exn :=
  match o with
  | Return _ _ => None
  | Throw e _ => Some e
  end.

Definition Js (A : Type) : Type := State -> Outcome A.

#[global] Instance Js_ret : MRet Js := fun A a s => Return a s.
#[global] Instance Js_bind : MBind Js := fun A B k m s =>
  match m s with
  | Return a s' => k a s'
  | Throw e s' => Throw e s'
  end.

Definition throw {A} (e : Exn) : Js A := fun s => Throw e s.

(** [try { m } catch (exc) { h exc }] *)
Definition try_catch (m : Js unit) (h : Exn -> Js unit) : Js unit := fun s =>
  match m s with
  | Return a s' => Return a s'
  | Throw e s' => h e s'
  end.

Definition get_svc : Js EventsService := fun s => Return (svc s) s.
Definition get_env : Js Platform := fun s => Return (env s) s.
Definition modify_svc (f : EventsService -> EventsService) : Js unit :=
  fun s => Return tt {| svc := f (svc s); env := env s |}.
Definition modify_env (f : Platform -> Platform) : Js unit :=
  fun s => Return tt {| svc := svc s; env := f (env s) |}.
Definition when (b : bool) (m : Js unit) : Js unit :=
  if b then m else mret tt.

(** ** Assignments to the fields: [this.f = x] *)

Definition set_apiKey (x : string) (o : EventsService) : EventsService :=
  {| apiKey := x; apiServer := apiServer o; socket := socket o;
     connecting := connecting o; connected := connected o;
     retryTimeout := retryTimeout o; pingInterval := pingInterval o;
     subscriptions := subscriptions o; connectionRetries := connectionRetries o;
     subscriptionCallbackMap := subscriptionCallbackMap o;
     onConnectCallbacks := onConnectCallbacks o;
     onDisconnectCallbacks := onDisconnectCallbacks o |}.
Definition set_apiServer (x : string) (o : EventsService) : EventsService :=
  {| apiKey := apiKey o; apiServer := x; socket := socket o;
     connecting := connecting o; connected := connected o;
     retryTimeout := retryTimeout o; pingInterval := pingInterval o;
     subscriptions := subscriptions o; connectionRetries := connectionRetries o;
     subscriptionCallbackMap := subscriptionCallbackMap o;
     onConnectCallbacks := onConnectCallbacks o;
     onDisconnectCallbacks := onDisconnectCallbacks o |}.
Definition set_socket (x : option nat) (o : EventsService) : EventsService :=
  {| apiKey := apiKey o; apiServer := apiServer o; socket := x;
     connecting := connecting o; connected := connected o;
     retryTimeout := retryTimeout o; pingInterval := pingInterval o;
     subscriptions := subscriptions o; connectionRetries := connectionRetries o;
     subscriptionCallbackMap := subscriptionCallbackMap o;
     onConnectCallbacks := onConnectCallbacks o;
     onDisconnectCallbacks := onDisconnectCallbacks o |}.
Definition set_connecting (x : bool) (o : EventsService) : EventsService :=
  {| apiKey := apiKey o; apiServer := apiServer o; socket := socket o; connecting := x;
     connected := connected o; retryTimeout := retryTimeout o;
     pingInterval := pingInterval o; subscriptions := subscriptions o;
     connectionRetries := connectionRetries o;
     subscriptionCallbackMap := subscriptionCallbackMap o;
     onConnectCallbacks := onConnectCallbacks o;
     onDisconnectCallbacks := onDisconnectCallbacks o |}.
Definition set_connected (x : bool) (o : EventsService) : EventsService :=
  {| apiKey := apiKey o; apiServer := apiServer o; socket := socket o;
     connecting := connecting o; connected := x; retryTimeout := retryTimeout o;
     pingInterval := pingInterval o; subscriptions := subscriptions o;
     connectionRetries := connectionRetries o;
     subscriptionCallbackMap := subscriptionCallbackMap o;
     onConnectCallbacks := onConnectCallbacks o;
     onDisconnectCallbacks := onDisconnectCallbacks o |}.
Definition set_retryTimeout (x : option nat) (o : EventsService) : EventsService :=
  {| apiKey := apiKey o; apiServer := apiServer o; socket := socket o;
     connecting := connecting o; connected := connected o; retryTimeout := x;
     pingInterval := pingInterval o; subscriptions := subscriptions o;
     connectionRetries := connectionRetries o;
     subscriptionCallbackMap := subscriptionCallbackMap o;
     onConnectCallbacks := onConnectCallbacks o;
     onDisconnectCallbacks := onDisconnectCallbacks o |}.
Definition set_pingInterval (x : option nat) (o : EventsService) : EventsService :=
  {| apiKey := apiKey o; apiServer := apiServer o; socket := socket o;
     connecting := connecting o; connected := connected o;
     retryTimeout := retryTimeout o; pingInterval := x;
     subscriptions := subscriptions o; connectionRetries := connectionRetries o;
     subscriptionCallbackMap := subscriptionCallbackMap o;
     onConnectCallbacks := onConnectCallbacks o;
     onDisconnectCallbacks := onDisconnectCallbacks o |}.
Definition set_subscriptions (x : list EventSubscription) (o : EventsService) : EventsService :=
  {| apiKey := apiKey o; apiServer := apiServer o; socket := socket o;
     connecting := connecting o; connected := connected o;
     retryTimeout := retryTimeout o; pingInterval := pingInterval o;
     subscriptions := x; connectionRetries := connectionRetries o;
     subscriptionCallbackMap := subscriptionCallbackMap o;
     onConnectCallbacks := onConnectCallbacks o;
     onDisconnectCallbacks := onDisconnectCallbacks o |}.
Definition set_connectionRetries (x : Z) (o : EventsService) : EventsService :=
  {| apiKey := apiKey o; apiServer := apiServer o; socket := socket o;
     connecting := connecting o; connected := connected o;
     retryTimeout := retryTimeout o; pingInterval := pingInterval o;
     subscriptions := subscriptions o; connectionRetries := x;
     subscriptionCallbackMap := subscriptionCallbackMap o;
     onConnectCallbacks := onConnectCallbacks o;
     onDisconnectCallbacks := onDisconnectCallbacks o |}.
Definition set_subscriptionCallbackMap (x : gmap string JsVal) (o : EventsService) : EventsService :=
  {| apiKey := apiKey o; apiServer := apiServer o; socket := socket o;
     connecting := connecting o; connected := connected o;
     retryTimeout := retryTimeout o; pingInterval := pingInterval o;
     subscriptions := subscriptions o; connectionRetries := connectionRetries o;
     subscriptionCallbackMap := x; onConnectCallbacks := onConnectCallbacks o;
     onDisconnectCallbacks := onDisconnectCallbacks o |}.
Definition set_onConnectCallbacks (x : list JsVal) (o : EventsService) : EventsService :=
  {| apiKey := apiKey o; apiServer := apiServer o; socket := socket o;
     connecting := connecting o; connected := connected o;
     retryTimeout := retryTimeout o; pingInterval := pingInterval o;
     subscriptions := subscriptions o; connectionRetries := connectionRetries o;
     subscriptionCallbackMap := subscriptionCallbackMap o; onConnectCallbacks := x;
     onDisconnectCallbacks := onDisconnectCallbacks o |}.
Definition set_onDisconnectCallbacks (x : list JsVal) (o : EventsService) : EventsService :=
  {| apiKey := apiKey o; apiServer := apiServer o; socket := socket o;
     connecting := connecting o; connected := connected o;
     retryTimeout := retryTimeout o; pingInterval := pingInterval o;
     subscriptions := subscriptions o; connectionRetries := connectionRetries o;
     subscriptionCallbackMap := subscriptionCallbackMap o;
     onConnectCallbacks := onConnectCallbacks o; onDisconnectCallbacks := x |}.

Definition set_sockets (x : list (string * Z)) (p : Platform) : Platform :=
  {| sockets := x; sent := sent p; timeouts := timeouts p; intervals := intervals p;
     nextTimer := nextTimer p; invoked := invoked p |}.
Definition set_sent (x : list (nat * string)) (p : Platform) : Platform :=
  {| sockets := sockets p; sent := x; timeouts := timeouts p; intervals := intervals p;
     nextTimer := nextTimer p; invoked := invoked p |}.
Definition set_timeouts (x : list (nat * Z)) (p : Platform) : Platform :=
  {| sockets := sockets p; sent := sent p; timeouts := x; intervals := intervals p;
     nextTimer := nextTimer p; invoked := invoked p |}.
Definition set_intervals (x : list (nat * Z)) (p : Platform) : Platform :=
  {| sockets := sockets p; sent := sent p; timeouts := timeouts p; intervals := x;
     nextTimer := nextTimer p; invoked := invoked p |}.
Definition set_nextTimer (x : nat) (p : Platform) : Platform :=
  {| sockets := sockets p; sent := sent p; timeouts := timeouts p;
     intervals := intervals p; nextTimer := x; invoked := invoked p |}.
Definition set_invoked (x : list JsFun) (p : Platform) : Platform :=
  {| sockets := sockets p; sent := sent p; timeouts := timeouts p;
     intervals := intervals p; nextTimer := nextTimer p; invoked := x |}.

(** ** Platform primitives *)

(** [new WebSocket(url)]: a fresh handle, in the connecting state. *)
Definition new_WebSocket (url : string) : Js nat := fun s =>
  let h := length (sockets (env s)) in
  Return h {| svc := svc s;
              env := set_sockets (sockets (env s) ++ [(url, 0)]) (env s) |}.

Definition readyState (p : Platform) (h : nat) : option Z :=
  snd <$> sockets p !! h.

Definition set_readyState (h : nat) (r : Z) (p : Platform) : Platform :=
  set_sockets (alter (fun x => (fst x, r)) h (sockets p)) p.

(** [socket.close()] on an open socket: the closing handshake starts. *)
Definition socket_close (h : nat) : Js unit :=
  modify_env (set_readyState h 2).

(** [this.socket.send(data)]; every call is recorded in [sent]. *)
Definition socket_send (data : string) : Js unit :=
  o ← get_svc;
  match socket o with
  | Some h => modify_env (fun p => set_sent (sent p ++ [(h, data)]) p)
  | None => throw TypeError
  end.

Definition remove_timer (h : nat) (l : list (nat * Z)) : list (nat * Z) :=
  filter (fun x => fst x ≠ h) l.

Definition setTimeout (delay : Z) : Js nat := fun s =>
  let h := nextTimer (env s) in
  Return h {| svc := svc s;
              env := set_nextTimer (S h)
                       (set_timeouts (timeouts (env s) ++ [(h, delay)]) (env s)) |}.

Definition clearTimeout (h : nat) : Js unit :=
  modify_env (fun p => set_timeouts (remove_timer h (timeouts p)) p).

Definition setInterval (delay : Z) : Js nat := fun s =>
  let h := nextTimer (env s) in
  Return h {| svc := svc s;
              env := set_nextTimer (S h)
                       (set_intervals (intervals (env s) ++ [(h, delay)]) (env s)) |}.

Definition clearInterval (h : nat) : Js unit :=
  modify_env (fun p => set_intervals (remove_timer h (intervals p)) p).

(** Calling a user function. *)
Definition call_function (f : JsFun) : Js unit :=
  modify_env (fun p => set_invoked (invoked p ++ [f]) p);;
  if fn_throws f then throw (ThrownBy f) else mret tt.

(** [v()] *)
Definition call_value (v : JsVal) : Js unit :=
  match v with
  | VFun f => call_function f
  | _ => throw TypeError
  end.

(** [v.k], which throws on [undefined] and [null]. *)
Definition member (v : JsVal) (k : string) : Js JsVal :=
  match v with
  | VUndefined | VNull => throw TypeError
  | _ => mret (get_prop v k)
  end.

Definition is_function (v : JsVal) : bool := String.eqb (typeof v) "function".

(** [arr.forEach(f)] on an array held in the state: the length is read
    once, the elements are read from the live array. *)
Fixpoint forEach_loop {A} (arr : State -> list A) (f : A -> Js unit)
    (k n : nat) : Js unit :=
  match n with
  | O => mret tt
  | S n' => fun s =>
      match arr s !! k with
      | Some x => (f x;; forEach_loop arr f (S k) n') s
      | None => forEach_loop arr f (S k) n' s
      end
  end.

Definition forEach {A} (arr : State -> list A) (f : A -> Js unit) : Js unit :=
  fun s => forEach_loop arr f 0 (length (arr s)) s.

(** [arr.findIndex(p)], -1 when no element satisfies [p]. *)
Fixpoint findIndex_from {A} (p : A -> bool) (l : list A) (i : Z) : Z :=
  match l with
  | [] => -1
  | x :: rest => if p x then i else findIndex_from p rest (i + 1)
  end.

Definition findIndex {A} (p : A -> bool) (l : list A) : Z := findIndex_from p l 0.

(** [s.charAt(i)] *)
Definition charAt (s : string) (i : nat) : string :=
  match String.get i s with
  | Some c => String c EmptyString
  | None => EmptyString
  end.

Inductive MessageData :=
| DText (text : string)
| DBinary.

(** A small platform to run the model on: a parser that knows one text,
    a serializer that keeps the identifier, a key conversion for strings. *)
Definition sample_parse (text : string) : option JsVal :=
  if String.eqb text "{}" then Some (VObj []) else None.

Definition sample_stringify (v : JsVal) : string :=
  match get_prop v "id" with
  | VStr identifier => identifier
  | _ => EmptyString
  end.

Definition sample_key (v : JsVal) : string :=
  match v with
  | VStr s => s
  | _ => "undefined"
  end.

(** ** The HTTP requests: [ApiBase]

    A shallow embedding of [src/api-base.js].  A promise is given by how it
    settles: it stays pending, is fulfilled with a value or is rejected
    with a reason; [then] is the bind of that type.  [fetch] is a field of
    the object, from the url and the options to the promise of a response;
    calling it is the one effect of [request], so the result of [request]
    tells whether the call was made, with what, and the promise returned.
    [querystring.stringify] and the conversion of a string to a number
    belong to the platform and are parameters; a numeric status code is an
    integer [n], for which [Math.floor(n / 100)] is the quotient of [Z]. *)

Module ApiBase.

Inductive HTTPMethod := GET | POST | PUT | PATCH | OPTIONS | HEAD | DELETE | CONNECT.

(** A [File]: its media type and its content. *)
Record File := { file_type : string; file_content : string }.

(** The [data] of a request, [Object | File]. *)
Inductive RequestData :=
| DataFile (file : File)
| DataObject (props : list (string * JsVal)).

Inductive Body :=
| BodyFile (file : File)
| BodyText (text : string).

(** [RequestOptions]; the headers in the order they were set. *)
Record RequestOptions := {
  method : HTTPMethod;
  headers : list (string * string);
  mode : string;
  body : option Body;
}.

(** What a promise is rejected with, or a function throws: [new Error(v)],
    the [TypeError] of a property read on [null] or [undefined], or a
    reason of the platform's own. *)
Inductive Failure :=
| Error (message : JsVal)
| NoProperty
| Reason (tag : nat).

Inductive Promise (A : Type) :=
| Pending
| Fulfilled (a : A)
| Rejected (e : Failure).
Arguments Pending {A}.
Arguments Fulfilled {A} a.
Arguments Rejected {A} e.

(** [p.then(f)], for an [f] that returns a promise; an [f] that returns a
    value returns it fulfilled, one that throws returns it rejected. *)
Definition then_ {A B} (p : Promise A) (f : A -> Promise B) : Promise B :=
  match p with
  | Pending => Pending
  | Fulfilled a => f a
  | Rejected e => Rejected e
  end.

(** A [Response], by what its [json()] gives. *)
Record Response := { json : Promise JsVal }.

Record ApiBase := {
  apiKey : option string;
  apiServer : string;
  fetch : string -> RequestOptions -> Promise Response;
}.

Definition setKey (key : string) (o : ApiBase) : ApiBase :=
  {| apiKey := Some key; apiServer := apiServer o; fetch := fetch o |}.

Definition setServer (server : string) (o : ApiBase) : ApiBase :=
  {| apiKey := apiKey o; apiServer := server; fetch := fetch o |}.

(** The constructor: the key is left undefined. *)
Definition new_ApiBase (fetch : string -> RequestOptions -> Promise Response) : ApiBase :=
  setServer "api.qminder.com" {| apiKey := None; apiServer := ""; fetch := fetch |}.

(** What a call of [request] does: it throws before anything is sent, or it
    calls [fetch] once and returns a promise. *)
Inductive Requested :=
| Threw (e : Failure)
| Fetched (url : string) (init : RequestOptions) (result : Promise JsVal).

Definition MISSING_KEY : Failure :=
  Error (VStr "Please set the API key before making any requests.").

(** [a || b] *)
Definition or_else (a b : JsVal) : JsVal := if truthy a then a else b.

Section Request.

Variable querystring_stringify : JsVal -> string.

(** [Math.floor(s / 100)] for a string [s]; [None] when it is not a finite
    number. *)
Variable hundreds_of_string : string -> option Z.

(** [Math.floor(v / 100)]; [None] when it is not a finite number. *)
Definition hundreds (v : JsVal) : option Z :=
  match v with
  | VNum n => Some (n / 100)
  | VBool _ | VNull => Some 0
  | VStr s => hundreds_of_string s
  | VUndefined | VFun _ | VObj _ => None
  end.

(** The last [then] of [request]. *)
Definition check_status (responseJson : JsVal) : Promise JsVal :=
  match responseJson with
  | VUndefined | VNull => Rejected NoProperty
  | _ =>
      let statusCode := get_prop responseJson "statusCode" in
      if truthy statusCode && negb (bool_decide (hundreds statusCode = Some 2)) then
        Rejected (Error (or_else (get_prop responseJson "developerMessage")
                                 (get_prop responseJson "message")))
      else Fulfilled responseJson
  end.

Definition request_url (o : ApiBase) (url : string) : string :=
  "https://" +:+ apiServer o +:+ "/v1/" +:+ url.

(** The options [request] hands to [fetch], for a key that is set. *)
Definition request_init (key : string) (data : option RequestData)
    (method_ : option HTTPMethod) : RequestOptions :=
  let init :=
    {| method := default GET method_;
       headers := [("X-Qminder-REST-API-Key"%string, key)];
       mode := "cors"; body := None |} in
  match data with
  | Some data =>
      let init :=
        {| method := POST; headers := headers init; mode := mode init;
           body := body init |} in
      match data with
      | DataFile file =>
          {| method := method init;
             headers := headers init ++ [("Content-Type"%string, file_type file)];
             mode := mode init; body := Some (BodyFile file) |}
      | DataObject props =>
          {| method := method init;
             headers := headers init
                        ++ [("Content-Type"%string,
                             "application/x-www-form-urlencoded"%string)];
             mode := mode init;
             body := Some (BodyText (querystring_stringify (VObj props))) |}
      end
  | None => init
  end.

Definition request (o : ApiBase) (url : string) (data : option RequestData)
    (method_ : option HTTPMethod) : Requested :=
  match apiKey o with
  | Some key =>
      if String.eqb key "" then Threw MISSING_KEY
      else
        let init := request_init key data method_ in
        Fetched (request_url o url) init
          (then_ (then_ (fetch o (request_url o url) init) json) check_status)
  | None => Threw MISSING_KEY
  end.

End Request.

(** The promise a call returned, if it returned. *)
Definition returned (r : Requested) : option (Promise JsVal) :=
  match r with
  | Threw _ => None
  | Fetched _ _ result => Some result
  end.

(** The options a call handed to [fetch], if it called it. *)
Definition sent_options (r : Requested) : option RequestOptions :=
  match r with
  | Threw _ => None
  | Fetched _ init _ => Some init
  end.

(** Sample platform: every request is answered with the same body. *)
Definition answering (responseJson : JsVal) (url : string) (init : RequestOptions)
    : Promise Response :=
  Fulfilled {| json := Fulfilled responseJson |}.

Definition sample_querystring (v : JsVal) : string :=
  match v with
  | VObj props => String.concat "&" (map fst props)
  | _ => EmptyString
  end.

Definition no_hundreds (s : string) : option Z := None.

Definition not_found : JsVal :=
  VObj [("statusCode"%string, VNum 404); ("message"%string, VStr "Not found")].

End ApiBase.

(** ** The methods of the class *)

Section EventsService.

Variable JSON_parse : string -> option JsVal.
Variable JSON_stringify : JsVal -> string.
Variable toPropertyKey : JsVal -> string.

Definition POSSIBLE_LETTERS : string :=
  "ABCDEFGHIJKLMNOPQRSTUVWXYZabcdefghijklmnopqrstuvwxyz0123456789".

(** [random i] is the value of
    [Math.floor(Math.random() * POSSIBLE_LETTERS.length)] in round [i]. *)
Definition createId (random : nat -> nat) : string :=
  fold_left (fun text i => text +:+ charAt POSSIBLE_LETTERS (random i))
            (seq 0 30) EmptyString.

Definition onConnect (callback : JsVal) : Js unit :=
  if is_function callback then
    modify_svc (fun o => set_onConnectCallbacks (onConnectCallbacks o ++ [callback]) o)
  else throw (JsError "Connect callback is not a function.").

Definition onDisconnect (callback : JsVal) : Js unit :=
  if is_function callback then
    modify_svc (fun o => set_onDisconnectCallbacks (onDisconnectCallbacks o ++ [callback]) o)
  else throw (JsError "Disconnect callback is not a function.").

Definition setKey (key : string) : Js unit := modify_svc (set_apiKey key).

Definition setServer (server : string) : Js unit := modify_svc (set_apiServer server).

Definition clear_if_set (clear : nat -> Js unit) (timer : option nat) : Js unit :=
  match timer with
  | Some h => clear h
  | None => mret tt
  end.

(** [openSocket]; the four handlers it installs on the socket are
    [socket_onopen], [socket_onclose], [socket_onerror] and
    [socket_onmessage] below. *)
Definition openSocket : Js unit :=
  o ← get_svc;
  if String.eqb (apiKey o) "" then
    throw (JsError "Please set the API key: Qminder.setKey(...);")
  else if connecting o || connected o then mret tt
  else
    modify_svc (set_connecting true);;
    clear_if_set clearTimeout (retryTimeout o);;
    h ← new_WebSocket (apiServer o +:+ "/events?rest-api-key=" +:+ apiKey o);
    modify_svc (set_socket (Some h)).

Definition subscribe (subscription : EventSubscription) (callback : JsVal) : Js unit :=
  o ← get_svc;
  when (findIndex (fun sub => String.eqb (sub_id sub) (sub_id subscription))
                  (subscriptions o) =? -1)
       (modify_svc (fun o => set_subscriptions (subscriptions o ++ [subscription]) o));;
  when (is_function callback)
       (modify_svc (fun o => set_subscriptionCallbackMap
                      (<[sub_id subscription := callback]> (subscriptionCallbackMap o)) o));;
  o ← get_svc;
  if connected o then socket_send (JSON_stringify (subscription_object subscription))
  else if negb (connecting o) then openSocket
  else mret tt.

(** The guarded call of an observer: [(typeof each === 'function') && each()]. *)
Definition call_observer (each : JsVal) : Js unit :=
  when (is_function each) (call_value each).

Definition socket_onopen : Js unit :=
  modify_svc (set_connected true);;
  modify_svc (set_connectionRetries 0);;
  forEach (fun s => subscriptions (svc s)) (fun message => subscribe message VUndefined);;
  h ← setInterval 10000;
  modify_svc (set_pingInterval (Some h));;
  o ← get_svc;
  when (0 <? Z.of_nat (length (onConnectCallbacks o)))
       (forEach (fun s => onConnectCallbacks (svc s)) call_observer).

Definition socket_onclose (code : Z) : Js unit :=
  modify_svc (set_connected false);;
  modify_svc (set_connecting false);;
  o ← get_svc;
  match pingInterval o with
  | Some h => clearInterval h;; modify_svc (set_pingInterval None)
  | None => mret tt
  end;;
  when (negb (code =? 1000))
       (o ← get_svc;
        let timeoutMult := connectionRetries o / 10 in
        let newTimeout := Z.min (5000 + timeoutMult * 1000) 60000 in
        clear_if_set clearTimeout (retryTimeout o);;
        h ← setTimeout newTimeout;
        modify_svc (set_retryTimeout (Some h));;
        modify_svc (fun o => set_connectionRetries (connectionRetries o + 1) o));;
  o ← get_svc;
  when (0 <? Z.of_nat (length (onDisconnectCallbacks o)))
       (forEach (fun s => onDisconnectCallbacks (svc s)) call_observer).

Definition socket_onerror : Js unit := mret tt.

(** [console.log(exc.stack)]: reading a property of [null] or of
    [undefined] throws. *)
Definition log_stack (exc : Exn) : Js unit :=
  match exc with
  | ThrownBy f => if fn_nullish f then throw TypeError else mret tt
  | _ => mret tt
  end.

Definition is_pong (data : MessageData) : bool :=
  match data with
  | DText text => String.eqb text "PONG"
  | DBinary => false
  end.

Definition socket_onmessage (data : MessageData) : Js unit :=
  if is_pong data then mret tt
  else
    try_catch
      (match data with
       | DText text =>
         match JSON_parse text with
         | None => throw SyntaxError
         | Some message =>
           key ← member message "subscriptionId";
           o ← get_svc;
           let callback :=
             default VUndefined (subscriptionCallbackMap o !! toPropertyKey key) in
           if truthy callback && is_function callback then
             member message "data";; call_value callback
           else mret tt
         end
       | DBinary => mret tt
       end)
      log_stack.

Definition closeSocket : Js unit :=
  o ← get_svc; p ← get_env;
  match socket o with
  | Some h => if bool_decide (readyState p h = Some 1) then socket_close h else mret tt
  | None => mret tt
  end.

Definition reset : Js unit :=
  modify_svc (set_apiKey "");;
  modify_svc (set_apiServer "wss://api.qminder.com:443");;
  o ← get_svc; p ← get_env;
  match socket o with
  | Some h => when (bool_decide (readyState p h = Some 1)) (socket_close h)
  | None => mret tt
  end;;
  modify_svc (set_connecting false);;
  modify_svc (set_connected false);;
  clear_if_set clearTimeout (retryTimeout o);;
  modify_svc (set_retryTimeout None);;
  clear_if_set clearInterval (pingInterval o);;
  modify_svc (set_pingInterval None);;
  modify_svc (set_subscriptions []);;
  modify_svc (set_connectionRetries 0);;
  modify_svc (set_subscriptionCallbackMap ∅);;
  modify_svc (set_onConnectCallbacks []);;
  modify_svc (set_onDisconnectCallbacks []).

(** The record [createSubscription] builds before it calls [subscribe]. *)
Definition build_subscription (identifier : string) (eventType : EventType)
    (filter parameters : JsVal) : EventSubscription :=
  let subscription :=
    {| sub_id := identifier; sub_subscribe := eventType;
       sub_line := None; sub_location := None; sub_parameters := None |} in
  let subscription :=
    if truthy filter then
      let subscription :=
        if negb (String.eqb (typeof (get_prop filter "line")) "undefined") then
          {| sub_id := sub_id subscription; sub_subscribe := sub_subscribe subscription;
             sub_line := Some (get_prop filter "line");
             sub_location := sub_location subscription;
             sub_parameters := sub_parameters subscription |}
        else subscription in
      if negb (String.eqb (typeof (get_prop filter "location")) "undefined") then
        {| sub_id := sub_id subscription; sub_subscribe := sub_subscribe subscription;
           sub_line := sub_line subscription;
           sub_location := Some (get_prop filter "location");
           sub_parameters := sub_parameters subscription |}
      else subscription
    else subscription in
  if truthy parameters then
    {| sub_id := sub_id subscription; sub_subscribe := sub_subscribe subscription;
       sub_line := sub_line subscription; sub_location := sub_location subscription;
       sub_parameters := Some parameters |}
  else subscription.

Definition createSubscription (random : nat -> nat) (eventType : EventType)
    (callback filter parameters : JsVal) : Js unit :=
  subscribe (build_subscription (createId random) eventType filter parameters) callback.

(** [{ id }] *)
Definition id_parameters (id : JsVal) : JsVal := VObj [("id"%string, id)].

Definition onTicketCreated random (callback filter : JsVal) : Js unit :=
  createSubscription random TICKET_CREATED callback filter VUndefined.
Definition onTicketCalled random (callback filter : JsVal) : Js unit :=
  createSubscription random TICKET_CALLED callback filter VUndefined.
Definition onTicketRecalled random (callback filter : JsVal) : Js unit :=
  createSubscription random TICKET_RECALLED callback filter VUndefined.
Definition onTicketCancelled random (callback filter : JsVal) : Js unit :=
  createSubscription random TICKET_CANCELLED callback filter VUndefined.
Definition onTicketServed random (callback filter : JsVal) : Js unit :=
  createSubscription random TICKET_SERVED callback filter VUndefined.
Definition onTicketChanged random (callback filter : JsVal) : Js unit :=
  createSubscription random TICKET_CHANGED callback filter VUndefined.
Definition onOverviewMonitorChanged random (callback id : JsVal) : Js unit :=
  createSubscription random OVERVIEW_MONITOR_CHANGE callback VUndefined (id_parameters id).
Definition onSignInDeviceChanged random (callback id : JsVal) : Js unit :=
  createSubscription random SIGN_IN_CHANGE callback VUndefined (id_parameters id).
Definition onLinesChanged random (callback id : JsVal) : Js unit :=
  createSubscription random LINES_CHANGED callback VUndefined (id_parameters id).
Definition onLocationChanged random (callback id : JsVal) : Js unit :=
  if negb (String.eqb (typeof id) "number") then
    throw (JsError "EventsService: onLocationChanged: missing location ID")
  else createSubscription random LOCATION_CHANGE callback VUndefined (id_parameters id).

(** The ten subscribe-style methods as data. *)
Inductive ApiCall :=
| OnTicketCreated (callback filter : JsVal)
| OnTicketCalled (callback filter : JsVal)
| OnTicketRecalled (callback filter : JsVal)
| OnTicketCancelled (callback filter : JsVal)
| OnTicketServed (callback filter : JsVal)
| OnTicketChanged (callback filter : JsVal)
| OnOverviewMonitorChanged (callback id : JsVal)
| OnSignInDeviceChanged (callback id : JsVal)
| OnLinesChanged (callback id : JsVal)
| OnLocationChanged (callback id : JsVal).

Definition api_call (random : nat -> nat) (c : ApiCall) : Js unit :=
  match c with
  | OnTicketCreated cb f => onTicketCreated random cb f
  | OnTicketCalled cb f => onTicketCalled random cb f
  | OnTicketRecalled cb f => onTicketRecalled random cb f
  | OnTicketCancelled cb f => onTicketCancelled random cb f
  | OnTicketServed cb f => onTicketServed random cb f
  | OnTicketChanged cb f => onTicketChanged random cb f
  | OnOverviewMonitorChanged cb i => onOverviewMonitorChanged random cb i
  | OnSignInDeviceChanged cb i => onSignInDeviceChanged random cb i
  | OnLinesChanged cb i => onLinesChanged random cb i
  | OnLocationChanged cb i => onLocationChanged random cb i
  end.

(** The state the constructor leaves: [reset()] on a new object, on a
    platform with no socket and no timer. *)
Definition new_EventsService : State :=
  {| svc := {| apiKey := ""; apiServer := "wss://api.qminder.com:443";
               socket := None; connecting := false; connected := false;
               retryTimeout := None; pingInterval := None;
               subscriptions := []; connectionRetries := 0;
               subscriptionCallbackMap := ∅;
               onConnectCallbacks := []; onDisconnectCallbacks := [] |};
     env := {| sockets := []; sent := []; timeouts := []; intervals := [];
               nextTimer := 1; invoked := [] |} |}.

(** ** What can happen to the service

    Calls of the methods by the application, and what the platform
    delivers: the events of a socket and the firing of timers.  The
    platform delivers the open event of a socket once, while it is
    connecting; messages while it is open or closing; the close event once,
    after which the socket is closed for good; a timeout only while it is
    pending and an interval only while it runs. *)
Inductive Event :=
| CallApi (random : nat -> nat) (c : ApiCall)
| CallSubscribe (subscription : EventSubscription) (callback : JsVal)
| CallOpenSocket
| CallCloseSocket
| CallSetKey (key : string)
| CallSetServer (server : string)
| CallOnConnect (callback : JsVal)
| CallOnDisconnect (callback : JsVal)
| CallReset
| SocketOpen (h : nat)
| SocketClose (h : nat) (code : Z)
| SocketError (h : nat)
| SocketMessage (h : nat) (data : MessageData)
| TimeoutFires (h : nat)
| IntervalFires (h : nat).

Definition pending (h : nat) (l : list (nat * Z)) : bool :=
  existsb (fun x => Nat.eqb (fst x) h) l.

Definition live (p : Platform) (h : nat) : bool :=
  match readyState p h with
  | Some r => negb (r =? 3)
  | None => false
  end.

(** Whether the platform can deliver the event in this state; the calls of
    the application are always possible. *)
Definition deliverable (ev : Event) (s : State) : bool :=
  match ev with
  | SocketOpen h => bool_decide (readyState (env s) h = Some 0)
  | SocketClose h _ => live (env s) h
  | SocketError h => live (env s) h
  | SocketMessage h _ =>
      bool_decide (readyState (env s) h = Some 1)
      || bool_decide (readyState (env s) h = Some 2)
  | TimeoutFires h => pending h (timeouts (env s))
  | IntervalFires h => pending h (intervals (env s))
  | _ => true
  end.

Definition handle (ev : Event) : Js unit :=
  match ev with
  | CallApi random c => api_call random c
  | CallSubscribe subscription callback => subscribe subscription callback
  | CallOpenSocket => openSocket
  | CallCloseSocket => closeSocket
  | CallSetKey key => setKey key
  | CallSetServer server => setServer server
  | CallOnConnect callback => onConnect callback
  | CallOnDisconnect callback => onDisconnect callback
  | CallReset => reset
  | SocketOpen h => modify_env (set_readyState h 1);; socket_onopen
  | SocketClose h code => modify_env (set_readyState h 3);; socket_onclose code
  | SocketError h => socket_onerror
  | SocketMessage h data => socket_onmessage data
  | TimeoutFires h => clearTimeout h;; openSocket
  | IntervalFires h => socket_send "PING"
  end.

(** The state after the event; an exception that escapes a handler or a
    call leaves the mutations made so far. *)
Definition fire (s : State) (ev : Event) : State :=
  if deliverable ev s then final (handle ev s) else s.

Definition run (evs : list Event) (s : State) : State := fold_left fire evs s.


(** ** Vocabulary of the statements *)

(** The two errors of the configuration. *)
Definition MISSING_KEY : Exn :=
  JsError "Please set the API key: Qminder.setKey(...);".

Definition MISSING_LOCATION_ID : Exn :=
  JsError "EventsService: onLocationChanged: missing location ID".

(** A record with this identifier is in the registry. *)
Definition registered (identifier : string) (l : list EventSubscription) : bool :=
  existsb (fun sub => String.eqb (sub_id sub) identifier) l.

(** [register] of the registry: what [subscribe] does to the array of
    subscriptions. *)
Definition register (l : list EventSubscription) (sub : EventSubscription)
    : list EventSubscription :=
  if registered (sub_id sub) l then l else l ++ [sub].

(** The record a subscribe-style call builds, [None] when the call is
    refused for its arguments, and the callback and the filter it passes. *)
Definition call_record (random : nat -> nat) (c : ApiCall) : option EventSubscription :=
  let by_filter t f := Some (build_subscription (createId random) t f VUndefined) in
  let by_id t i := Some (build_subscription (createId random) t VUndefined (id_parameters i)) in
  match c with
  | OnTicketCreated _ f => by_filter TICKET_CREATED f
  | OnTicketCalled _ f => by_filter TICKET_CALLED f
  | OnTicketRecalled _ f => by_filter TICKET_RECALLED f
  | OnTicketCancelled _ f => by_filter TICKET_CANCELLED f
  | OnTicketServed _ f => by_filter TICKET_SERVED f
  | OnTicketChanged _ f => by_filter TICKET_CHANGED f
  | OnOverviewMonitorChanged _ i => by_id OVERVIEW_MONITOR_CHANGE i
  | OnSignInDeviceChanged _ i => by_id SIGN_IN_CHANGE i
  | OnLinesChanged _ i => by_id LINES_CHANGED i
  | OnLocationChanged _ i =>
      if String.eqb (typeof i) "number" then by_id LOCATION_CHANGE i else None
  end.

Definition call_callback (c : ApiCall) : JsVal :=
  match c with
  | OnTicketCreated cb _ | OnTicketCalled cb _ | OnTicketRecalled cb _
  | OnTicketCancelled cb _ | OnTicketServed cb _ | OnTicketChanged cb _
  | OnOverviewMonitorChanged cb _ | OnSignInDeviceChanged cb _
  | OnLinesChanged cb _ | OnLocationChanged cb _ => cb
  end.

Definition call_filter (c : ApiCall) : JsVal :=
  match c with
  | OnTicketCreated _ f | OnTicketCalled _ f | OnTicketRecalled _ f
  | OnTicketCancelled _ f | OnTicketServed _ f | OnTicketChanged _ f => f
  | _ => VUndefined
  end.

(** The value a filter gives for a scope, if it defines one. *)
Definition scope (filter : JsVal) (k : string) : option JsVal :=
  if truthy filter && negb (String.eqb (typeof (get_prop filter k)) "undefined")
  then Some (get_prop filter k)
  else None.



(** The calls an application makes before its first socket opens: the
    subscribe-style calls, with the registry they build, the registration
    of observers and the choice of the server. *)
Definition subscribe_call (ev : Event) : bool :=
  match ev with
  | CallApi _ _ | CallSubscribe _ _
  | CallOnConnect _ | CallOnDisconnect _ | CallSetServer _ => true
  | _ => false
  end.

Definition event_record (ev : Event) : option EventSubscription :=
  match ev with
  | CallApi random c => call_record random c
  | CallSubscribe sub _ => Some sub
  | _ => None
  end.

Definition registry_after (evs : list Event) (reg : list EventSubscription)
    : list EventSubscription :=
  fold_left (fun reg ev =>
               match event_record ev with
               | Some r => register reg r
               | None => reg
               end) evs reg.

(** Before the first open event: nothing sent yet, and a connecting
    socket, the first one, exactly when there is something to replay. *)
Definition waiting (key : string) (reg : list EventSubscription) (s : State) : Prop :=
  apiKey (svc s) = key
  /\ subscriptions (svc s) = reg
  /\ connected (svc s) = false
  /\ sent (env s) = []
  /\ match reg with
     | [] => connecting (svc s) = false /\ sockets (env s) = []
     | _ :: _ => connecting (svc s) = true /\ socket (svc s) = Some 0%nat
                 /\ readyState (env s) 0 = Some 0
     end.

(** Events that neither reset the retry counter nor count as a failed
    attempt: all but the open event, [reset] and a close with a code
    other than 1000. *)
Definition quiet (ev : Event) : bool :=
  match ev with
  | SocketOpen _ | CallReset => false
  | SocketClose _ code => code =? 1000
  | _ => true
  end.

(** [Retrying s n]: in state [s] the socket has closed abnormally [n]
    times in a row since the service was created or reset, or since a
    socket last opened. *)
Inductive Retrying : State -> nat -> Prop :=
| retrying_new : Retrying new_EventsService 0
| retrying_open s h :
    deliverable (SocketOpen h) s = true -> Retrying (fire s (SocketOpen h)) 0
| retrying_reset s : Retrying (fire s CallReset) 0
| retrying_close s n h code :
    Retrying s n -> deliverable (SocketClose h code) s = true -> code <> 1000 ->
    Retrying (fire s (SocketClose h code)) (S n)
| retrying_other s n ev :
    Retrying s n -> quiet ev = true -> Retrying (fire s ev) n.

(** The part of the state the connection life cycle is about. *)
Definition core (s : State) :=
  (connecting (svc s), connected (svc s), socket (svc s), retryTimeout (svc s),
   pingInterval (svc s), sockets (env s), timeouts (env s), intervals (env s)).

(** What holds of the sockets and timers in every state the service
    reaches: a socket that is not closed is the current one, and the
    service is then connecting; no timeout is pending while it is
    connecting; the pending timeouts and the running intervals are the
    ones the service remembers; no interval runs unless connected; and
    while connected the current socket has left the connecting state. *)
Definition steady (s : State) : Prop :=
  (forall h, live (env s) h = true ->
             connecting (svc s) = true /\ socket (svc s) = Some h)
  /\ (connecting (svc s) = true -> timeouts (env s) = [])
  /\ (forall x, x ∈ timeouts (env s) -> retryTimeout (svc s) = Some x.1)
  /\ (forall x, x ∈ intervals (env s) -> pingInterval (svc s) = Some x.1)
  /\ (connected (svc s) = false -> intervals (env s) = [])
  /\ (connected (svc s) = true ->
      exists h, socket (svc s) = Some h /\ readyState (env s) h <> Some 0).

Definition is_reset (ev : Event) : bool :=
  match ev with
  | CallReset => true
  | _ => false
  end.

(** The states of the life cycle: from the new service, through any
    events, [reset] being called only when every socket is closed. *)
Inductive Lifecycle : State -> Prop :=
| lifecycle_new : Lifecycle new_EventsService
| lifecycle_fire s ev :
    Lifecycle s -> is_reset ev = false -> Lifecycle (fire s ev)
| lifecycle_reset s :
    Lifecycle s -> (forall h, live (env s) h = false) -> Lifecycle (fire s CallReset).

(** The frame [subscribe] sends for a record. *)
Definition frame_of (h : nat) (sub : EventSubscription) : nat * string :=
  (h, JSON_stringify (subscription_object sub)).

(** The calls a [forEach] over a list of observers makes: the functions in
    order, up to and including the first one that throws. *)
Fixpoint observed (l : list JsVal) : list JsFun :=
  match l with
  | [] => []
  | VFun f :: rest => f :: (if fn_throws f then [] else observed rest)
  | _ :: rest => observed rest
  end.

Fixpoint observer_exn (l : list JsVal) : option Exn :=
  match l with
  | [] => None
  | VFun f :: rest => if fn_throws f then Some (ThrownBy f) else observer_exn rest
  | _ :: rest => observer_exn rest
  end.

Definition add_invoked (fs : list JsFun) (s : State) : State :=
  {| svc := svc s; env := set_invoked (invoked (env s) ++ fs) (env s) |}.

Definition add_sent (frames : list (nat * string)) (s : State) : State :=
  {| svc := svc s; env := set_sent (sent (env s) ++ frames) (env s) |}.

(** The state a close event with this code leaves, before the observers
    are called. *)
Definition closed (code : Z) (s : State) : State :=
  let o1 := set_connecting false (set_connected false (svc s)) in
  let s1 :=
    match pingInterval (svc s) with
    | Some h => {| svc := set_pingInterval None o1;
                   env := set_intervals (remove_timer h (intervals (env s))) (env s) |}
    | None => {| svc := o1; env := env s |}
    end in
  if code =? 1000 then s1
  else
    let delay := Z.min (5000 + connectionRetries (svc s) / 10 * 1000) 60000 in
    let p2 :=
      match retryTimeout (svc s) with
      | Some t => set_timeouts (remove_timer t (timeouts (env s1))) (env s1)
      | None => env s1
      end in
    {| svc := set_connectionRetries (connectionRetries (svc s) + 1)
                (set_retryTimeout (Some (nextTimer p2)) (svc s1));
       env := set_nextTimer (S (nextTimer p2))
                (set_timeouts (timeouts p2 ++ [(nextTimer p2, delay)]) p2) |}.

(** The state an open event leaves on the socket [h], before the
    observers are called. *)
Definition opened (frames : list (nat * string)) (s : State) : State :=
  {| svc := set_pingInterval (Some (nextTimer (env s)))
              (set_connectionRetries 0 (set_connected true (svc s)));
     env := set_nextTimer (S (nextTimer (env s)))
              (set_intervals (intervals (env s) ++ [(nextTimer (env s), 10000)])
                 (set_sent (sent (env s) ++ frames) (env s))) |}.

Definition finish (e : option Exn) (s : State) : Outcome unit :=
  match e with
  | None => Return tt s
  | Some exn => Throw exn s
  end.

(** ** Sample runs *)

Definition sample_random (k : nat) : nat -> nat := fun i => ((i + k) mod 62)%nat.

Definition quiet_observer : JsFun :=
  {| fn_tag := 1; fn_throws := false; fn_nullish := false |}.
Definition throwing_observer : JsFun :=
  {| fn_tag := 2; fn_throws := true; fn_nullish := false |}.
Definition late_observer : JsFun :=
  {| fn_tag := 3; fn_throws := false; fn_nullish := false |}.

(** A function that does [throw null]. *)
Definition null_thrower : JsFun :=
  {| fn_tag := 4; fn_throws := true; fn_nullish := true |}.

(** A service with observers, waiting for its first socket to open. *)
Definition observed_service : State :=
  run [CallOnConnect (VFun quiet_observer);
       CallOnConnect (VFun throwing_observer);
       CallOnConnect (VFun late_observer);
       CallOnDisconnect (VFun throwing_observer);
       CallOnDisconnect (VFun late_observer);
       CallSetKey "k"; CallOpenSocket] new_EventsService.

(** A service whose first socket is open. *)
Definition connected_service : State :=
  run [CallSetKey "k"; CallOpenSocket; SocketOpen 0] new_EventsService.

(** Nine attempts that fail one after the other, each retried when its
    timeout fires; the tenth socket is connecting. *)
Definition nine_failures : list Event :=
  CallSetKey "k" :: CallOpenSocket
  :: flat_map (fun i => [SocketClose i 1006; TimeoutFires (S i)]) (seq 0 9).

Definition both_scopes : JsVal :=
  VObj [("line"%string, VNum 1); ("location"%string, VNum 2)].

Definition sample_calls : list Event :=
  [CallApi (sample_random 0)
     (OnTicketCreated (VFun quiet_observer) (VObj [("location"%string, VNum 1234)]));
   CallApi (sample_random 1) (OnLocationChanged (VFun quiet_observer) VUndefined);
   CallApi (sample_random 2) (OnLocationChanged (VFun quiet_observer) (VNum 7))].

(** A socket that outlives a [reset]: the first socket is open when the
    application resets the service, which starts closing it; the
    application sets the key again and opens a second socket, which
    fails.  The close event of the first socket is still to come. *)
Definition stale_socket_service : State :=
  run [CallSetKey "k"; CallOpenSocket; SocketOpen 0; CallReset;
       CallSetKey "k"; CallOpenSocket; SocketClose 1 1006] new_EventsService.


(** ** Vocabulary of the further properties *)

(** The url [openSocket] connects to. *)
Definition socket_url (server key : string) : string :=
  server +:+ "/events?rest-api-key=" +:+ key.

(** The service after the first two steps of [subscribe]: the record
    registered, the callback bound when it is a function. *)
Definition booked (sub : EventSubscription) (callback : JsVal) (o : EventsService)
    : EventsService :=
  let o1 :=
    if registered (sub_id sub) (subscriptions o) then o
    else set_subscriptions (subscriptions o ++ [sub]) o in
  if is_function callback then
    set_subscriptionCallbackMap
      (<[sub_id sub := callback]> (subscriptionCallbackMap o1)) o1
  else o1.

(** The state [openSocket] leaves when it does open a socket. *)
Definition dialing (s : State) : State :=
  let p :=
    match retryTimeout (svc s) with
    | Some t => set_timeouts (remove_timer t (timeouts (env s))) (env s)
    | None => env s
    end in
  {| svc := set_socket (Some (length (sockets (env s)))) (set_connecting true (svc s));
     env := set_sockets
              (sockets (env s)
               ++ [(socket_url (apiServer (svc s)) (apiKey (svc s)), 0)]) p |}.

(** The state [reset] leaves. *)
Definition wiped (s : State) : State :=
  let p0 :=
    match socket (svc s) with
    | Some h =>
        if bool_decide (readyState (env s) h = Some 1)
        then set_readyState h 2 (env s) else env s
    | None => env s
    end in
  let p1 :=
    match retryTimeout (svc s) with
    | Some t => set_timeouts (remove_timer t (timeouts p0)) p0
    | None => p0
    end in
  let p2 :=
    match pingInterval (svc s) with
    | Some t => set_intervals (remove_timer t (intervals p1)) p1
    | None => p1
    end in
  {| svc := set_socket (socket (svc s)) (svc new_EventsService); env := p2 |}.

(** Beside [steady]: connected only while connecting, and at most one
    timeout and one interval. *)
Definition tidy (s : State) : Prop :=
  (connected (svc s) = true -> connecting (svc s) = true)
  /\ (length (timeouts (env s)) <= 1)%nat
  /\ (length (intervals (env s)) <= 1)%nat.

(** The delay [socket.onclose] computes from the retry counter. *)
Definition backoff (retries : Z) : Z := Z.min (5000 + retries / 10 * 1000) 60000.

(** A url [openSocket] makes from some server and a key that is not empty. *)
Definition keyed (url : string) : Prop :=
  exists server key, key <> ""%string /\ url = socket_url server key.

(** The registry and the dispatch table agree: no two records share an
    identifier, and every callback bound is a function whose identifier is
    registered. *)
Definition accounted (s : State) : Prop :=
  NoDup (map sub_id (subscriptions (svc s)))
  /\ forall i v, subscriptionCallbackMap (svc s) !! i = Some v ->
       is_function v = true /\ registered i (subscriptions (svc s)) = true.

(** ** More sample runs *)

(** A service whose first socket closed abnormally: the retry is pending. *)
Definition retrying_service : State :=
  run [CallSetKey "k"; CallOpenSocket; SocketClose 0 1006] new_EventsService.

(** The same, the key having been emptied in the meantime. *)
Definition keyless_service : State :=
  run [CallSetKey "k"; CallOpenSocket; SocketClose 0 1006; CallSetKey ""]
      new_EventsService.

(** A service with one subscription, connected. *)
Definition sample_subscription : EventSubscription :=
  {| sub_subscribe := TICKET_CALLED; sub_id := "abc";
     sub_line := Some (VNum 7); sub_location := None; sub_parameters := None |}.

Definition subscribed_service : State :=
  run [CallSetKey "k"; CallSubscribe sample_subscription (VFun quiet_observer);
       SocketOpen 0] new_EventsService.

(** A parser stub for frames that carry an identifier: the text is read as
    the identifier of the subscription the frame is for. *)
Definition identifier_parse (text : string) : option JsVal :=
  if String.eqb text "PONG" then None
  else Some (VObj [("subscriptionId"%string, VStr text)]).

(** The event a subscribe-style method asks for, and the id it is given
    when it takes an id instead of a filter. *)
Definition call_event (c : ApiCall) : EventType :=
  match c with
  | OnTicketCreated _ _ => TICKET_CREATED
  | OnTicketCalled _ _ => TICKET_CALLED
  | OnTicketRecalled _ _ => TICKET_RECALLED
  | OnTicketCancelled _ _ => TICKET_CANCELLED
  | OnTicketServed _ _ => TICKET_SERVED
  | OnTicketChanged _ _ => TICKET_CHANGED
  | OnOverviewMonitorChanged _ _ => OVERVIEW_MONITOR_CHANGE
  | OnSignInDeviceChanged _ _ => SIGN_IN_CHANGE
  | OnLinesChanged _ _ => LINES_CHANGED
  | OnLocationChanged _ _ => LOCATION_CHANGE
  end.

Definition call_id (c : ApiCall) : option JsVal :=
  match c with
  | OnOverviewMonitorChanged _ i | OnSignInDeviceChanged _ i
  | OnLinesChanged _ i | OnLocationChanged _ i => Some i
  | _ => None
  end.

(** The calls that are refused for their arguments: [onLocationChanged]
    with an id that is not a number. *)
Definition refused (c : ApiCall) : bool :=
  match c with
  | OnLocationChanged _ i => negb (String.eqb (typeof i) "number")
  | _ => false
  end.

(** The object a subscribe-style call puts on the wire. *)
Definition call_object (random : nat -> nat) (c : ApiCall) : JsVal :=
  VObj ([("id"%string, VStr (createId random));
         ("subscribe"%string, VStr (EventType_name (call_event c)))]
        ++ opt_prop "line" (scope (call_filter c) "line")
        ++ opt_prop "location" (scope (call_filter c) "location")
        ++ opt_prop "parameters" (option_map id_parameters (call_id c))).

(** * Properties *)

Ltac js_unfold :=
  repeat progress
    (unfold clear_if_set, when, try_catch, throw, get_svc, get_env,
       modify_svc, modify_env, mbind, Js_bind, mret, Js_ret in * ).

Ltac js_run :=
  unfold api_call, onTicketCreated, onTicketCalled, onTicketRecalled,
    onTicketCancelled, onTicketServed, onTicketChanged, onOverviewMonitorChanged,
    onSignInDeviceChanged, onLinesChanged, onLocationChanged, createSubscription,
    subscribe, openSocket, closeSocket, reset, setKey, setServer, onConnect,
    onDisconnect, socket_send, socket_close, new_WebSocket, setTimeout,
    clearTimeout, setInterval, clearInterval, socket_onerror, findIndex in *;
  js_unfold; simpl in *.

Lemma openSocket_needs_key (s : State) :
  apiKey (svc s) = ""%string -> openSocket s = Throw MISSING_KEY s.
Proof.
  intros Hkey. unfold openSocket. js_unfold. rewrite Hkey. reflexivity.
Qed.

(** C6. Whatever the state, [openSocket] with an empty API key throws the
    configuration error to its caller and changes nothing: the service
    fields and the platform (sockets, frames sent, timers) are those of
    before, so no socket was created. *)
Theorem openSocket_without_key_throws (s : State) :
  apiKey (svc s) = ""%string ->
  openSocket s = Throw MISSING_KEY s
  /\ final (openSocket s) = s
  /\ sockets (env (final (openSocket s))) = sockets (env s).
Proof.
  intros Hkey. rewrite (openSocket_needs_key s Hkey). auto.
Qed.

(** C7. [onLocationChanged] with an id that is not a number (a missing
    argument is [undefined]) throws before anything else happens: the
    state is the one of before, hence no record is registered and nothing
    is sent. *)
Theorem onLocationChanged_without_numeric_id
    (random : nat -> nat) (callback id : JsVal) (s : State) :
  typeof id <> "number"%string ->
  onLocationChanged random callback id s = Throw MISSING_LOCATION_ID s
  /\ subscriptions (svc (final (onLocationChanged random callback id s)))
     = subscriptions (svc s)
  /\ sent (env (final (onLocationChanged random callback id s))) = sent (env s)
  /\ sockets (env (final (onLocationChanged random callback id s))) = sockets (env s).
Proof.
  intros Hid. unfold onLocationChanged.
  destruct (String.eqb_spec (typeof id) "number") as [E | _]; [contradiction |].
  simpl. auto.
Qed.

(** ** Arrays and loops *)

Lemma findIndex_from_registered (identifier : string) (l : list EventSubscription) (i : Z) :
  0 <= i ->
  (findIndex_from (fun sub => String.eqb (sub_id sub) identifier) l i =? -1)
  = negb (registered identifier l).
Proof.
  revert i. induction l as [| x l IH]; intros i Hi; simpl; [reflexivity |].
  destruct (String.eqb (sub_id x) identifier); simpl.
  - apply Z.eqb_neq. lia.
  - apply IH. lia.
Qed.

Lemma add_invoked_nil (s : State) : add_invoked [] s = s.
Proof.
  destruct s as [o p]. destruct p. unfold add_invoked, set_invoked. simpl.
  by rewrite app_nil_r.
Qed.

Lemma add_invoked_app (fs gs : list JsFun) (s : State) :
  add_invoked gs (add_invoked fs s) = add_invoked (fs ++ gs) s.
Proof. unfold add_invoked, set_invoked. simpl. by rewrite app_assoc. Qed.

Lemma add_sent_nil (s : State) : add_sent [] s = s.
Proof.
  destruct s as [o p]. destruct p. unfold add_sent, set_sent. simpl.
  by rewrite app_nil_r.
Qed.

Lemma add_sent_app (fs gs : list (nat * string)) (s : State) :
  add_sent gs (add_sent fs s) = add_sent (fs ++ gs) s.
Proof. unfold add_sent, set_sent. simpl. by rewrite app_assoc. Qed.

Lemma call_observer_skip (each : JsVal) (s : State) :
  is_function each = false -> call_observer each s = Return tt s.
Proof. intros H. unfold call_observer. rewrite H. reflexivity. Qed.

(** A [forEach] over a list of observers that the calls do not change. *)
Lemma forEach_loop_observers (arr : State -> list JsVal) :
  (forall fs s, arr (add_invoked fs s) = arr s) ->
  forall n k s, (k + n)%nat = length (arr s) ->
  forEach_loop arr call_observer k n s
  = finish (observer_exn (drop k (arr s))) (add_invoked (observed (drop k (arr s))) s).
Proof.
  intros Harr. induction n as [| n IH]; intros k s Hlen; simpl.
  - rewrite drop_ge by lia. simpl. by rewrite add_invoked_nil.
  - destruct (arr s !! k) as [x |] eqn:Hx.
    2: { apply lookup_ge_None in Hx. lia. }
    rewrite (drop_S _ _ _ Hx). 
    assert (Hstep : forall fs, (S k + n)%nat = length (arr (add_invoked fs s))).
    { intros fs. rewrite Harr. lia. }
    unfold mbind, Js_bind.
    destruct x as [| | b | z | t | f | props];
      try (rewrite call_observer_skip by reflexivity;
           rewrite (IH (S k) s) by lia; reflexivity).
    change (call_observer (VFun f) s) with (call_function f s).
    unfold call_function. js_unfold. simpl.
    destruct (fn_throws f) eqn:Hf; simpl.
    + reflexivity.
    + change {| svc := svc s; env := set_invoked (invoked (env s) ++ [f]) (env s) |}
        with (add_invoked [f] s).
      rewrite (IH (S k) (add_invoked [f] s) (Hstep [f])).
      rewrite Harr, add_invoked_app. reflexivity.
Qed.

Lemma forEach_observers (arr : State -> list JsVal) (s : State) :
  (forall fs s, arr (add_invoked fs s) = arr s) ->
  forEach arr call_observer s
  = finish (observer_exn (arr s)) (add_invoked (observed (arr s)) s).
Proof.
  intros Harr. unfold forEach.
  rewrite (forEach_loop_observers arr Harr (length (arr s)) 0 s) by lia.
  reflexivity.
Qed.

(** ** The registry *)

Lemma registered_lookup (l : list EventSubscription) (k : nat) (x : EventSubscription) :
  l !! k = Some x -> registered (sub_id x) l = true.
Proof.
  intros H. unfold registered. apply existsb_exists. exists x. split.
  - apply list_elem_of_In. eapply list_elem_of_lookup_2. exact H.
  - apply String.eqb_refl.
Qed.

Lemma registered_app (identifier : string) (l1 l2 : list EventSubscription) :
  registered identifier (l1 ++ l2)
  = registered identifier l1 || registered identifier l2.
Proof. unfold registered. apply existsb_app. Qed.

(** Subscribing again to a registered record while connected: one frame
    is sent and nothing else changes. *)
Lemma subscribe_again (sub : EventSubscription) (h : nat) (s : State) :
  connected (svc s) = true ->
  socket (svc s) = Some h ->
  registered (sub_id sub) (subscriptions (svc s)) = true ->
  subscribe sub VUndefined s = Return tt (add_sent [frame_of h sub] s).
Proof.
  intros Hc Hs Hr. unfold subscribe, findIndex. js_unfold. simpl.
  rewrite (findIndex_from_registered _ _ 0) by lia.
  rewrite Hr. simpl. rewrite Hc.
  unfold socket_send. js_unfold. simpl. rewrite Hs. reflexivity.
Qed.

Lemma replay_loop (h : nat) :
  forall n k s,
  connected (svc s) = true ->
  socket (svc s) = Some h ->
  (k + n)%nat = length (subscriptions (svc s)) ->
  forEach_loop (fun s => subscriptions (svc s))
               (fun message => subscribe message VUndefined) k n s
  = Return tt (add_sent (map (frame_of h) (drop k (subscriptions (svc s)))) s).
Proof.
  induction n as [| n IH]; intros k s Hc Hs Hlen; simpl.
  - rewrite drop_ge by lia. simpl. by rewrite add_sent_nil.
  - destruct (subscriptions (svc s) !! k) as [x |] eqn:Hx.
    2: { apply lookup_ge_None in Hx. lia. }
    rewrite (drop_S _ _ _ Hx).
    unfold mbind, Js_bind.
    rewrite (subscribe_again x h s Hc Hs (registered_lookup _ _ _ Hx)).
    rewrite IH; simpl; auto; [| lia].
    rewrite add_sent_app. reflexivity.
Qed.

Lemma replay (h : nat) (s : State) :
  connected (svc s) = true ->
  socket (svc s) = Some h ->
  forEach (fun s => subscriptions (svc s))
          (fun message => subscribe message VUndefined) s
  = Return tt (add_sent (map (frame_of h) (subscriptions (svc s))) s).
Proof.
  intros Hc Hs. unfold forEach. rewrite (replay_loop h) by (auto; lia).
  reflexivity.
Qed.

Lemma subscribe_registry (sub : EventSubscription) (callback : JsVal) (s : State) :
  subscriptions (svc (final (subscribe sub callback s)))
  = register (subscriptions (svc s)) sub.
Proof.
  unfold register. js_run. rewrite (findIndex_from_registered _ _ 0) by lia.
  destruct (registered (sub_id sub) (subscriptions (svc s))); simpl;
    repeat (case_match; simplify_eq/=); try done.
Qed.

(** ** What the socket handlers compute *)

Lemma notify (arr : State -> list JsVal) (s : State) :
  (forall fs s, arr (add_invoked fs s) = arr s) ->
  (if 0 <? Z.of_nat (length (arr s)) then forEach arr call_observer
   else fun s => Return tt s) s
  = finish (observer_exn (arr s)) (add_invoked (observed (arr s)) s).
Proof.
  intros Harr. destruct (Z.ltb_spec 0 (Z.of_nat (length (arr s)))) as [Hlt | Hge].
  - apply forEach_observers, Harr.
  - destruct (arr s) as [| x l]; simpl in *; [| lia].
    by rewrite add_invoked_nil.
Qed.

Lemma socket_onclose_result (code : Z) (s : State) :
  socket_onclose code s
  = finish (observer_exn (onDisconnectCallbacks (svc s)))
           (add_invoked (observed (onDisconnectCallbacks (svc s))) (closed code s)).
Proof.
  unfold socket_onclose, closed. js_run.
  destruct (pingInterval (svc s)); simpl;
    destruct (code =? 1000); simpl;
    try (destruct (retryTimeout (svc s)); simpl);
    exact (notify (fun s => onDisconnectCallbacks (svc s)) _ (fun _ _ => eq_refl)).
Qed.

Lemma socket_onopen_result (h : nat) (s : State) :
  socket (svc s) = Some h ->
  socket_onopen s
  = finish (observer_exn (onConnectCallbacks (svc s)))
           (add_invoked (observed (onConnectCallbacks (svc s)))
              (opened (map (frame_of h) (subscriptions (svc s))) s)).
Proof.
  intros Hs. unfold socket_onopen. js_unfold. simpl.
  rewrite (replay h) by (simpl; auto). simpl.
  unfold setInterval. simpl.
  exact (notify (fun s => onConnectCallbacks (svc s)) _ (fun _ _ => eq_refl)).
Qed.

Lemma replay_without_socket (s : State) :
  connected (svc s) = true ->
  socket (svc s) = None ->
  final (forEach (fun s => subscriptions (svc s))
                 (fun message => subscribe message VUndefined) s) = s.
Proof.
  intros Hc Hs. unfold forEach.
  destruct (subscriptions (svc s)) as [| x l] eqn:Hsubs; simpl; [done |].
  rewrite Hsubs. simpl. unfold mbind, Js_bind.
  assert (Hx : subscribe x VUndefined s = Throw TypeError s).
  { js_run. rewrite (findIndex_from_registered _ _ 0) by lia.
    rewrite Hsubs. unfold registered. simpl. rewrite String.eqb_refl. simpl.
    rewrite Hc, Hs. reflexivity. }
  rewrite Hx. reflexivity.
Qed.

Lemma socket_onopen_registry (s : State) :
  subscriptions (svc (final (socket_onopen s))) = subscriptions (svc s).
Proof.
  destruct (socket (svc s)) as [h |] eqn:Hs.
  - rewrite (socket_onopen_result h s Hs).
    destruct (observer_exn _); reflexivity.
  - unfold socket_onopen. js_unfold. simpl.
    set (s1 := {| svc := set_connectionRetries 0 (set_connected true (svc s));
                  env := env s |}).
    pose proof (replay_without_socket s1 eq_refl Hs) as Hr.
    destruct (forEach _ _ s1) as [a s2 | e s2]; simpl in Hr; subst s2.
    + unfold setInterval. simpl.
      etransitivity.
      { apply (f_equal (fun o => subscriptions (svc (final o)))).
        exact (notify (fun s => onConnectCallbacks (svc s)) _ (fun _ _ => eq_refl)). }
      destruct (observer_exn _); reflexivity.
    + reflexivity.
Qed.

(** C8. [subscribe] registers by identifier: a record whose identifier is
    already in the registry leaves the registry as it is, a record with a
    fresh identifier is appended at the end; subscribing twice is
    subscribing once; and the replay of the registry when the socket opens
    leaves the registry as it is. *)
Theorem register_idempotent_by_identifier
    (sub : EventSubscription) (callback callback' : JsVal) (s : State) :
  subscriptions (svc (final (subscribe sub callback s)))
  = (if registered (sub_id sub) (subscriptions (svc s))
     then subscriptions (svc s)
     else subscriptions (svc s) ++ [sub])
  /\ subscriptions (svc (final (subscribe sub callback' (final (subscribe sub callback s)))))
     = subscriptions (svc (final (subscribe sub callback s)))
  /\ subscriptions (svc (final (socket_onopen s))) = subscriptions (svc s).
Proof.
  split; [apply subscribe_registry |]. split; [| apply socket_onopen_registry].
  rewrite !subscribe_registry. unfold register.
  destruct (registered (sub_id sub) (subscriptions (svc s))) eqn:Hr.
  - by rewrite Hr.
  - rewrite registered_app, Hr. unfold registered at 1. simpl.
    by rewrite String.eqb_refl.
Qed.

(** C9. A text frame that [JSON.parse] decodes to a message whose
    [subscriptionId] has no callback in the dispatch table is dropped: the
    handler returns, and the state (service, frames sent, timers, calls of
    user functions) is the one of before. *)
Theorem unbound_frame_is_dropped (text : string) (message : JsVal) (s : State) :
  JSON_parse text = Some message ->
  subscriptionCallbackMap (svc s) !! toPropertyKey (get_prop message "subscriptionId")
  = None ->
  socket_onmessage (DText text) s = Return tt s.
Proof.
  intros Hparse Hunbound. unfold socket_onmessage.
  destruct (is_pong (DText text)); [reflexivity |].
  rewrite Hparse. unfold member. js_unfold.
  destruct message; simpl; try reflexivity;
    simpl in Hunbound; rewrite Hunbound; reflexivity.
Qed.

(** ** Observers *)

Lemma observed_split (pre rest : list JsFun) :
  Forall (fun g => fn_throws g = false) pre ->
  (forall f, head rest = Some f -> fn_throws f = true) ->
  observed (map VFun (pre ++ rest)) = pre ++ take 1 rest
  /\ observer_exn (map VFun (pre ++ rest)) = ThrownBy <$> head rest.
Proof.
  intros Hpre Hrest. induction Hpre as [| g pre Hg _ IH]; simpl.
  - destruct rest as [| f rest]; simpl; [done |].
    rewrite (Hrest f eq_refl). by rewrite take_0.
  - rewrite Hg. destruct IH as [-> ->]. done.
Qed.

(** C2, as the code has it.  When the socket opens (closes), the connect
    (disconnect) observers are called in the order they were registered,
    each behind a check that it is a function and nothing else: if the
    observers [pre] return and the next one throws, that one is the last
    to be called and its exception leaves the handler; the observers
    after it are not called.  When no observer throws ([rest] empty), all
    are called and the handler returns. *)
Theorem observers_called_until_one_throws
    (s : State) (h : nat) (code : Z) (pre rest pre' rest' : list JsFun) :
  socket (svc s) = Some h ->
  onConnectCallbacks (svc s) = map VFun (pre ++ rest) ->
  onDisconnectCallbacks (svc s) = map VFun (pre' ++ rest') ->
  Forall (fun g => fn_throws g = false) pre ->
  Forall (fun g => fn_throws g = false) pre' ->
  (forall f, head rest = Some f -> fn_throws f = true) ->
  (forall f, head rest' = Some f -> fn_throws f = true) ->
  (invoked (env (final (socket_onopen s))) = invoked (env s) ++ pre ++ take 1 rest
   /\ threw (socket_onopen s) = ThrownBy <$> head rest)
  /\ (invoked (env (final (socket_onclose code s))) = invoked (env s) ++ pre' ++ take 1 rest'
      /\ threw (socket_onclose code s) = ThrownBy <$> head rest').
Proof.
  intros Hs Hc Hd Hpre Hpre' Hrest Hrest'.
  rewrite (socket_onopen_result h s Hs), socket_onclose_result, Hc, Hd.
  destruct (observed_split pre rest Hpre Hrest) as [-> ->].
  destruct (observed_split pre' rest' Hpre' Hrest') as [-> ->].
  assert (Hclosed : invoked (env (closed code s)) = invoked (env s)).
  { unfold closed. destruct (pingInterval (svc s)), (code =? 1000); simpl;
      try reflexivity; destruct (retryTimeout (svc s)); reflexivity. }
  split; split.
  - destruct (head rest); reflexivity.
  - destruct (head rest); reflexivity.
  - destruct (head rest'); simpl; by rewrite Hclosed.
  - destruct (head rest'); reflexivity.
Qed.

(** ** The records of the public methods *)

Lemma api_call_record (random : nat -> nat) (c : ApiCall) (s : State) :
  api_call random c s
  = match call_record random c with
    | Some r => subscribe r (call_callback c) s
    | None => Throw MISSING_LOCATION_ID s
    end.
Proof.
  destruct c; try reflexivity.
  simpl. unfold onLocationChanged.
  destruct (String.eqb (typeof id) "number"); reflexivity.
Qed.

Lemma build_subscription_scopes
    (identifier : string) (t : EventType) (filter parameters : JsVal) :
  let r := build_subscription identifier t filter parameters in
  sub_line r = scope filter "line" /\ sub_location r = scope filter "location".
Proof.
  unfold build_subscription, scope.
  destruct (truthy filter), (truthy parameters);
    destruct (String.eqb (typeof (get_prop filter "line")) "undefined");
    destruct (String.eqb (typeof (get_prop filter "location")) "undefined");
    simpl; auto.
Qed.

(** C5, as the code has it.  The record a subscribe-style call registers
    takes its [line] from the filter when the filter defines one and its
    [location] from the filter when the filter defines one, each on its
    own: a filter that defines both gives a record with both, and the
    methods that take an id instead of a filter give a record with
    neither. *)
Theorem record_scopes_follow_filter
    (random : nat -> nat) (c : ApiCall) (r : EventSubscription) (s : State) :
  call_record random c = Some r ->
  subscriptions (svc (final (api_call random c s)))
  = (if registered (sub_id r) (subscriptions (svc s))
     then subscriptions (svc s)
     else subscriptions (svc s) ++ [r])
  /\ sub_line r = scope (call_filter c) "line"
  /\ sub_location r = scope (call_filter c) "location".
Proof.
  intros Hr. rewrite api_call_record, Hr. split; [apply subscribe_registry |].
  destruct c; simpl in Hr;
    try (destruct (String.eqb (typeof id) "number"); [| discriminate]);
    injection Hr as <-; apply build_subscription_scopes.
Qed.

(** ** After [reset] *)






(** ** Subscribing before the first open event *)

Lemma subscribe_waiting (key : string) (reg : list EventSubscription)
    (r : EventSubscription) (callback : JsVal) (s : State) :
  key <> ""%string ->
  waiting key reg s ->
  waiting key (register reg r) (final (subscribe r callback s)).
Proof.
  intros Hkey (Hk & Hreg & Hc & Hsent & Hsock). unfold waiting.
  rewrite subscribe_registry, Hreg.
  apply String.eqb_neq in Hkey.
  destruct reg as [| x l].
  - destruct Hsock as [Hg Hnone]. unfold register. simpl.
    js_run. rewrite Hreg. simpl.
    destruct (is_function callback); simpl;
      repeat (progress (rewrite ?Hc, ?Hg, ?Hk, ?Hkey; simpl));
      destruct (retryTimeout (svc s)); simpl; rewrite ?Hnone; auto 10.
  - destruct Hsock as (Hg & Hs & Hr).
    assert (Hshape : exists y l', register (x :: l) r = y :: l').
    { unfold register. destruct (registered _ _); simpl; eauto. }
    destruct Hshape as (y & l' & ->).
    js_run. rewrite Hreg.
    destruct (_ =? -1); simpl;
      destruct (is_function callback); simpl;
      repeat (progress (rewrite ?Hc, ?Hg; simpl)); auto 10.
Qed.

Lemma subscribe_calls_waiting (key : string) (calls : list Event) :
  key <> ""%string ->
  Forall (fun ev => subscribe_call ev = true) calls ->
  forall reg s, waiting key reg s ->
  waiting key (registry_after calls reg) (run calls s).
Proof.
  intros Hkey Hcalls. induction Hcalls as [| ev calls Hev _ IH]; intros reg s Hw.
  - exact Hw.
  - simpl. apply IH. unfold fire.
    destruct ev; try discriminate; simpl.
    + rewrite api_call_record. destruct (call_record random c); simpl; [| exact Hw].
      by apply subscribe_waiting.
    + by apply subscribe_waiting.
    + exact Hw.
    + unfold onConnect. js_unfold. destruct (is_function callback); exact Hw.
    + unfold onDisconnect. js_unfold. destruct (is_function callback); exact Hw.
Qed.

(** C3. Set the key and make any sequence of subscribe-style calls, with
    observers registered and the server chosen in between or not.  The
    registry then holds the records of these calls in the order of the
    calls, and nothing has been sent.  When the socket opens, the frames
    sent are the serializations of the records of the registry, one for
    each record, in the order of the registry; the registry is the same
    after the replay, and the [id] of each serialized object is the
    identifier of its record. *)
Theorem replay_on_first_open (key : string) (calls : list Event) :
  key <> ""%string ->
  Forall (fun ev => subscribe_call ev = true) calls ->
  let s := run (CallSetKey key :: calls) new_EventsService in
  let reg := registry_after calls [] in
  subscriptions (svc s) = reg
  /\ sent (env s) = []
  /\ sent (env (fire s (SocketOpen 0)))
     = map (fun sub => (0%nat, JSON_stringify (subscription_object sub))) reg
  /\ subscriptions (svc (fire s (SocketOpen 0))) = reg
  /\ Forall (fun sub => get_prop (subscription_object sub) "id" = VStr (sub_id sub)) reg.
Proof.
  intros Hkey Hcalls s reg.
  assert (Hw : waiting key reg s).
  { change s with (run calls (fire new_EventsService (CallSetKey key))).
    apply subscribe_calls_waiting; auto. unfold waiting. simpl. auto 10. }
  clearbody s reg.
  destruct Hw as (Hk & Hreg & Hc & Hsent & Hsock).
  split; [exact Hreg |]. split; [exact Hsent |].
  assert (Hopen : sent (env (fire s (SocketOpen 0))) = map (frame_of 0) reg
                  /\ subscriptions (svc (fire s (SocketOpen 0))) = reg).
  { unfold fire. simpl. destruct reg as [| x l].
    - destruct Hsock as [_ Hnone]. unfold readyState. rewrite Hnone. simpl.
      rewrite Hsent, Hreg. done.
    - destruct Hsock as (_ & Hs & Hr). rewrite Hr. simpl.
      unfold mbind, Js_bind, modify_env.
      rewrite (socket_onopen_result 0) by exact Hs.
      destruct (observer_exn _); simpl; rewrite Hsent, Hreg; done. }
  destruct Hopen as [Hframes Hsame].
  split; [exact Hframes |]. split; [exact Hsame |].
  apply Forall_forall. intros sub _. reflexivity.
Qed.

(** ** The retry counter *)

Lemma socket_onopen_counter (s : State) :
  connectionRetries (svc (final (socket_onopen s))) = 0.
Proof.
  destruct (socket (svc s)) as [h |] eqn:Hs.
  - rewrite (socket_onopen_result h s Hs).
    destruct (observer_exn _); reflexivity.
  - unfold socket_onopen. js_unfold. simpl.
    set (s1 := {| svc := set_connectionRetries 0 (set_connected true (svc s));
                  env := env s |}).
    pose proof (replay_without_socket s1 eq_refl Hs) as Hr.
    destruct (forEach _ _ s1) as [a s2 | e s2]; simpl in Hr; subst s2.
    + unfold setInterval. simpl.
      etransitivity.
      { apply (f_equal (fun o => connectionRetries (svc (final o)))).
        exact (notify (fun s => onConnectCallbacks (svc s)) _ (fun _ _ => eq_refl)). }
      destruct (observer_exn _); reflexivity.
    + reflexivity.
Qed.

Lemma socket_onclose_counter (code : Z) (s : State) :
  connectionRetries (svc (final (socket_onclose code s)))
  = if code =? 1000 then connectionRetries (svc s) else connectionRetries (svc s) + 1.
Proof.
  rewrite socket_onclose_result. unfold closed.
  destruct (observer_exn _), (pingInterval (svc s)), (code =? 1000); reflexivity.
Qed.

Lemma subscribe_counter (sub : EventSubscription) (callback : JsVal) (s : State) :
  connectionRetries (svc (final (subscribe sub callback s))) = connectionRetries (svc s).
Proof. js_run. repeat (case_match; simplify_eq/=); done. Qed.

Lemma socket_onmessage_counter (data : MessageData) (s : State) :
  connectionRetries (svc (final (socket_onmessage data s))) = connectionRetries (svc s).
Proof.
  unfold socket_onmessage, member, call_value, call_function. js_run.
  repeat (case_match; simplify_eq/=); done.
Qed.

Lemma quiet_counter (ev : Event) (s : State) :
  quiet ev = true ->
  connectionRetries (svc (fire s ev)) = connectionRetries (svc s).
Proof.
  intros Hq. unfold fire. destruct (deliverable ev s); [| reflexivity].
  destruct ev; try discriminate; simpl in *.
  - rewrite api_call_record. destruct (call_record random c); [| reflexivity].
    apply subscribe_counter.
  - apply subscribe_counter.
  - js_run. repeat (case_match; simplify_eq/=); done.
  - js_run. repeat (case_match; simplify_eq/=); done.
  - reflexivity.
  - reflexivity.
  - js_run. repeat (case_match; simplify_eq/=); done.
  - js_run. repeat (case_match; simplify_eq/=); done.
  - unfold mbind, Js_bind, modify_env. rewrite socket_onclose_counter, Hq.
    reflexivity.
  - reflexivity.
  - apply socket_onmessage_counter.
  - js_run. repeat (case_match; simplify_eq/=); done.
  - js_run. repeat (case_match; simplify_eq/=); done.
Qed.

Lemma retrying_counter (s : State) (n : nat) :
  Retrying s n -> connectionRetries (svc s) = Z.of_nat n.
Proof.
  induction 1 as [| s h Hd | s | s n h code _ IH Hd Hcode | s n ev _ IH Hq].
  - reflexivity.
  - unfold fire. rewrite Hd. simpl. unfold mbind, Js_bind, modify_env.
    apply socket_onopen_counter.
  - unfold fire. simpl. js_run. repeat (case_match; simplify_eq/=); done.
  - unfold fire. rewrite Hd. simpl. unfold mbind, Js_bind, modify_env.
    rewrite socket_onclose_counter. simpl. rewrite IH.
    apply Z.eqb_neq in Hcode. rewrite Hcode. lia.
  - rewrite quiet_counter by exact Hq. exact IH.
Qed.

(** C1, as the code has it.  For every [N >= 1]: when the socket closes
    abnormally (any code but 1000) for the [N]-th time in a row, the
    handler schedules the reconnection after
    [min(5000 + 1000 * floor((N - 1) / 10), 60000)] milliseconds.  The
    delay is computed from the retry counter before the counter is
    incremented, so it is [N - 1], not [N], that is divided by ten. *)
Theorem retry_delay_after_closes (s : State) (N : nat) (h : nat) (code : Z) :
  (1 <= N)%nat ->
  Retrying s (N - 1) ->
  deliverable (SocketClose h code) s = true ->
  code <> 1000 ->
  let s' := fire s (SocketClose h code) in
  Retrying s' N
  /\ exists t older,
       retryTimeout (svc s') = Some t
       /\ timeouts (env s')
          = older ++ [(t, Z.min (5000 + 1000 * ((Z.of_nat N - 1) / 10)) 60000)].
Proof.
  intros HN Hretry Hd Hcode s'. split.
  - replace N with (S (N - 1)) by lia. by apply retrying_close.
  - apply retrying_counter in Hretry.
    subst s'. unfold fire. rewrite Hd. simpl. unfold mbind, Js_bind, modify_env.
    rewrite socket_onclose_result. unfold closed.
    apply Z.eqb_neq in Hcode. simpl. rewrite Hcode, Hretry.
    replace (Z.of_nat (N - 1)) with (Z.of_nat N - 1) by lia.
    replace ((Z.of_nat N - 1) `div` 10 * 1000) with (1000 * ((Z.of_nat N - 1) `div` 10)) by lia.
    destruct (observer_exn _), (pingInterval (svc s)), (retryTimeout (svc s));
      simpl; eauto.
Qed.

(** ** Sockets and timers *)

Lemma readyState_set_eq (p : Platform) (h : nat) (r : Z) :
  readyState (set_readyState h r p) h = (fun _ => r) <$> readyState p h.
Proof.
  unfold readyState, set_readyState. simpl. rewrite list_lookup_alter_eq.
  destruct (sockets p !! h); reflexivity.
Qed.

Lemma readyState_set_ne (p : Platform) (h h' : nat) (r : Z) :
  h <> h' -> readyState (set_readyState h r p) h' = readyState p h'.
Proof.
  intros Hne. unfold readyState, set_readyState. simpl.
  by rewrite list_lookup_alter_ne.
Qed.

Lemma readyState_new (p : Platform) (url : string) (h : nat) :
  snd <$> (sockets p ++ [(url, 0)]) !! h
  = if decide (h = length (sockets p)) then Some 0 else readyState p h.
Proof.
  unfold readyState. destruct (decide (h = length (sockets p))) as [-> | Hne].
  - rewrite lookup_app_r by lia. by rewrite Nat.sub_diag.
  - destruct (decide (h < length (sockets p))%nat).
    + by rewrite lookup_app_l.
    + rewrite !lookup_ge_None_2; [done | lia |]. rewrite length_app. simpl. lia.
Qed.

Lemma remove_timer_subset (t : nat) (l : list (nat * Z)) (x : nat * Z) :
  x ∈ remove_timer t l -> x ∈ l.
Proof. unfold remove_timer. rewrite list_elem_of_filter. tauto. Qed.

Lemma remembered_timers_cleared (o : option nat) (l : list (nat * Z)) :
  (forall x, x ∈ l -> o = Some x.1) ->
  match o with
  | Some t => remove_timer t l
  | None => l
  end = [].
Proof.
  intros H. destruct o as [t |].
  - unfold remove_timer. induction l as [| x l IH]; [done |].
    rewrite filter_cons. 
    assert (Hx : x.1 = t). { specialize (H x (list_elem_of_here _ _)). congruence. }
    destruct (decide (x.1 <> t)); [done |].
    apply IH. intros y Hy. apply H. by apply list_elem_of_further.
  - destruct l as [| x l]; [done |]. specialize (H x (list_elem_of_here _ _)). done.
Qed.

(** ** The life cycle keeps the sockets and timers steady *)

Lemma steady_core (s s' : State) : core s = core s' -> steady s -> steady s'.
Proof.
  unfold core. intros [= Hg Hc Hs Hr Hp Hk Ht Hi].
  unfold steady, live, readyState. by rewrite <- Hg, <- Hc, <- Hs, <- Hr, <- Hp, <- Hk, <- Ht, <- Hi.
Qed.

Lemma steady_new : steady new_EventsService.
Proof.
  unfold steady, live, readyState. simpl.
  repeat split; try done; intros x Hx; by apply elem_of_nil in Hx.
Qed.

Lemma steady_idle_no_socket (s : State) (h : nat) :
  steady s -> connecting (svc s) = false -> live (env s) h = false.
Proof.
  intros (Hlive & _) Hg. destruct (live (env s) h) eqn:Hl; [| done].
  destruct (Hlive h Hl) as [Hg' _]. congruence.
Qed.

Lemma openSocket_steady (s : State) : steady s -> steady (final (openSocket s)).
Proof.
  intros Hst. pose proof Hst as (Hlive & Hconn & Htime & Hint & Hidle & Hcon).
  unfold openSocket. js_unfold. simpl.
  destruct (String.eqb (apiKey (svc s)) ""); [exact Hst |].
  destruct (connecting (svc s)) eqn:Hg; [exact Hst |].
  destruct (connected (svc s)) eqn:Hc; [exact Hst |]. simpl.
  pose proof (remembered_timers_cleared _ _ Htime) as Hclear.
  unfold new_WebSocket.
  assert (Hgoal : forall p, sockets p = sockets (env s) -> timeouts p = [] ->
            intervals p = intervals (env s) ->
            steady {| svc := set_socket (Some (length (sockets p)))
                               (set_connecting true (svc s));
                      env := set_sockets (sockets p ++
                               [(apiServer (svc s) +:+ "/events?rest-api-key=" +:+
                                 apiKey (svc s), 0)]) p |}).
  { intros p Hk Ht Hi.
    assert (Hfresh : forall h,
              match snd <$> (sockets (env s) ++
                      [(apiServer (svc s) +:+ "/events?rest-api-key=" +:+
                        apiKey (svc s), 0)]) !! h with
              | Some r => negb (r =? 3)
              | None => false
              end = true -> h = length (sockets (env s))).
    { intros h Hh. rewrite readyState_new in Hh.
      destruct (decide _) as [-> | Hne]; [done |].
      pose proof (steady_idle_no_socket s h Hst Hg) as Hno.
      unfold live in Hno. rewrite Hno in Hh. done. }
    unfold steady, live, readyState. simpl. rewrite Hk, Ht, Hi, Hc.
    repeat split;
      first [ done
            | by (intros x Hx; apply elem_of_nil in Hx)
            | match goal with Hh : _ = true |- _ => by rewrite (Hfresh _ Hh) end ]. }
  destruct (retryTimeout (svc s)) as [t |];
    [ apply (Hgoal (set_timeouts (remove_timer t (timeouts (env s))) (env s)))
    | apply (Hgoal (env s)) ]; auto.
Qed.

Lemma subscribe_steady (sub : EventSubscription) (callback : JsVal) (s : State) :
  steady s -> steady (final (subscribe sub callback s)).
Proof.
  intros Hst.
  assert (Hcases : exists s1, core s1 = core s
            /\ (final (subscribe sub callback s) = s1
                \/ final (subscribe sub callback s) = final (openSocket s1))).
  { unfold subscribe, socket_send. js_unfold. simpl.
    destruct (_ =? -1); simpl; destruct (is_function callback); simpl.
    all: destruct (connected (svc s)) eqn:Hc; simpl.
    all: try (destruct (socket (svc s)) eqn:Hs; simpl;
              eexists; (split; [| left; reflexivity]); unfold core; simpl;
              rewrite ?Hc, ?Hs; reflexivity).
    all: destruct (connecting (svc s)) eqn:Hg; simpl;
         [ eexists; (split; [| left; reflexivity])
         | eexists; (split; [| right; reflexivity]) ];
         unfold core; simpl; rewrite ?Hg, ?Hc; reflexivity. }
  destruct Hcases as (s1 & Hcore & [-> | ->]).
  - by apply (steady_core s).
  - apply openSocket_steady. by apply (steady_core s).
Qed.

Lemma unrelated_steady (ev : Event) (s : State) :
  match ev with
  | CallSetKey _ | CallSetServer _ | CallOnConnect _ | CallOnDisconnect _
  | SocketError _ | SocketMessage _ _ | IntervalFires _ => True
  | _ => False
  end ->
  core (final (handle ev s)) = core s.
Proof.
  destruct ev; try done; intros _; simpl;
    unfold socket_onmessage, member, call_value, call_function; js_run;
    repeat (case_match; simplify_eq/=); done.
Qed.

Lemma closeSocket_steady (s : State) : steady s -> steady (final (closeSocket s)).
Proof.
  intros Hst. pose proof Hst as (Hlive & Hconn & Htime & Hint & Hidle & Hcon).
  unfold closeSocket, socket_close. js_unfold. simpl.
  destruct (socket (svc s)) as [h |] eqn:Hs; [| exact Hst].
  destruct (bool_decide (readyState (env s) h = Some 1)) eqn:Hr; [| exact Hst].
  apply bool_decide_eq_true in Hr. simpl.
  assert (Hsame : forall h', live (set_readyState h 2 (env s)) h' = live (env s) h').
  { intros h'. unfold live. destruct (decide (h = h')) as [<- | Hne].
    - rewrite readyState_set_eq, Hr. reflexivity.
    - by rewrite readyState_set_ne. }
  refine (conj _ (conj Hconn (conj Htime (conj Hint (conj Hidle _))))); simpl.
  - intros h' Hl. rewrite Hsame in Hl. rewrite Hs. exact (Hlive h' Hl).
  - intros Hc. exists h. split; [done |].
    rewrite readyState_set_eq, Hr. done.
Qed.

Arguments live : simpl never.
Arguments readyState : simpl never.

Lemma live_sockets (p p' : Platform) (h : nat) :
  sockets p = sockets p' -> live p h = live p' h.
Proof. intros H. unfold live, readyState. by rewrite H. Qed.

Lemma readyState_sockets (p p' : Platform) (h : nat) :
  sockets p = sockets p' -> readyState p h = readyState p' h.
Proof. intros H. unfold readyState. by rewrite H. Qed.

Lemma final_finish (e : option Exn) (s : State) : final (finish e s) = s.
Proof. by destruct e. Qed.

Lemma socket_open_steady (h : nat) (s : State) :
  steady s ->
  readyState (env s) h = Some 0 ->
  steady (final (handle (SocketOpen h) s)).
Proof.
  intros Hst Hr. pose proof Hst as (Hlive & Hconn & Htime & Hint & Hidle & Hcon).
  assert (Hl : live (env s) h = true) by (unfold live; by rewrite Hr).
  destruct (Hlive h Hl) as [Hg Hs].
  assert (Hc : connected (svc s) = false).
  { destruct (connected (svc s)); [| done].
    destruct (Hcon eq_refl) as (h' & Hs' & Hr'). congruence. }
  simpl. unfold mbind, Js_bind, modify_env.
  rewrite (socket_onopen_result h) by exact Hs. rewrite final_finish.
  assert (Hsame : forall h', live (set_readyState h 1 (env s)) h' = live (env s) h').
  { intros h'. unfold live. destruct (decide (h = h')) as [<- | Hne].
    - rewrite readyState_set_eq, Hr. reflexivity.
    - by rewrite readyState_set_ne. }
  unfold steady. simpl. rewrite (Hidle Hc).
  refine (conj _ (conj Hconn (conj Htime (conj _ (conj _ _))))).
  - intros h' Hl'.
    rewrite (live_sockets _ (set_readyState h 1 (env s))), Hsame in Hl' by reflexivity.
    exact (Hlive h' Hl').
  - intros x Hx. apply list_elem_of_singleton in Hx. by subst x.
  - done.
  - intros _. exists h. split; [exact Hs |].
    rewrite (readyState_sockets _ (set_readyState h 1 (env s))) by reflexivity.
    rewrite readyState_set_eq, Hr. done.
Qed.

(** After the close event of a live socket nothing is pending but the
    retry the handler may just have scheduled, and no interval runs. *)
Lemma socket_close_steady (h : nat) (code : Z) (s : State) :
  steady s ->
  live (env s) h = true ->
  let s' := final (handle (SocketClose h code) s) in
  steady s'
  /\ intervals (env s') = []
  /\ (code = 1000 -> timeouts (env s') = []).
Proof.
  intros Hst Hl. pose proof Hst as (Hlive & Hconn & Htime & Hint & Hidle & Hcon).
  destruct (Hlive h Hl) as [Hg Hs].
  pose proof (Hconn Hg) as Hnone.
  pose proof (remembered_timers_cleared _ _ Hint) as Hclear.
  assert (Hdead : forall h', live (set_readyState h 3 (env s)) h' = false).
  { intros h'. unfold live. destruct (decide (h = h')) as [<- | Hne].
    - rewrite readyState_set_eq. by destruct (readyState (env s) h).
    - rewrite readyState_set_ne by done.
      destruct (live (env s) h') eqn:Hl'; [| exact Hl'].
      destruct (Hlive h' Hl') as [_ Hs']. congruence. }
  simpl. unfold mbind, Js_bind, modify_env.
  rewrite socket_onclose_result, final_finish.
  unfold closed, steady. simpl.
  destruct (pingInterval (svc s)) as [t |]; simpl in *;
    destruct (code =? 1000) eqn:Hcode; simpl;
    try (destruct (retryTimeout (svc s)); simpl);
    rewrite ?Hclear, ?Hnone; simpl;
    (split; [| split; [done | intros ->; done]]);
    (split; [intros h' Hl';
             by rewrite (live_sockets _ (set_readyState h 3 (env s))), Hdead in Hl' |]);
    (split; [done |]);
    (split; [intros x Hx; first [ by apply elem_of_nil in Hx
                                | apply list_elem_of_singleton in Hx; by subst x ] |]);
    (split; [intros x Hx; by apply elem_of_nil in Hx |]);
    done.
Qed.

Lemma timeout_steady (t : nat) (s : State) :
  steady s -> steady (final (handle (TimeoutFires t) s)).
Proof.
  intros Hst. pose proof Hst as (Hlive & Hconn & Htime & Hint & Hidle & Hcon).
  simpl. unfold clearTimeout. js_unfold. simpl. apply openSocket_steady.
  refine (conj Hlive (conj _ (conj _ (conj Hint (conj Hidle Hcon))))); simpl.
  - intros Hg. by rewrite (Hconn Hg).
  - intros x Hx. apply Htime. by apply remove_timer_subset in Hx.
Qed.

Lemma reset_steady (s : State) :
  steady s -> (forall h, live (env s) h = false) -> steady (final (reset s)).
Proof.
  intros Hst Hdead. pose proof Hst as (Hlive & Hconn & Htime & Hint & Hidle & Hcon).
  pose proof (remembered_timers_cleared _ _ Hint) as Hclear.
  pose proof (remembered_timers_cleared _ _ Htime) as Hnone.
  assert (Hnot : forall h, bool_decide (readyState (env s) h = Some 1) = false).
  { intros h. apply bool_decide_eq_false. intros Hr.
    specialize (Hdead h). unfold live in Hdead. by rewrite Hr in Hdead. }
  unfold reset, socket_close, clearTimeout, clearInterval. js_unfold. simpl.
  destruct (socket (svc s)) as [h |]; simpl; rewrite ?Hnot; simpl;
    destruct (retryTimeout (svc s)); simpl in *;
    destruct (pingInterval (svc s)); simpl in *;
    unfold steady; simpl; rewrite ?Hclear, ?Hnone;
    (split; [intros h' Hl';
             assert (Hx : live (env s) h' = true)
               by (rewrite <- Hl'; apply live_sockets; reflexivity);
             by rewrite Hdead in Hx |]);
    (split; [done |]);
    (split; [intros x Hx; by apply elem_of_nil in Hx |]);
    (split; [intros x Hx; by apply elem_of_nil in Hx |]);
    done.
Qed.

Lemma fire_steady (ev : Event) (s : State) :
  is_reset ev = false -> steady s -> steady (fire s ev).
Proof.
  intros Hev Hst. unfold fire.
  destruct (deliverable ev s) eqn:Hd; [| exact Hst].
  destruct ev; try discriminate;
    try (apply (steady_core s); [symmetry; by apply unrelated_steady | exact Hst]).
  - simpl. rewrite api_call_record. destruct (call_record random c); [| exact Hst].
    by apply subscribe_steady.
  - by apply subscribe_steady.
  - by apply openSocket_steady.
  - by apply closeSocket_steady.
  - apply socket_open_steady; [exact Hst |]. simpl in Hd.
    by apply bool_decide_eq_true in Hd.
  - by apply socket_close_steady.
  - by apply timeout_steady.
Qed.

Lemma lifecycle_steady (s : State) : Lifecycle s -> steady s.
Proof.
  induction 1 as [| s ev _ IH Hev | s _ IH Hdead].
  - apply steady_new.
  - by apply fire_steady.
  - unfold fire. simpl. by apply reset_steady.
Qed.

(** Every open event of the life cycle, the first as any later one,
    replays the whole registry in its order on the socket that opened,
    and resets the retry counter. *)
Lemma replay_on_every_open (s : State) (h : nat) :
  Lifecycle s ->
  deliverable (SocketOpen h) s = true ->
  let s' := fire s (SocketOpen h) in
  sent (env s') = sent (env s) ++ map (frame_of h) (subscriptions (svc s))
  /\ subscriptions (svc s') = subscriptions (svc s)
  /\ connectionRetries (svc s') = 0.
Proof.
  intros Hlife Hd s'. subst s'. unfold fire. rewrite Hd.
  apply lifecycle_steady in Hlife. destruct Hlife as (Hlive & _).
  simpl in Hd. apply bool_decide_eq_true in Hd.
  assert (Hl : live (env s) h = true) by (unfold live; by rewrite Hd).
  destruct (Hlive h Hl) as [_ Hs].
  simpl. unfold mbind, Js_bind, modify_env.
  rewrite (socket_onopen_result h) by exact Hs. rewrite final_finish. done.
Qed.

Lemma pending_removed (t : nat) (l : list (nat * Z)) :
  pending t (remove_timer t l) = false.
Proof.
  unfold pending, remove_timer. induction l as [| x l IH]; [done |].
  rewrite filter_cons. destruct (decide (x.1 <> t)) as [Hne | Heq]; [| exact IH].
  simpl. rewrite IH. apply Nat.eqb_neq in Hne. by rewrite Hne.
Qed.

(** C4, as the code has it.  A close event with code 1000 schedules no
    retry and leaves the retry counter alone: after it the service is
    neither connected nor connecting, the pending timeouts are those of
    before, the interval of the pings is cancelled and forgotten.  In the
    states of the life cycle, where [reset] is called only while no socket
    is alive, no timeout was pending while the socket was alive, so that
    after the event no timeout is pending and no interval runs. *)
Theorem normal_close_settles_idle (s : State) (h : nat) :
  deliverable (SocketClose h 1000) s = true ->
  let s' := fire s (SocketClose h 1000) in
  connected (svc s') = false
  /\ connecting (svc s') = false
  /\ connectionRetries (svc s') = connectionRetries (svc s)
  /\ retryTimeout (svc s') = retryTimeout (svc s)
  /\ timeouts (env s') = timeouts (env s)
  /\ nextTimer (env s') = nextTimer (env s)
  /\ pingInterval (svc s') = None
  /\ (forall t, pingInterval (svc s) = Some t -> pending t (intervals (env s')) = false)
  /\ (Lifecycle s -> timeouts (env s') = [] /\ intervals (env s') = []).
Proof.
  intros Hd s'. subst s'. unfold fire. rewrite Hd.
  split; [| split; [| split; [| split; [| split; [| split; [| split; [| split]]]]]]].
  9: { intros Hlife. apply lifecycle_steady in Hlife.
       destruct (socket_close_steady h 1000 s Hlife Hd) as (_ & Hi & Ht).
       split; [by apply Ht | exact Hi]. }
  all: simpl; unfold mbind, Js_bind, modify_env;
    rewrite socket_onclose_result, final_finish; unfold closed; simpl;
    destruct (pingInterval (svc s)) as [t' |] eqn:Hp; simpl; rewrite ?Hp.
  all: first [ reflexivity | intros t [= ->]; apply pending_removed | by intros t ].
Qed.

(** * Further properties *)

(** ** What the methods compute *)

Lemma openSocket_final (s : State) :
  final (openSocket s)
  = if String.eqb (apiKey (svc s)) "" then s
    else if connecting (svc s) || connected (svc s) then s
    else dialing s.
Proof.
  unfold openSocket, dialing, socket_url, new_WebSocket. js_unfold. simpl.
  destruct (String.eqb (apiKey (svc s)) ""); [reflexivity |].
  destruct (connecting (svc s) || connected (svc s)); [reflexivity |].
  destruct (retryTimeout (svc s)); reflexivity.
Qed.

Lemma subscribe_final (sub : EventSubscription) (callback : JsVal) (s : State) :
  let s0 := {| svc := booked sub callback (svc s); env := env s |} in
  final (subscribe sub callback s)
  = if connected (svc s) then
      match socket (svc s) with
      | Some h => add_sent [frame_of h sub] s0
      | None => s0
      end
    else if connecting (svc s) then s0
    else final (openSocket s0).
Proof.
  destruct s as [o p].
  unfold subscribe, socket_send, findIndex, booked. js_unfold. simpl.
  rewrite (findIndex_from_registered _ _ 0) by lia.
  destruct (registered (sub_id sub) (subscriptions o)); simpl;
    destruct (is_function callback); simpl;
    destruct (connected o); simpl;
    try (destruct (socket o); reflexivity);
    destruct (connecting o); reflexivity.
Qed.

Lemma subscribe_outcome (sub : EventSubscription) (callback : JsVal) (s : State) :
  let s0 := {| svc := booked sub callback (svc s); env := env s |} in
  subscribe sub callback s
  = if connected (svc s) then
      match socket (svc s) with
      | Some h => Return tt (add_sent [frame_of h sub] s0)
      | None => Throw TypeError s0
      end
    else if connecting (svc s) then Return tt s0
    else openSocket s0.
Proof.
  destruct s as [o p].
  unfold subscribe, socket_send, findIndex, booked. js_unfold. simpl.
  rewrite (findIndex_from_registered _ _ 0) by lia.
  destruct (registered (sub_id sub) (subscriptions o)); simpl;
    destruct (is_function callback); simpl;
    destruct (connected o); simpl;
    try (destruct (socket o); reflexivity);
    destruct (connecting o); reflexivity.
Qed.

Lemma openSocket_outcome (s : State) :
  openSocket s
  = if String.eqb (apiKey (svc s)) "" then Throw MISSING_KEY s
    else if connecting (svc s) || connected (svc s) then Return tt s
    else Return tt (dialing s).
Proof.
  unfold openSocket, dialing, socket_url, new_WebSocket. js_unfold. simpl.
  destruct (String.eqb (apiKey (svc s)) ""); [reflexivity |].
  destruct (connecting (svc s) || connected (svc s)); [reflexivity |].
  destruct (retryTimeout (svc s)); reflexivity.
Qed.

Lemma reset_final (s : State) : final (reset s) = wiped s.
Proof.
  destruct s as [[k sv so cg cd rt pi subs cr m oc od] p].
  unfold reset, wiped, socket_close, clearTimeout, clearInterval. js_unfold. simpl.
  destruct so as [h |]; simpl;
    try destruct (bool_decide (readyState p h = Some 1)); simpl;
    destruct rt; simpl; destruct pi; reflexivity.
Qed.

Lemma socket_onopen_final (s : State) :
  (exists frames,
     final (socket_onopen s)
     = add_invoked (observed (onConnectCallbacks (svc s))) (opened frames s))
  \/ final (socket_onopen s)
     = {| svc := set_connectionRetries 0 (set_connected true (svc s)); env := env s |}.
Proof.
  destruct (socket (svc s)) as [h |] eqn:Hs.
  - left. eexists. rewrite (socket_onopen_result h s Hs). apply final_finish.
  - unfold socket_onopen. js_unfold. simpl.
    set (s1 := {| svc := set_connectionRetries 0 (set_connected true (svc s));
                  env := env s |}).
    pose proof (replay_without_socket s1 eq_refl Hs) as Hr.
    destruct (forEach _ _ s1) as [a s2 | e s2]; simpl in Hr; subst s2.
    + left. exists []. unfold setInterval. simpl.
      etransitivity.
      { apply (f_equal final).
        exact (notify (fun s => onConnectCallbacks (svc s)) _ (fun _ _ => eq_refl)). }
      rewrite final_finish. unfold opened, add_invoked. simpl.
      by rewrite app_nil_r.
    + right. reflexivity.
Qed.

Lemma closeSocket_final (s : State) :
  final (closeSocket s)
  = match socket (svc s) with
    | Some h =>
        if bool_decide (readyState (env s) h = Some 1)
        then {| svc := svc s; env := set_readyState h 2 (env s) |}
        else s
    | None => s
    end.
Proof.
  unfold closeSocket, socket_close. js_unfold. simpl.
  destruct (socket (svc s)) as [h |]; [| reflexivity].
  destruct (bool_decide (readyState (env s) h = Some 1)); reflexivity.
Qed.

(** The close event of the live socket, in a steady state. *)
Lemma socket_close_effect (h : nat) (code : Z) (s : State) :
  steady s ->
  live (env s) h = true ->
  let s' := final (handle (SocketClose h code) s) in
  connected (svc s') = false
  /\ connecting (svc s') = false
  /\ intervals (env s') = []
  /\ timeouts (env s')
     = (if code =? 1000 then []
        else [(nextTimer (env s), backoff (connectionRetries (svc s)))])
  /\ (code <> 1000 -> retryTimeout (svc s') = Some (nextTimer (env s)))
  /\ sent (env s') = sent (env s)
  /\ sockets (env s') = sockets (set_readyState h 3 (env s))
  /\ subscriptions (svc s') = subscriptions (svc s)
  /\ apiKey (svc s') = apiKey (svc s)
  /\ apiServer (svc s') = apiServer (svc s).
Proof.
  intros Hst Hl. pose proof Hst as (Hlive & Hconn & Htime & Hint & Hidle & Hcon).
  destruct (Hlive h Hl) as [Hg Hs].
  pose proof (Hconn Hg) as Hnone.
  pose proof (remembered_timers_cleared _ _ Hint) as Hclear.
  simpl. unfold mbind, Js_bind, modify_env.
  rewrite socket_onclose_result, final_finish.
  unfold closed, backoff. simpl.
  destruct (pingInterval (svc s)) as [t |]; simpl in *;
    destruct (Z.eqb_spec code 1000) as [Hcode | Hcode]; simpl;
    try (destruct (retryTimeout (svc s)); simpl);
    rewrite ?Hclear, ?Hnone; simpl; repeat split; congruence.
Qed.

(** The open event of the connecting socket, in a steady state. *)
Lemma socket_open_effect (h : nat) (s : State) :
  steady s ->
  readyState (env s) h = Some 0 ->
  let s' := final (handle (SocketOpen h) s) in
  connected (svc s') = true
  /\ connecting (svc s') = true
  /\ socket (svc s') = Some h
  /\ connectionRetries (svc s') = 0
  /\ pingInterval (svc s') = Some (nextTimer (env s))
  /\ intervals (env s') = [(nextTimer (env s), 10000)]
  /\ timeouts (env s') = [].
Proof.
  intros Hst Hr. pose proof Hst as (Hlive & Hconn & Htime & Hint & Hidle & Hcon).
  assert (Hl : live (env s) h = true) by (unfold live; by rewrite Hr).
  destruct (Hlive h Hl) as [Hg Hs].
  assert (Hc : connected (svc s) = false).
  { destruct (connected (svc s)); [| done].
    destruct (Hcon eq_refl) as (h' & Hs' & Hr'). congruence. }
  simpl. unfold mbind, Js_bind, modify_env.
  rewrite (socket_onopen_result h) by exact Hs. rewrite final_finish.
  simpl. rewrite (Hidle Hc), (Hconn Hg). done.
Qed.

Lemma steady_pending_idle (t : nat) (s : State) :
  steady s -> pending t (timeouts (env s)) = true -> connecting (svc s) = false.
Proof.
  intros (_ & Hconn & _) Hp. destruct (connecting (svc s)); [| done].
  rewrite (Hconn eq_refl) in Hp. discriminate.
Qed.

Lemma steady_running_connected (t : nat) (s : State) :
  steady s -> pending t (intervals (env s)) = true ->
  connected (svc s) = true /\ exists h, socket (svc s) = Some h.
Proof.
  intros (_ & _ & _ & _ & Hidle & Hcon) Hp.
  destruct (connected (svc s)) eqn:Hc.
  - split; [done |]. destruct (Hcon eq_refl) as (h & Hs & _). eauto.
  - rewrite (Hidle eq_refl) in Hp. discriminate.
Qed.

(** ** One timer of each kind *)

Lemma tidy_core (s s' : State) : core s = core s' -> tidy s -> tidy s'.
Proof.
  unfold core. intros [= Hg Hc Hs Hr Hp Hk Ht Hi].
  unfold tidy. by rewrite <- Hg, <- Hc, <- Ht, <- Hi.
Qed.

Lemma remove_timer_length (t : nat) (l : list (nat * Z)) :
  (length (remove_timer t l) <= length l)%nat.
Proof. unfold remove_timer. apply length_filter. Qed.

Lemma openSocket_tidy (s : State) : tidy s -> tidy (final (openSocket s)).
Proof.
  intros Ht. pose proof Ht as (Hflag & Htime & Hint).
  rewrite openSocket_final.
  destruct (String.eqb (apiKey (svc s)) ""); [exact Ht |].
  destruct (connecting (svc s) || connected (svc s)); [exact Ht |].
  unfold tidy, dialing.
  destruct (retryTimeout (svc s)); simpl; (split; [done |]); (split; [| exact Hint]);
    [| exact Htime].
  etransitivity; [apply remove_timer_length | exact Htime].
Qed.

Lemma subscribe_tidy (sub : EventSubscription) (callback : JsVal) (s : State) :
  tidy s -> tidy (final (subscribe sub callback s)).
Proof.
  intros Ht. rewrite subscribe_final.
  assert (Hsame : core {| svc := booked sub callback (svc s); env := env s |} = core s).
  { unfold core, booked. simpl.
    destruct (registered _ _), (is_function callback); reflexivity. }
  destruct (connected (svc s)).
  - destruct (socket (svc s)); by apply (tidy_core s).
  - destruct (connecting (svc s)).
    + by apply (tidy_core s).
    + apply openSocket_tidy. by apply (tidy_core s).
Qed.

Lemma fire_tidy (ev : Event) (s : State) :
  is_reset ev = false -> steady s -> tidy s -> tidy (fire s ev).
Proof.
  intros Hev Hst Ht. unfold fire.
  destruct (deliverable ev s) eqn:Hd; [| exact Ht].
  destruct ev; try discriminate;
    try (apply (tidy_core s); [symmetry; by apply unrelated_steady | exact Ht]).
  - simpl. rewrite api_call_record. destruct (call_record random c); [| exact Ht].
    by apply subscribe_tidy.
  - by apply subscribe_tidy.
  - by apply openSocket_tidy.
  - simpl. rewrite closeSocket_final.
    destruct (socket (svc s)) as [h |]; [| exact Ht].
    destruct (bool_decide _); exact Ht.
  - simpl in Hd. apply bool_decide_eq_true in Hd.
    destruct (socket_open_effect h s Hst Hd) as (Hc & Hg & _ & _ & _ & Hi & Hn).
    unfold tidy. rewrite Hg, Hi, Hn. simpl. split; [done |]. split; lia.
  - destruct (socket_close_effect h code s Hst Hd) as (Hc & Hg & Hi & Hn & _).
    unfold tidy. rewrite Hc, Hi, Hn.
    destruct (code =? 1000); simpl; (split; [done |]); split; lia.
  - destruct Ht as (Hflag & Htime & Hint).
    simpl. unfold clearTimeout. js_unfold. simpl. apply openSocket_tidy.
    unfold tidy. simpl. split; [exact Hflag |]. split; [| exact Hint].
    etransitivity; [apply remove_timer_length | exact Htime].
Qed.

Lemma reset_tidy (s : State) : tidy s -> tidy (final (reset s)).
Proof.
  intros (Hflag & Htime & Hint). rewrite reset_final. unfold tidy, wiped. simpl.
  split; [done |].
  destruct (socket (svc s)) as [h |];
    try destruct (bool_decide (readyState (env s) h = Some 1));
    destruct (retryTimeout (svc s)), (pingInterval (svc s)); simpl;
    split;
    first [ done | etransitivity; [apply remove_timer_length | done] ].
Qed.

Lemma lifecycle_tidy (s : State) : Lifecycle s -> tidy s.
Proof.
  induction 1 as [| s ev Hlife IH Hev | s Hlife IH Hdead].
  - unfold tidy. simpl. auto.
  - apply fire_tidy; [exact Hev | by apply lifecycle_steady | exact IH].
  - unfold fire. simpl. by apply reset_tidy.
Qed.

Lemma fire_counter_nonneg (ev : Event) (s : State) :
  0 <= connectionRetries (svc s) -> 0 <= connectionRetries (svc (fire s ev)).
Proof.
  intros Hs. destruct (quiet ev) eqn:Hq.
  - by rewrite quiet_counter.
  - unfold fire. destruct (deliverable ev s); [| exact Hs].
    destruct ev; try discriminate; simpl.
    + rewrite reset_final. simpl. lia.
    + unfold mbind, Js_bind, modify_env. rewrite socket_onopen_counter. lia.
    + unfold mbind, Js_bind, modify_env. rewrite socket_onclose_counter. simpl.
      destruct (code =? 1000); lia.
Qed.

Lemma lifecycle_counter (s : State) : Lifecycle s -> 0 <= connectionRetries (svc s).
Proof.
  induction 1 as [| s ev _ IH _ | s _ IH _].
  - simpl. lia.
  - by apply fire_counter_nonneg.
  - by apply fire_counter_nonneg.
Qed.

Lemma pending_remembered (t : nat) (o : option nat) (l : list (nat * Z)) :
  pending t l = true -> (forall x, x ∈ l -> o = Some x.1) -> o = Some t.
Proof.
  unfold pending. intros Hp Hall. apply existsb_exists in Hp.
  destruct Hp as (x & Hx & Heq). apply Nat.eqb_eq in Heq. subst t.
  apply Hall. by apply list_elem_of_In.
Qed.

Lemma backoff_bounds (retries : Z) :
  0 <= retries ->
  5000 <= backoff retries <= 60000
  /\ (retries < 10 -> backoff retries = 5000)
  /\ (550 <= retries -> backoff retries = 60000).
Proof.
  intros Hr. unfold backoff.
  pose proof (Z.div_pos retries 10 Hr ltac:(lia)) as Hq.
  split; [lia |]. split.
  - intros Hlt. rewrite Z.div_small by lia. lia.
  - intros Hge. assert (55 <= retries / 10) by (apply Z.div_le_lower_bound; lia). lia.
Qed.

(** ** The connection life cycle *)

(** X1. In the life cycle at most one socket is alive at a time: a socket
    that is not closed is the one the service holds, and the service is
    connecting. *)
Theorem one_live_socket (s : State) (h h' : nat) :
  Lifecycle s ->
  live (env s) h = true ->
  live (env s) h' = true ->
  h = h' /\ socket (svc s) = Some h /\ connecting (svc s) = true.
Proof.
  intros Hlife Hl Hl'. apply lifecycle_steady in Hlife. destruct Hlife as (Hlive & _).
  destruct (Hlive h Hl) as [Hg Hs]. destruct (Hlive h' Hl') as [_ Hs'].
  split; [congruence | done].
Qed.

(** X2. In the life cycle at most one retry timeout is pending and at most
    one ping interval runs, and they are the ones the service remembers;
    no timeout is pending while the service is connecting and no interval
    runs unless it is connected. *)
Theorem one_timer_of_each_kind (s : State) :
  Lifecycle s ->
  (length (timeouts (env s)) <= 1)%nat
  /\ (length (intervals (env s)) <= 1)%nat
  /\ (forall x, x ∈ timeouts (env s) -> retryTimeout (svc s) = Some x.1)
  /\ (forall x, x ∈ intervals (env s) -> pingInterval (svc s) = Some x.1)
  /\ (connecting (svc s) = true -> timeouts (env s) = [])
  /\ (connected (svc s) = false -> intervals (env s) = []).
Proof.
  intros Hlife.
  destruct (lifecycle_tidy s Hlife) as (_ & Htime & Hint).
  destruct (lifecycle_steady s Hlife) as (_ & Hconn & Hrt & Hpi & Hidle & _).
  auto 10.
Qed.

(** X3. The open event of a socket of the life cycle leaves the service
    connected with the retry counter at zero, no timeout pending, and the
    ping interval, of 10000 ms, as the one interval that runs. *)
Theorem open_starts_the_pings (s : State) (h : nat) :
  Lifecycle s ->
  deliverable (SocketOpen h) s = true ->
  let s' := fire s (SocketOpen h) in
  connected (svc s') = true
  /\ connectionRetries (svc s') = 0
  /\ timeouts (env s') = []
  /\ exists t, pingInterval (svc s') = Some t /\ intervals (env s') = [(t, 10000)].
Proof.
  intros Hlife Hd s'. subst s'. unfold fire. rewrite Hd.
  simpl in Hd. apply bool_decide_eq_true in Hd.
  destruct (socket_open_effect h s (lifecycle_steady s Hlife) Hd)
    as (Hc & _ & _ & Hr & Hp & Hi & Hn).
  eauto 10.
Qed.

(** X4. When the ping interval fires in the life cycle, the service is
    connected, its socket has left the connecting state, and the handler
    returns having sent the text PING on that socket and nothing else. *)
Theorem ping_is_sent (s : State) (t : nat) :
  Lifecycle s ->
  deliverable (IntervalFires t) s = true ->
  exists h,
    socket (svc s) = Some h
    /\ connected (svc s) = true
    /\ readyState (env s) h <> Some 0
    /\ handle (IntervalFires t) s = Return tt (add_sent [(h, "PING"%string)] s).
Proof.
  intros Hlife Hd. apply lifecycle_steady in Hlife. simpl in Hd.
  destruct (steady_running_connected t s Hlife Hd) as [Hc _].
  destruct Hlife as (_ & _ & _ & _ & _ & Hcon).
  destruct (Hcon Hc) as (h & Hs & Hr).
  exists h. repeat split; try done.
  simpl. unfold socket_send. js_unfold. simpl. rewrite Hs. reflexivity.
Qed.

(** X5. An abnormal close (any code but 1000) in the life cycle leaves
    exactly one timeout pending, the retry, remembered by the service,
    with the delay computed from the retry counter; no interval runs; the
    service is neither connected nor connecting.  The delay lies between
    5000 and 60000 ms, is 5000 ms for the first ten failures in a row and
    60000 ms from the 551st on. *)
Theorem abnormal_close_schedules_one_retry (s : State) (h : nat) (code : Z) :
  Lifecycle s ->
  deliverable (SocketClose h code) s = true ->
  code <> 1000 ->
  let s' := fire s (SocketClose h code) in
  let delay := Z.min (5000 + connectionRetries (svc s) / 10 * 1000) 60000 in
  timeouts (env s') = [(nextTimer (env s), delay)]
  /\ retryTimeout (svc s') = Some (nextTimer (env s))
  /\ intervals (env s') = []
  /\ connected (svc s') = false
  /\ connecting (svc s') = false
  /\ 5000 <= delay <= 60000
  /\ (connectionRetries (svc s) < 10 -> delay = 5000)
  /\ (550 <= connectionRetries (svc s) -> delay = 60000).
Proof.
  intros Hlife Hd Hcode s' delay. subst s' delay. unfold fire. rewrite Hd.
  destruct (socket_close_effect h code s (lifecycle_steady s Hlife) Hd)
    as (Hc & Hg & Hi & Hn & Hrt & _).
  apply Z.eqb_neq in Hcode as Hcode'. rewrite Hcode' in Hn.
  destruct (backoff_bounds _ (lifecycle_counter s Hlife)) as (Hb & Hlow & Hcap).
  unfold backoff in *. auto 10.
Qed.

(** X6. When the retry timeout fires in the life cycle while a key is
    set, the service opens one new socket, to the url made of the server
    and the key, and is connecting; nothing is pending and nothing is
    sent. *)
Theorem retry_opens_a_socket (s : State) (t : nat) :
  Lifecycle s ->
  deliverable (TimeoutFires t) s = true ->
  apiKey (svc s) <> ""%string ->
  let s' := fire s (TimeoutFires t) in
  connecting (svc s') = true
  /\ connected (svc s') = false
  /\ timeouts (env s') = []
  /\ socket (svc s') = Some (length (sockets (env s)))
  /\ sockets (env s')
     = sockets (env s) ++ [(socket_url (apiServer (svc s)) (apiKey (svc s)), 0)]
  /\ sent (env s') = sent (env s).
Proof.
  intros Hlife Hd Hkey s'. subst s'. unfold fire. rewrite Hd. simpl in Hd.
  pose proof (lifecycle_steady s Hlife) as Hst.
  pose proof (steady_pending_idle t s Hst Hd) as Hg.
  destruct (lifecycle_tidy s Hlife) as (Hflag & _).
  assert (Hc : connected (svc s) = false).
  { destruct (connected (svc s)); [| done]. rewrite Hflag in Hg; done. }
  destruct Hst as (_ & _ & Hrt & _).
  pose proof (pending_remembered t _ _ Hd Hrt) as Hrem.
  pose proof (remembered_timers_cleared _ _ Hrt) as Hclear. rewrite Hrem in Hclear.
  apply String.eqb_neq in Hkey.
  simpl. unfold clearTimeout. js_unfold. simpl.
  rewrite openSocket_final. simpl. rewrite Hkey, Hg, Hc. simpl.
  unfold dialing. simpl. rewrite Hrem. simpl. rewrite Hc.
  repeat split; try done.
  unfold remove_timer in *. by rewrite Hclear.
Qed.

(** X7. When the retry timeout fires in the life cycle while the key is
    empty, [openSocket] throws: no socket is created and no timeout is
    pending any more, so that the service stays disconnected until the
    application calls it again. *)
Theorem retry_without_key_gives_up (s : State) (t : nat) :
  Lifecycle s ->
  deliverable (TimeoutFires t) s = true ->
  apiKey (svc s) = ""%string ->
  let s' := fire s (TimeoutFires t) in
  threw (handle (TimeoutFires t) s) = Some MISSING_KEY
  /\ timeouts (env s') = []
  /\ sockets (env s') = sockets (env s)
  /\ connecting (svc s') = false
  /\ (forall h, live (env s') h = false).
Proof.
  intros Hlife Hd Hkey s'. subst s'. unfold fire. rewrite Hd. simpl in Hd.
  pose proof (lifecycle_steady s Hlife) as Hst.
  pose proof (steady_pending_idle t s Hst Hd) as Hg.
  assert (Hdead : forall h, live (env s) h = false).
  { intros h. by apply steady_idle_no_socket. }
  destruct Hst as (_ & _ & Hrt & _).
  pose proof (pending_remembered t _ _ Hd Hrt) as Hrem.
  pose proof (remembered_timers_cleared _ _ Hrt) as Hclear. rewrite Hrem in Hclear.
  simpl. unfold clearTimeout. js_unfold. simpl.
  rewrite openSocket_needs_key by exact Hkey. simpl.
  repeat split; try done.
Qed.

(** X8. A connection that drops is restored with its subscriptions: after
    an abnormal close in the life cycle, when the retry timeout fires
    (a key being set) and the new socket opens, the whole registry is sent
    on the new socket, in its order; the service is connected again and
    the retry counter is back at zero. *)
Theorem reconnect_replays_registry (s : State) (h : nat) (code : Z) :
  Lifecycle s ->
  deliverable (SocketClose h code) s = true ->
  code <> 1000 ->
  apiKey (svc s) <> ""%string ->
  let h' := length (sockets (env s)) in
  let s' := run [SocketClose h code; TimeoutFires (nextTimer (env s)); SocketOpen h'] s in
  sent (env s')
  = sent (env s)
    ++ map (fun sub => (h', JSON_stringify (subscription_object sub)))
           (subscriptions (svc s))
  /\ subscriptions (svc s') = subscriptions (svc s)
  /\ socket (svc s') = Some h'
  /\ connected (svc s') = true
  /\ connectionRetries (svc s') = 0.
Proof.
  intros Hlife Hd Hcode Hkey h' s'. subst s' h'. unfold run. simpl fold_left.
  set (s1 := fire s (SocketClose h code)).
  set (s2 := fire s1 (TimeoutFires (nextTimer (env s)))).
  assert (Hlife1 : Lifecycle s1) by (by apply lifecycle_fire).
  assert (Hlife2 : Lifecycle s2) by (by apply lifecycle_fire).
  assert (H1 : timeouts (env s1)
               = [(nextTimer (env s), backoff (connectionRetries (svc s)))]
               /\ sent (env s1) = sent (env s)
               /\ length (sockets (env s1)) = length (sockets (env s))
               /\ subscriptions (svc s1) = subscriptions (svc s)
               /\ apiKey (svc s1) = apiKey (svc s)).
  { subst s1. unfold fire. rewrite Hd.
    destruct (socket_close_effect h code s (lifecycle_steady s Hlife) Hd)
      as (_ & _ & _ & Hn & _ & Hsent & Hsock & Hsubs & Hk & _).
    apply Z.eqb_neq in Hcode. rewrite Hcode in Hn.
    repeat split; try done.
    rewrite Hsock. unfold set_readyState. simpl. apply length_alter. }
  destruct H1 as (Hn1 & Hsent1 & Hlen1 & Hsubs1 & Hk1).
  assert (Hd1 : deliverable (TimeoutFires (nextTimer (env s))) s1 = true).
  { simpl. rewrite Hn1. simpl. by rewrite Nat.eqb_refl. }
  assert (H2 : socket (svc s2) = Some (length (sockets (env s)))
               /\ readyState (env s2) (length (sockets (env s))) = Some 0
               /\ sent (env s2) = sent (env s)
               /\ subscriptions (svc s2) = subscriptions (svc s)).
  { subst s2. unfold fire. rewrite Hd1.
    pose proof (lifecycle_steady s1 Hlife1) as Hst1.
    pose proof (steady_pending_idle _ s1 Hst1 Hd1) as Hg.
    destruct (lifecycle_tidy s1 Hlife1) as (Hflag & _).
    assert (Hc : connected (svc s1) = false).
    { destruct (connected (svc s1)); [| done]. rewrite Hflag in Hg; done. }
    rewrite <- Hk1 in Hkey. apply String.eqb_neq in Hkey.
    simpl. unfold clearTimeout. js_unfold. simpl.
    rewrite openSocket_final. simpl. rewrite Hkey, Hg, Hc. simpl.
    unfold dialing. simpl. rewrite Hlen1.
    repeat split; try done.
    - unfold readyState.
      destruct (retryTimeout (svc s1)); simpl;
        (rewrite lookup_app_r by lia); rewrite Hlen1, Nat.sub_diag; reflexivity.
    - destruct (retryTimeout (svc s1)); simpl; exact Hsent1. }
  destruct H2 as (Hs2 & Hr2 & Hsent2 & Hsubs2).
  assert (Hd2 : deliverable (SocketOpen (length (sockets (env s)))) s2 = true).
  { simpl. by apply bool_decide_eq_true. }
  destruct (replay_on_every_open s2 _ Hlife2 Hd2) as (Hsent & Hsubs & Hcount).
  rewrite Hsent, Hsubs, Hsent2, Hsubs2.
  repeat split; try done.
  - unfold fire. rewrite Hd2. simpl in Hd2. apply bool_decide_eq_true in Hd2.
    by destruct (socket_open_effect _ s2 (lifecycle_steady s2 Hlife2) Hd2)
      as (_ & _ & ? & _).
  - unfold fire. rewrite Hd2. simpl in Hd2. apply bool_decide_eq_true in Hd2.
    by destruct (socket_open_effect _ s2 (lifecycle_steady s2 Hlife2) Hd2)
      as (? & _).
Qed.

(** ** Identifiers *)

Lemma string_length_chars (s : string) :
  String.length s = length (list_ascii_of_string s).
Proof. induction s as [| c s IH]; simpl; [done | by rewrite IH]. Qed.

Lemma chars_append (a b : string) :
  list_ascii_of_string (a +:+ b) = list_ascii_of_string a ++ list_ascii_of_string b.
Proof. induction a as [| c a IH]; simpl; [done | by rewrite IH]. Qed.

Lemma get_chars (s : string) (i : nat) :
  String.get i s = list_ascii_of_string s !! i.
Proof.
  revert i. induction s as [| c s IH]; intros i; simpl; [done |].
  destruct i as [| i]; simpl; [done | apply IH].
Qed.

Lemma chars_charAt (s : string) (i : nat) :
  list_ascii_of_string (charAt s i) = option_list (list_ascii_of_string s !! i).
Proof. unfold charAt. rewrite get_chars. by destruct (_ !! i). Qed.

Lemma createId_loop (random : nat -> nat) (l : list nat) (text : string) :
  list_ascii_of_string
    (fold_left (fun text i => text +:+ charAt POSSIBLE_LETTERS (random i)) l text)
  = list_ascii_of_string text
    ++ omap (fun i => list_ascii_of_string POSSIBLE_LETTERS !! random i) l.
Proof.
  revert text. induction l as [| i l IH]; intros text; simpl.
  - by rewrite app_nil_r.
  - rewrite IH, chars_append, chars_charAt, <- app_assoc. f_equal.
    by destruct (_ !! random i).
Qed.

Lemma omap_picks (letters : list ascii) (random : nat -> nat) (l : list nat) :
  (forall i, i ∈ l -> (random i < length letters)%nat) ->
  omap (fun i => letters !! random i) l
  = map (fun i => default "000"%char (letters !! random i)) l.
Proof.
  induction l as [| i l IH]; intros Hl; [done |].
  destruct (lookup_lt_is_Some_2 letters (random i) (Hl i (list_elem_of_here _ _)))
    as [c Hc].
  cbn. rewrite Hc. cbn. f_equal. apply IH.
  intros j Hj. apply Hl. by apply list_elem_of_further.
Qed.

(** X9. When every draw is an index into the 62 letters, as
    [Math.floor(Math.random() * 62)] is, the identifier has 30 characters,
    and its [k]-th character is the letter the [k]-th draw selects, so
    that all its characters are of [A-Za-z0-9]. *)
Theorem createId_shape (random : nat -> nat) :
  (forall i, (i < 30)%nat -> (random i < 62)%nat) ->
  String.length (createId random) = 30%nat
  /\ (forall k, (k < 30)%nat ->
        String.get k (createId random) = String.get (random k) POSSIBLE_LETTERS)
  /\ Forall (fun c => c ∈ list_ascii_of_string POSSIBLE_LETTERS)
            (list_ascii_of_string (createId random)).
Proof.
  intros Hdraw.
  assert (Hlen : length (list_ascii_of_string POSSIBLE_LETTERS) = 62%nat)
    by reflexivity.
  assert (Hchars : list_ascii_of_string (createId random)
                   = map (fun i => default "000"%char
                                     (list_ascii_of_string POSSIBLE_LETTERS !! random i))
                         (seq 0 30)).
  { unfold createId. rewrite createId_loop. rewrite omap_picks; [done |].
    intros i Hi. apply elem_of_seq in Hi. rewrite Hlen. apply Hdraw. lia. }
  assert (Hpick : forall i, (i < 30)%nat ->
            is_Some (list_ascii_of_string POSSIBLE_LETTERS !! random i)).
  { intros i Hi. apply lookup_lt_is_Some. rewrite Hlen. by apply Hdraw. }
  clear Hlen.
  remember (list_ascii_of_string POSSIBLE_LETTERS) as letters eqn:Hletters.
  split; [| split].
  - by rewrite string_length_chars, Hchars, length_map, length_seq.
  - intros k Hk. rewrite !get_chars, <- Hletters, Hchars.
    rewrite list_lookup_fmap, lookup_seq_lt by done.
    cbn. destruct (Hpick k Hk) as [c Hc]. by rewrite Hc.
  - rewrite Hchars. apply Forall_forall. intros c Hc.
    apply list_elem_of_fmap in Hc. destruct Hc as (i & -> & Hi).
    apply elem_of_seq in Hi.
    destruct (Hpick i ltac:(lia)) as [c Hc]. rewrite Hc. cbn.
    by apply list_elem_of_lookup_2 in Hc.
Qed.

(** ** Observers *)

(** X10. [onConnect] and [onDisconnect] accept functions only: a value
    that is not a function is refused with an error and changes nothing;
    after any sequence of calls the list of observers is the old one
    followed by the functions among the arguments, in the order of the
    calls. *)
Theorem observers_registered_in_order (values : list JsVal) (s : State) :
  onConnectCallbacks (svc (run (map CallOnConnect values) s))
  = onConnectCallbacks (svc s) ++ List.filter is_function values
  /\ onDisconnectCallbacks (svc (run (map CallOnDisconnect values) s))
     = onDisconnectCallbacks (svc s) ++ List.filter is_function values
  /\ Forall (fun v => is_function v = false ->
               onConnect v s = Throw (JsError "Connect callback is not a function.") s
               /\ onDisconnect v s
                  = Throw (JsError "Disconnect callback is not a function.") s)
            values.
Proof.
  split; [| split].
  - revert s. induction values as [| v values IH]; intros s; simpl.
    + by rewrite app_nil_r.
    + rewrite IH. unfold fire. simpl. unfold onConnect. js_unfold.
      destruct (is_function v); simpl; [| reflexivity].
      by rewrite <- app_assoc.
  - revert s. induction values as [| v values IH]; intros s; simpl.
    + by rewrite app_nil_r.
    + rewrite IH. unfold fire. simpl. unfold onDisconnect. js_unfold.
      destruct (is_function v); simpl; [| reflexivity].
      by rewrite <- app_assoc.
  - apply Forall_forall. intros v _ Hv. unfold onConnect, onDisconnect.
    rewrite Hv. done.
Qed.

(** ** Opening and closing *)

(** X11. [openSocket] does not open twice: calling it a second time right
    after the first leaves the state the first call left, whether the
    first call opened a socket, returned at once or threw for the missing
    key; and it returns at once, with the state unchanged, whenever the
    service is connecting or connected and has a key. *)
Theorem openSocket_twice (s : State) :
  final (openSocket (final (openSocket s))) = final (openSocket s)
  /\ length (sockets (env (final (openSocket (final (openSocket s))))))
     = length (sockets (env (final (openSocket s))))
  /\ (apiKey (svc s) <> ""%string ->
      connecting (svc s) || connected (svc s) = true ->
      openSocket s = Return tt s).
Proof.
  assert (Htwice : final (openSocket (final (openSocket s))) = final (openSocket s)).
  { rewrite (openSocket_final s).
    destruct (String.eqb (apiKey (svc s)) "") eqn:Hk.
    { rewrite openSocket_final, Hk. reflexivity. }
    destruct (connecting (svc s) || connected (svc s)) eqn:Hg.
    { rewrite openSocket_final, Hk, Hg. reflexivity. }
    rewrite openSocket_final. unfold dialing at 1 2. simpl. rewrite Hk. reflexivity. }
  split; [exact Htwice |]. split; [by rewrite Htwice |].
  intros Hkey Hg. apply String.eqb_neq in Hkey.
  unfold openSocket. js_unfold. by rewrite Hkey, Hg.
Qed.

(** X12. [closeSocket] acts on an open socket only: when the service holds
    no socket, or one that is not open, the state is unchanged; when the
    socket is open it starts closing, and nothing else changes.  In both
    cases the service fields, the timers and the live sockets are those of
    before (the flags fall with the close event, not here), and closing
    twice is closing once. *)
Theorem closeSocket_starts_closing (s : State) :
  closeSocket s = Return tt (final (closeSocket s))
  /\ svc (final (closeSocket s)) = svc s
  /\ timeouts (env (final (closeSocket s))) = timeouts (env s)
  /\ intervals (env (final (closeSocket s))) = intervals (env s)
  /\ sent (env (final (closeSocket s))) = sent (env s)
  /\ (forall h, live (env (final (closeSocket s))) h = live (env s) h)
  /\ (forall h, socket (svc s) = Some h -> readyState (env s) h = Some 1 ->
        readyState (env (final (closeSocket s))) h = Some 2)
  /\ ((forall h, socket (svc s) = Some h -> readyState (env s) h <> Some 1) ->
        final (closeSocket s) = s)
  /\ final (closeSocket (final (closeSocket s))) = final (closeSocket s).
Proof.
  assert (Hret : closeSocket s = Return tt (final (closeSocket s))).
  { unfold closeSocket, socket_close. js_unfold. simpl.
    destruct (socket (svc s)); [| reflexivity].
    destruct (bool_decide _); reflexivity. }
  split; [exact Hret |]. clear Hret.
  rewrite (closeSocket_final s).
  destruct (socket (svc s)) as [h |] eqn:Hs.
  2: { repeat split; try done. rewrite closeSocket_final, Hs. reflexivity. }
  destruct (bool_decide (readyState (env s) h = Some 1)) eqn:Hr.
  2: { repeat split; try done.
       - intros h' [= <-] Hopen. apply bool_decide_eq_false in Hr. done.
       - rewrite closeSocket_final, Hs, Hr. reflexivity. }
  apply bool_decide_eq_true in Hr.
  repeat split; try done.
  - intros h'. simpl. unfold live. destruct (decide (h = h')) as [<- | Hne].
    + rewrite readyState_set_eq, Hr. reflexivity.
    + by rewrite readyState_set_ne.
  - intros h' [= <-] _. simpl. rewrite readyState_set_eq, Hr. reflexivity.
  - intros Hnot. destruct (Hnot h eq_refl Hr).
  - rewrite closeSocket_final. simpl. rewrite Hs, readyState_set_eq, Hr. simpl.
    reflexivity.
Qed.

(** ** Subscribing *)

Lemma booked_core (sub : EventSubscription) (callback : JsVal) (o : EventsService) :
  apiKey (booked sub callback o) = apiKey o
  /\ apiServer (booked sub callback o) = apiServer o
  /\ socket (booked sub callback o) = socket o
  /\ connecting (booked sub callback o) = connecting o
  /\ connected (booked sub callback o) = connected o
  /\ retryTimeout (booked sub callback o) = retryTimeout o
  /\ pingInterval (booked sub callback o) = pingInterval o
  /\ connectionRetries (booked sub callback o) = connectionRetries o
  /\ subscriptions (booked sub callback o) = register (subscriptions o) sub
  /\ subscriptionCallbackMap (booked sub callback o)
     = (if is_function callback
        then <[sub_id sub := callback]> (subscriptionCallbackMap o)
        else subscriptionCallbackMap o).
Proof.
  unfold booked, register.
  destruct (registered _ _), (is_function callback); simpl; auto 12.
Qed.

(** X13. While the service is connected, [subscribe] sends at once: the
    call returns having sent one frame, the serialization of the record,
    on the current socket, whether the record was registered already or
    not; no socket is created and no timer is touched. *)
Theorem subscribe_when_connected
    (sub : EventSubscription) (callback : JsVal) (h : nat) (s : State) :
  connected (svc s) = true ->
  socket (svc s) = Some h ->
  let s' := final (subscribe sub callback s) in
  threw (subscribe sub callback s) = None
  /\ sent (env s') = sent (env s) ++ [(h, JSON_stringify (subscription_object sub))]
  /\ sockets (env s') = sockets (env s)
  /\ timeouts (env s') = timeouts (env s)
  /\ intervals (env s') = intervals (env s)
  /\ subscriptions (svc s') = register (subscriptions (svc s)) sub.
Proof.
  intros Hc Hs s'. subst s'. split.
  - rewrite subscribe_outcome, Hc, Hs. reflexivity.
  - rewrite subscribe_final, Hc, Hs. simpl.
    destruct (booked_core sub callback (svc s)) as (_ & _ & _ & _ & _ & _ & _ & _ & Hr & _).
    auto 10.
Qed.

(** X14. While the service is not connected, [subscribe] sends nothing:
    the record waits in the registry for the replay.  If a socket is being
    opened the platform is left as it is; if not, and a key is set, one
    socket is opened, to the url made of the server and the key, and the
    remembered retry timeout is cancelled. *)
Theorem subscribe_when_not_connected
    (sub : EventSubscription) (callback : JsVal) (s : State) :
  connected (svc s) = false ->
  apiKey (svc s) <> ""%string ->
  let s' := final (subscribe sub callback s) in
  threw (subscribe sub callback s) = None
  /\ sent (env s') = sent (env s)
  /\ subscriptions (svc s') = register (subscriptions (svc s)) sub
  /\ connecting (svc s') = true
  /\ (connecting (svc s) = true -> env s' = env s)
  /\ (connecting (svc s) = false ->
      socket (svc s') = Some (length (sockets (env s)))
      /\ sockets (env s')
         = sockets (env s) ++ [(socket_url (apiServer (svc s)) (apiKey (svc s)), 0)]
      /\ forall t, retryTimeout (svc s) = Some t -> pending t (timeouts (env s')) = false).
Proof.
  intros Hc Hkey s'. subst s'. apply String.eqb_neq in Hkey. split.
  - rewrite subscribe_outcome, Hc.
    destruct (booked_core sub callback (svc s))
      as (Hbk & _ & _ & Hbg & Hbc & _).
    destruct (connecting (svc s)) eqn:Hg; [reflexivity |].
    rewrite openSocket_outcome. simpl. rewrite Hbk, Hkey, Hbg, Hbc, Hc.
    reflexivity.
  - rewrite subscribe_final, Hc.
    destruct (booked_core sub callback (svc s))
      as (Hbk & Hbs & _ & Hbg & Hbc & Hbt & _ & _ & Hr & _).
    destruct (connecting (svc s)) eqn:Hg.
    + simpl. rewrite Hbg. repeat split; try done.
    + rewrite openSocket_final. simpl. rewrite Hbk, Hkey, Hbg, Hbc, Hc. simpl.
      unfold dialing. simpl. rewrite Hbk, Hbs, Hbt.
      repeat split; try done.
      * by destruct (retryTimeout (svc s)).
      * intros t ->. simpl. apply pending_removed.
Qed.

Lemma subscribe_bindings (sub : EventSubscription) (callback : JsVal) (s : State) :
  subscriptionCallbackMap (svc (final (subscribe sub callback s)))
  = if is_function callback
    then <[sub_id sub := callback]> (subscriptionCallbackMap (svc s))
    else subscriptionCallbackMap (svc s).
Proof.
  rewrite subscribe_final.
  destruct (booked_core sub callback (svc s)) as (_ & _ & _ & _ & _ & _ & _ & _ & _ & Hm).
  destruct (connected (svc s)).
  - by destruct (socket (svc s)).
  - destruct (connecting (svc s)); [done |].
    rewrite openSocket_final.
    destruct (String.eqb _ ""); [done |]. by destruct (_ || _).
Qed.

(** X15. [subscribe] binds the callback to the identifier of the record
    when the callback is a function, replacing an earlier binding, and
    leaves the binding alone when it is not; the bindings of the other
    identifiers are untouched.  Subscribing again with another callback
    does not register the record twice. *)
Theorem subscribe_binds_callback
    (sub : EventSubscription) (callback callback' : JsVal) (s : State) :
  let s' := final (subscribe sub callback s) in
  subscriptionCallbackMap (svc s') !! sub_id sub
  = (if is_function callback then Some callback
     else subscriptionCallbackMap (svc s) !! sub_id sub)
  /\ (forall i, i <> sub_id sub ->
        subscriptionCallbackMap (svc s') !! i = subscriptionCallbackMap (svc s) !! i)
  /\ (is_function callback' = true ->
      subscriptionCallbackMap (svc (final (subscribe sub callback' s'))) !! sub_id sub
      = Some callback'
      /\ subscriptions (svc (final (subscribe sub callback' s'))) = subscriptions (svc s')).
Proof.
  intros s'. subst s'. rewrite !subscribe_bindings. split; [| split].
  - destruct (is_function callback); [apply lookup_insert_eq | done].
  - intros i Hi. destruct (is_function callback); [by apply lookup_insert_ne | done].
  - intros Hf. rewrite Hf. split; [apply lookup_insert_eq |].
    rewrite !subscribe_registry. unfold register.
    destruct (registered (sub_id sub) (subscriptions (svc s))) eqn:Hr.
    + by rewrite Hr.
    + rewrite registered_app, Hr. unfold registered at 1. simpl.
      by rewrite String.eqb_refl.
Qed.

(** ** Inbound frames *)

Lemma socket_onmessage_outcome (data : MessageData) (s : State) :
  socket_onmessage data s = Return tt s
  \/ exists f,
       socket_onmessage data s
       = if fn_throws f && fn_nullish f then Throw TypeError (add_invoked [f] s)
         else Return tt (add_invoked [f] s).
Proof.
  unfold socket_onmessage, member, call_value, call_function, log_stack. js_unfold.
  destruct (is_pong data); [by left |].
  destruct data as [text |]; [| by left].
  destruct (JSON_parse text) as [message |]; [| by left].
  destruct message as [| | mb | mz | mt | mf | mprops]; simpl; try (by left);
    match goal with
    | |- context [default VUndefined ?x] => destruct x as [callback |]
    end; simpl; try (by left);
    destruct callback as [| | b | z | t | f | props]; simpl; try (by left);
    try (destruct b; simpl; by left);
    try (destruct (negb _); simpl; by left);
    right; exists f; destruct (fn_throws f), (fn_nullish f); reflexivity.
Qed.

(** X16. The message handler by itself (user functions, by the convention
    of the model, do not call back into the service) leaves the service
    fields, the frames sent, the sockets and the timers as they were, and
    calls at most one user function.  An exception of that function is
    caught, but the handler of the exception reads the [stack] of what was
    thrown: when the function threw [null] or [undefined] that reading
    throws a [TypeError] out of the message handler.  In every other case
    the message handler returns. *)
Theorem onmessage_is_isolated (data : MessageData) (s : State) :
  let s' := final (socket_onmessage data s) in
  svc s' = svc s
  /\ sent (env s') = sent (env s)
  /\ sockets (env s') = sockets (env s)
  /\ timeouts (env s') = timeouts (env s)
  /\ intervals (env s') = intervals (env s)
  /\ (socket_onmessage data s = Return tt s
      \/ exists f,
           invoked (env s') = invoked (env s) ++ [f]
           /\ socket_onmessage data s
              = if fn_throws f && fn_nullish f then Throw TypeError s'
                else Return tt s').
Proof.
  cbv zeta.
  destruct (socket_onmessage_outcome data s) as [H | [f H]]; rewrite H.
  - simpl. auto 10.
  - assert (Hf : final (if fn_throws f && fn_nullish f
                        then Throw (A := unit) TypeError (add_invoked [f] s)
                        else Return tt (add_invoked [f] s))
                 = add_invoked [f] s)
      by (destruct (fn_throws f && fn_nullish f); reflexivity).
    rewrite Hf. repeat split. right. exists f. split; reflexivity.
Qed.

(** X17. Three kinds of frames are dropped without a trace: the text
    PONG, which is never parsed, even if the parser would accept it; a
    frame that is not text; and a text that [JSON.parse] rejects. *)
Theorem quiet_frames_are_dropped (text : string) (s : State) :
  JSON_parse text = None ->
  socket_onmessage (DText "PONG") s = Return tt s
  /\ socket_onmessage DBinary s = Return tt s
  /\ socket_onmessage (DText text) s = Return tt s.
Proof.
  intros Hparse. split; [reflexivity |]. split; [reflexivity |].
  unfold socket_onmessage. destruct (is_pong (DText text)); [reflexivity |].
  js_unfold. by rewrite Hparse.
Qed.

(** X18. A frame reaches the callback of its subscription: after
    [subscribe] with a function as callback, a text frame decoded to an
    object whose [subscriptionId] is the identifier of the record calls
    that function, once, and changes nothing else.  The handler returns,
    also when the function throws, unless what the function throws is
    [null] or [undefined]: then the handler throws a [TypeError].  (The
    key conversion leaves a string as it is.) *)
Theorem bound_callback_is_called
    (sub : EventSubscription) (f : JsFun) (text : string) (message : JsVal)
    (s : State) :
  toPropertyKey (VStr (sub_id sub)) = sub_id sub ->
  text <> "PONG"%string ->
  JSON_parse text = Some message ->
  get_prop message "subscriptionId" = VStr (sub_id sub) ->
  let s' := final (subscribe sub (VFun f) s) in
  socket_onmessage (DText text) s'
  = if fn_throws f && fn_nullish f then Throw TypeError (add_invoked [f] s')
    else Return tt (add_invoked [f] s').
Proof.
  intros Hkey Hpong Hparse Hid s'.
  assert (Hbound : subscriptionCallbackMap (svc s') !! sub_id sub = Some (VFun f)).
  { subst s'. rewrite subscribe_final.
    destruct (booked_core sub (VFun f) (svc s)) as (_ & _ & _ & _ & _ & _ & _ & _ & _ & Hm).
    assert (Hm' : subscriptionCallbackMap (booked sub (VFun f) (svc s)) !! sub_id sub
                  = Some (VFun f)).
    { rewrite Hm. apply lookup_insert_eq. }
    destruct (connected (svc s)).
    - by destruct (socket (svc s)).
    - destruct (connecting (svc s)); [done |].
      rewrite openSocket_final.
      destruct (String.eqb _ ""); [done |]. by destruct (_ || _). }
  clearbody s'.
  unfold socket_onmessage, member, call_value, call_function, log_stack. js_unfold.
  apply String.eqb_neq in Hpong. simpl. rewrite Hpong, Hparse.
  destruct message; simpl in Hid; try discriminate.
  simpl. rewrite Hid, Hkey, Hbound. simpl.
  destruct (fn_throws f), (fn_nullish f); reflexivity.
Qed.

(** ** Reset *)

Lemma wiped_sockets (s : State) :
  sent (env (wiped s)) = sent (env s)
  /\ invoked (env (wiped s)) = invoked (env s)
  /\ sockets (env (wiped s))
     = match socket (svc s) with
       | Some h =>
           if bool_decide (readyState (env s) h = Some 1)
           then sockets (set_readyState h 2 (env s)) else sockets (env s)
       | None => sockets (env s)
       end.
Proof.
  unfold wiped. simpl.
  destruct (socket (svc s)) as [h |];
    try destruct (bool_decide (readyState (env s) h = Some 1));
    destruct (retryTimeout (svc s)), (pingInterval (svc s)); done.
Qed.

Lemma wiped_platform (s : State) :
  length (sockets (env (wiped s))) = length (sockets (env s))
  /\ sent (env (wiped s)) = sent (env s)
  /\ invoked (env (wiped s)) = invoked (env s)
  /\ (forall h, readyState (env (wiped s)) h = Some 1 -> socket (svc s) <> Some h).
Proof.
  destruct (wiped_sockets s) as (Hsent & Hinv & Hsock).
  split; [| split; [exact Hsent | split; [exact Hinv |]]].
  - rewrite Hsock. destruct (socket (svc s)) as [h |]; [| done].
    destruct (bool_decide _); [apply length_alter | done].
  - intros h Hr Hs. unfold readyState in Hr. rewrite Hsock, Hs in Hr.
    destruct (bool_decide (readyState (env s) h = Some 1)) eqn:Hopen.
    + apply bool_decide_eq_true in Hopen.
      change (readyState (set_readyState h 2 (env s)) h = Some 1) in Hr.
      rewrite readyState_set_eq, Hopen in Hr. discriminate.
    + apply bool_decide_eq_false in Hopen. by apply Hopen.
Qed.

Lemma wiped_idle (s : State) :
  retryTimeout (svc s) = None ->
  pingInterval (svc s) = None ->
  (forall h, socket (svc s) = Some h -> readyState (env s) h <> Some 1) ->
  wiped s = {| svc := set_socket (socket (svc s)) (svc new_EventsService);
               env := env s |}.
Proof.
  intros Hrt Hpi Hnot. unfold wiped. rewrite Hrt, Hpi.
  destruct (socket (svc s)) as [h |]; [| reflexivity].
  destruct (bool_decide (readyState (env s) h = Some 1)) eqn:Hr; [| reflexivity].
  apply bool_decide_eq_true in Hr. destruct (Hnot h eq_refl Hr).
Qed.

(** X19. [reset] returns the service to the state of a new one, whatever
    the state: every field but the socket handle is that of a new
    service (no key, the default server, empty registry, dispatch table
    and observer lists, counter at zero, no timer remembered); it never
    throws, creates no socket and sends nothing; resetting twice is
    resetting once. *)
Theorem reset_wipes (s : State) :
  reset s = Return tt (final (reset s))
  /\ svc (final (reset s)) = set_socket (socket (svc s)) (svc new_EventsService)
  /\ length (sockets (env (final (reset s)))) = length (sockets (env s))
  /\ sent (env (final (reset s))) = sent (env s)
  /\ final (reset (final (reset s))) = final (reset s).
Proof.
  split.
  { unfold reset, socket_close, clearTimeout, clearInterval. js_unfold. simpl.
    destruct (socket (svc s)) as [h |]; simpl;
      try destruct (bool_decide (readyState (env s) h = Some 1)); simpl;
      destruct (retryTimeout (svc s)); simpl;
      destruct (pingInterval (svc s)); reflexivity. }
  rewrite !reset_final.
  destruct (wiped_platform s) as (Hlen & Hsent & _ & Hclosed).
  split; [reflexivity |]. split; [exact Hlen |]. split; [exact Hsent |].
  rewrite (wiped_idle (wiped s)); try reflexivity.
  intros h Hs Hr. exact (Hclosed h Hr Hs).
Qed.

(** X20. In the life cycle [reset] cancels every timer: after it no
    timeout is pending and no interval runs, so the service does not
    reconnect by itself. *)
Theorem reset_cancels_timers (s : State) :
  Lifecycle s ->
  timeouts (env (fire s CallReset)) = []
  /\ intervals (env (fire s CallReset)) = []
  /\ connecting (svc (fire s CallReset)) = false
  /\ connected (svc (fire s CallReset)) = false.
Proof.
  intros Hlife. apply lifecycle_steady in Hlife.
  destruct Hlife as (_ & _ & Hrt & Hpi & _).
  pose proof (remembered_timers_cleared _ _ Hrt) as Ht.
  pose proof (remembered_timers_cleared _ _ Hpi) as Hi.
  unfold fire. simpl. rewrite reset_final. unfold wiped. simpl.
  destruct (socket (svc s)) as [h |];
    try destruct (bool_decide (readyState (env s) h = Some 1));
    destruct (retryTimeout (svc s)), (pingInterval (svc s)); simpl in *;
    rewrite ?Ht, ?Hi; done.
Qed.

(** X21. After [reset], [setKey] and a subscription the service starts
    afresh, whatever came before: the registry holds the new record only,
    one new socket is connecting, and when it opens the replay sends the
    new record and nothing of what was registered before the reset. *)
Theorem reset_then_subscribe_is_fresh
    (key : string) (sub : EventSubscription) (callback : JsVal) (s : State) :
  key <> ""%string ->
  let h := length (sockets (env s)) in
  let s' := run [CallReset; CallSetKey key; CallSubscribe sub callback] s in
  subscriptions (svc s') = [sub]
  /\ socket (svc s') = Some h
  /\ readyState (env s') h = Some 0
  /\ sent (env s') = sent (env s)
  /\ sent (env (fire s' (SocketOpen h)))
     = sent (env s) ++ [(h, JSON_stringify (subscription_object sub))].
Proof.
  intros Hkey h s'. subst h s'. unfold run. simpl fold_left.
  apply String.eqb_neq in Hkey.
  destruct (wiped_platform s) as (Hlen & Hsent & _).
  set (s1 := fire (fire s CallReset) (CallSetKey key)).
  assert (H1 : svc s1 = set_apiKey key (set_socket (socket (svc s)) (svc new_EventsService))
               /\ env s1 = env (wiped s)).
  { subst s1. unfold fire. simpl. rewrite reset_final. done. }
  destruct H1 as [Hsvc Henv].
  assert (Hc1 : connected (svc s1) = false) by (by rewrite Hsvc).
  assert (Hg1 : connecting (svc s1) = false) by (by rewrite Hsvc).
  assert (Hk1 : apiKey (svc s1) = key) by (by rewrite Hsvc).
  assert (Ht1 : retryTimeout (svc s1) = None) by (by rewrite Hsvc).
  assert (Hr1 : subscriptions (svc s1) = []) by (by rewrite Hsvc).
  destruct (booked_core sub callback (svc s1))
    as (Hbk & _ & _ & Hbg & Hbc & Hbt & _ & _ & Hbr & _).
  assert (H2 : fire s1 (CallSubscribe sub callback)
               = dialing {| svc := booked sub callback (svc s1); env := env s1 |}).
  { unfold fire. cbn [deliverable handle]. rewrite subscribe_final, Hc1, Hg1.
    rewrite openSocket_final. cbn [svc env].
    by rewrite Hbk, Hk1, Hkey, Hbg, Hg1, Hbc, Hc1. }
  rewrite H2. clear H2.
  set (s2 := dialing _).
  assert (H3 : subscriptions (svc s2) = [sub]
               /\ socket (svc s2) = Some (length (sockets (env s)))
               /\ readyState (env s2) (length (sockets (env s))) = Some 0
               /\ sent (env s2) = sent (env s)).
  { subst s2. unfold dialing. cbn [svc env]. rewrite Hbt, Ht1.
    split; [| split; [| split]].
    - change (subscriptions (booked sub callback (svc s1)) = [sub]).
      by rewrite Hbr, Hr1.
    - change (Some (length (sockets (env s1))) = Some (length (sockets (env s)))).
      by rewrite Henv, Hlen.
    - unfold readyState. cbn [sockets set_sockets].
      rewrite lookup_app_r by (rewrite Henv, Hlen; lia).
      by rewrite Henv, Hlen, Nat.sub_diag.
    - change (sent (env s1) = sent (env s)). by rewrite Henv. }
  destruct H3 as (Hsubs & Hs & Hr & Hsent2). clearbody s2.
  repeat split; try done.
  unfold fire. cbn [deliverable]. rewrite bool_decide_eq_true_2 by exact Hr.
  cbn [handle]. unfold mbind, Js_bind, modify_env.
  rewrite (socket_onopen_result (length (sockets (env s)))) by exact Hs.
  rewrite final_finish. simpl. by rewrite Hsubs, Hsent2.
Qed.

(** ** What every run keeps *)

Lemma closed_keeps (code : Z) (s : State) :
  sockets (env (closed code s)) = sockets (env s)
  /\ subscriptions (svc (closed code s)) = subscriptions (svc s)
  /\ subscriptionCallbackMap (svc (closed code s)) = subscriptionCallbackMap (svc s).
Proof.
  unfold closed.
  destruct (pingInterval (svc s)), (code =? 1000); simpl; try done;
    destruct (retryTimeout (svc s)); done.
Qed.

Lemma socket_onopen_keeps (s : State) :
  sockets (env (final (socket_onopen s))) = sockets (env s)
  /\ subscriptions (svc (final (socket_onopen s))) = subscriptions (svc s)
  /\ subscriptionCallbackMap (svc (final (socket_onopen s)))
     = subscriptionCallbackMap (svc s).
Proof. destruct (socket_onopen_final s) as [[frames ->] | ->]; done. Qed.

Lemma keyed_alter (h : nat) (r : Z) (l : list (string * Z)) :
  Forall (fun x => keyed x.1) l ->
  Forall (fun x => keyed x.1) (alter (fun x => (fst x, r)) h l).
Proof. intros Hl. apply Forall_alter; [exact Hl |]. by intros x _ Hx. Qed.

Lemma openSocket_keyed (s : State) :
  Forall (fun x => keyed x.1) (sockets (env s)) ->
  Forall (fun x => keyed x.1) (sockets (env (final (openSocket s)))).
Proof.
  intros Hs. rewrite openSocket_final.
  destruct (String.eqb_spec (apiKey (svc s)) "") as [Hk | Hk]; [exact Hs |].
  destruct (connecting (svc s) || connected (svc s)); [exact Hs |].
  unfold dialing. simpl.
  assert (Hsame : forall p, sockets p = sockets (env s) ->
            Forall (fun x => keyed x.1)
              (sockets p ++ [(socket_url (apiServer (svc s)) (apiKey (svc s)), 0)])).
  { intros p ->. apply Forall_app. split; [exact Hs |].
    apply Forall_singleton. simpl. by exists (apiServer (svc s)), (apiKey (svc s)). }
  destruct (retryTimeout (svc s)); by apply Hsame.
Qed.

Lemma unrelated_sockets (ev : Event) (s : State) :
  match ev with
  | CallSetKey _ | CallSetServer _ | CallOnConnect _ | CallOnDisconnect _
  | SocketError _ | SocketMessage _ _ | IntervalFires _ => True
  | _ => False
  end ->
  sockets (env (final (handle ev s))) = sockets (env s).
Proof.
  intros Hev. pose proof (unrelated_steady ev s Hev) as Hcore.
  unfold core in Hcore. congruence.
Qed.

Lemma fire_keyed (ev : Event) (s : State) :
  Forall (fun x => keyed x.1) (sockets (env s)) ->
  Forall (fun x => keyed x.1) (sockets (env (fire s ev))).
Proof.
  intros Hs. unfold fire. destruct (deliverable ev s); [| exact Hs].
  assert (Hsub : forall sub cb,
            Forall (fun x => keyed x.1) (sockets (env (final (subscribe sub cb s))))).
  { intros sub cb. rewrite subscribe_final.
    destruct (connected (svc s)); [by destruct (socket (svc s)) |].
    destruct (connecting (svc s)); [exact Hs |]. by apply openSocket_keyed. }
  destruct ev; try (rewrite unrelated_sockets by exact I; exact Hs); cbn [handle].
  - rewrite api_call_record. destruct (call_record random c); [apply Hsub | exact Hs].
  - apply Hsub.
  - by apply openSocket_keyed.
  - rewrite closeSocket_final. destruct (socket (svc s)); [| exact Hs].
    destruct (bool_decide _); [| exact Hs]. by apply keyed_alter.
  - rewrite reset_final. destruct (wiped_sockets s) as (_ & _ & ->).
    destruct (socket (svc s)); [| exact Hs].
    destruct (bool_decide _); [| exact Hs]. by apply keyed_alter.
  - unfold mbind, Js_bind, modify_env.
    destruct (socket_onopen_keeps {| svc := svc s; env := set_readyState h 1 (env s) |})
      as (-> & _). by apply keyed_alter.
  - unfold mbind, Js_bind, modify_env. rewrite socket_onclose_result, final_finish.
    simpl. destruct (closed_keeps code {| svc := svc s; env := set_readyState h 3 (env s) |})
      as (-> & _). by apply keyed_alter.
  - unfold clearTimeout. js_unfold. simpl. by apply openSocket_keyed.
Qed.

(** X22. Whatever happens to a new service, every socket it ever creates
    is connected to a url made of a server and a key that is not empty:
    the service never connects without a key. *)
Theorem sockets_carry_a_key (evs : list Event) (h : nat) (url : string) (r : Z) :
  sockets (env (run evs new_EventsService)) !! h = Some (url, r) ->
  exists server key,
    key <> ""%string /\ url = server +:+ "/events?rest-api-key=" +:+ key.
Proof.
  assert (Hall : forall evs s, Forall (fun x => keyed x.1) (sockets (env s)) ->
            Forall (fun x => keyed x.1) (sockets (env (run evs s)))).
  { clear. induction evs as [| ev evs IH]; intros s Hs; [exact Hs |].
    simpl. apply IH. by apply fire_keyed. }
  intros Hh. specialize (Hall evs new_EventsService (Forall_nil_2 _)).
  rewrite Forall_forall in Hall.
  exact (Hall (url, r) (list_elem_of_lookup_2 _ _ _ Hh)).
Qed.

Lemma registered_ids (i : string) (l : list EventSubscription) :
  registered i l = true <-> i ∈ map sub_id l.
Proof.
  unfold registered. rewrite existsb_exists. split.
  - intros (x & Hx & Heq). apply String.eqb_eq in Heq. subst i.
    apply list_elem_of_fmap. exists x. split; [done |]. by apply list_elem_of_In.
  - intros Hi. apply list_elem_of_fmap in Hi. destruct Hi as (x & -> & Hx).
    exists x. split; [by apply list_elem_of_In | apply String.eqb_refl].
Qed.

Lemma registered_register (i : string) (l : list EventSubscription)
    (sub : EventSubscription) :
  registered i l = true -> registered i (register l sub) = true.
Proof.
  intros Hi. unfold register. destruct (registered (sub_id sub) l); [exact Hi |].
  by rewrite registered_app, Hi.
Qed.

Lemma register_registers (l : list EventSubscription) (sub : EventSubscription) :
  registered (sub_id sub) (register l sub) = true.
Proof.
  unfold register. destruct (registered (sub_id sub) l) eqn:Hr; [exact Hr |].
  rewrite registered_app, Hr. unfold registered. simpl. by rewrite String.eqb_refl.
Qed.

Lemma register_NoDup (l : list EventSubscription) (sub : EventSubscription) :
  NoDup (map sub_id l) -> NoDup (map sub_id (register l sub)).
Proof.
  intros Hl. unfold register. destruct (registered (sub_id sub) l) eqn:Hr; [exact Hl |].
  rewrite map_app. apply NoDup_app. split; [exact Hl |]. split.
  - intros i Hi Hsub. apply list_elem_of_singleton in Hsub. subst i.
    apply registered_ids in Hi. congruence.
  - apply NoDup_singleton.
Qed.

Lemma unrelated_book (ev : Event) (s : State) :
  match ev with
  | CallSetKey _ | CallSetServer _ | CallOnConnect _ | CallOnDisconnect _
  | SocketError _ | SocketMessage _ _ | IntervalFires _ => True
  | _ => False
  end ->
  subscriptions (svc (final (handle ev s))) = subscriptions (svc s)
  /\ subscriptionCallbackMap (svc (final (handle ev s))) = subscriptionCallbackMap (svc s).
Proof.
  destruct ev; try done; intros _; cbn [handle];
    first [ by (unfold onConnect; js_unfold; destruct (is_function callback))
          | by (unfold onDisconnect; js_unfold; destruct (is_function callback))
          | by (destruct (socket_onmessage_outcome data s) as [-> | [f ->]];
                try destruct (fn_throws f && fn_nullish f))
          | by (unfold socket_send; js_unfold; simpl; destruct (socket (svc s))) ].
Qed.

Lemma subscribe_accounted (sub : EventSubscription) (callback : JsVal) (s : State) :
  accounted s -> accounted (final (subscribe sub callback s)).
Proof.
  intros [Hnd Hbound]. unfold accounted.
  rewrite subscribe_registry, subscribe_bindings.
  split; [by apply register_NoDup |].
  intros i v Hv. destruct (is_function callback) eqn:Hf.
  - destruct (decide (sub_id sub = i)) as [<- | Hne].
    + rewrite lookup_insert_eq in Hv. injection Hv as <-.
      split; [exact Hf | apply register_registers].
    + rewrite lookup_insert_ne in Hv by done.
      destruct (Hbound i v Hv) as [Hfun Hreg].
      split; [exact Hfun | by apply registered_register].
  - destruct (Hbound i v Hv) as [Hfun Hreg].
    split; [exact Hfun | by apply registered_register].
Qed.

Lemma accounted_same (s s' : State) :
  subscriptions (svc s') = subscriptions (svc s)
  /\ subscriptionCallbackMap (svc s') = subscriptionCallbackMap (svc s) ->
  accounted s -> accounted s'.
Proof. intros [Hs Hm]. unfold accounted. by rewrite Hs, Hm. Qed.

Lemma openSocket_book (s : State) :
  subscriptions (svc (final (openSocket s))) = subscriptions (svc s)
  /\ subscriptionCallbackMap (svc (final (openSocket s))) = subscriptionCallbackMap (svc s).
Proof.
  rewrite openSocket_final.
  destruct (String.eqb _ ""); [done |]. by destruct (_ || _).
Qed.

Lemma fire_accounted (ev : Event) (s : State) :
  accounted s -> accounted (fire s ev).
Proof.
  intros Hs. unfold fire. destruct (deliverable ev s); [| exact Hs].
  destruct ev;
    try (apply (accounted_same s); [by apply unrelated_book | exact Hs]);
    cbn [handle].
  - rewrite api_call_record. destruct (call_record random c); [| exact Hs].
    by apply subscribe_accounted.
  - by apply subscribe_accounted.
  - apply (accounted_same s); [apply openSocket_book | exact Hs].
  - apply (accounted_same s); [| exact Hs]. rewrite closeSocket_final.
    destruct (socket (svc s)); [| done]. by destruct (bool_decide _).
  - rewrite reset_final. unfold accounted. simpl. split; [apply NoDup_nil_2 |].
    intros i v Hv. by rewrite lookup_empty in Hv.
  - apply (accounted_same s); [| exact Hs].
    unfold mbind, Js_bind, modify_env.
    by destruct (socket_onopen_keeps {| svc := svc s; env := set_readyState h 1 (env s) |})
      as (_ & -> & ->).
  - apply (accounted_same s); [| exact Hs].
    unfold mbind, Js_bind, modify_env. rewrite socket_onclose_result, final_finish.
    unfold add_invoked. cbn [svc].
    by destruct (closed_keeps code {| svc := svc s; env := set_readyState h 3 (env s) |})
      as (_ & -> & ->).
  - apply (accounted_same s); [| exact Hs].
    unfold clearTimeout. js_unfold. simpl.
    by destruct (openSocket_book
                   {| svc := svc s;
                      env := set_timeouts (remove_timer h (timeouts (env s))) (env s) |})
      as (-> & ->).
Qed.

Lemma run_accounted (evs : list Event) (s : State) :
  accounted s -> accounted (run evs s).
Proof.
  revert s. induction evs as [| ev evs IH]; intros s Hs; [exact Hs |].
  simpl. apply IH. by apply fire_accounted.
Qed.

Lemma new_accounted : accounted new_EventsService.
Proof.
  unfold accounted. simpl. split; [apply NoDup_nil_2 |].
  intros i v Hv. by rewrite lookup_empty in Hv.
Qed.

(** X23. Whatever happens to a new service, no two records of its
    registry share an identifier: a record replayed after a reconnection
    is never sent twice in one replay. *)
Theorem registry_identifiers_unique (evs : list Event) :
  NoDup (map sub_id (subscriptions (svc (run evs new_EventsService)))).
Proof. exact (proj1 (run_accounted evs _ new_accounted)). Qed.

(** X24. Whatever happens to a new service, every callback in its
    dispatch table is a function, and its identifier is the identifier of
    a registered record: a callback that can be called is one whose
    subscription is replayed after a reconnection. *)
Theorem bound_callbacks_are_registered (evs : list Event) (i : string) (v : JsVal) :
  subscriptionCallbackMap (svc (run evs new_EventsService)) !! i = Some v ->
  is_function v = true
  /\ exists sub, sub ∈ subscriptions (svc (run evs new_EventsService))
                 /\ sub_id sub = i.
Proof.
  intros Hv. destruct (proj2 (run_accounted evs _ new_accounted) i v Hv) as [Hf Hr].
  split; [exact Hf |].
  apply registered_ids, list_elem_of_fmap in Hr. destruct Hr as (sub & -> & Hsub).
  by exists sub.
Qed.

Lemma build_subscription_object
    (identifier : string) (t : EventType) (filter parameters : JsVal) :
  let r := build_subscription identifier t filter parameters in
  sub_id r = identifier
  /\ subscription_object r
     = VObj ([("id"%string, VStr identifier);
              ("subscribe"%string, VStr (EventType_name t))]
             ++ opt_prop "line" (scope filter "line")
             ++ opt_prop "location" (scope filter "location")
             ++ opt_prop "parameters"
                  (if truthy parameters then Some parameters else None)).
Proof.
  unfold build_subscription, scope, subscription_object.
  destruct (truthy filter), (truthy parameters);
    destruct (String.eqb (typeof (get_prop filter "line")) "undefined");
    destruct (String.eqb (typeof (get_prop filter "location")) "undefined");
    simpl; auto.
Qed.

Lemma call_record_object (random : nat -> nat) (c : ApiCall) :
  refused c = false ->
  exists r,
    call_record random c = Some r
    /\ sub_id r = createId random
    /\ subscription_object r = call_object random c.
Proof.
  intros Hr. unfold call_record, call_object.
  destruct c; simpl in Hr; try (rewrite negb_false_iff in Hr; rewrite Hr);
    eexists; (split; [reflexivity |]);
    match goal with
    | |- context [build_subscription ?i ?t ?f ?p] =>
        destruct (build_subscription_object i t f p) as [Hi Ho]
    end;
    (split; [exact Hi | exact Ho]).
Qed.

(** X25. The ten subscribe-style methods on a connected service: unless
    the call is [onLocationChanged] with an id that is not a number, it
    returns having sent one frame on the current socket, the serialization
    of an object with a fresh identifier, the name of the event, the
    [line] and the [location] the filter defines and, for the methods that
    take an id, the parameters [{ id }].  The three other methods that take
    an id do not look at it: with no id at all they still subscribe, with
    the parameters [{ id: undefined }]. *)
Theorem api_call_sends_frame
    (random : nat -> nat) (c : ApiCall) (h : nat) (s : State) :
  connected (svc s) = true ->
  socket (svc s) = Some h ->
  refused c = false ->
  threw (api_call random c s) = None
  /\ sent (env (final (api_call random c s)))
     = sent (env s) ++ [(h, JSON_stringify (call_object random c))]
  /\ sockets (env (final (api_call random c s))) = sockets (env s).
Proof.
  intros Hc Hs Hr.
  destruct (call_record_object random c Hr) as (r & Hrec & _ & Hobj).
  rewrite api_call_record, Hrec, <- Hobj.
  split.
  - rewrite subscribe_outcome, Hc, Hs. reflexivity.
  - rewrite subscribe_final, Hc, Hs. simpl. auto.
Qed.

(** X26. Identifiers are not checked for collisions.  When two
    subscribe-style calls draw the same identifier, the registry keeps the
    record of the first call only, so the second subscription is not
    replayed after a reconnection, and the identifier ends up bound to the
    callback of the second call when that is a function. *)
Theorem colliding_identifiers
    (random : nat -> nat) (c1 c2 : ApiCall) (r1 : EventSubscription) (s : State) :
  refused c2 = false ->
  call_record random c1 = Some r1 ->
  let s' := run [CallApi random c1; CallApi random c2] s in
  subscriptions (svc s') = register (subscriptions (svc s)) r1
  /\ subscriptionCallbackMap (svc s') !! createId random
     = (if is_function (call_callback c2) then Some (call_callback c2)
        else if is_function (call_callback c1) then Some (call_callback c1)
        else subscriptionCallbackMap (svc s) !! createId random).
Proof.
  intros Hr2 Hrec1 s'. subst s'.
  assert (Hr1 : refused c1 = false).
  { destruct c1; try reflexivity. simpl in *.
    destruct (String.eqb (typeof id) "number"); [reflexivity | discriminate]. }
  destruct (call_record_object random c1 Hr1) as (r1' & Hrec1' & Hid1 & _).
  rewrite Hrec1 in Hrec1'. injection Hrec1' as <-.
  destruct (call_record_object random c2 Hr2) as (r2 & Hrec2 & Hid2 & _).
  unfold run. cbn [fold_left]. unfold fire. cbn [handle deliverable].
  rewrite (api_call_record random c1), Hrec1.
  set (s1 := final (subscribe r1 (call_callback c1) s)).
  rewrite (api_call_record random c2), Hrec2.
  assert (Hreg1 : subscriptions (svc s1) = register (subscriptions (svc s)) r1).
  { subst s1. apply subscribe_registry. }
  split.
  - rewrite subscribe_registry, Hreg1.
    unfold register at 1.
    assert (Hin : registered (sub_id r2) (register (subscriptions (svc s)) r1) = true).
    { rewrite Hid2, <- Hid1. apply register_registers. }
    rewrite Hin. reflexivity.
  - rewrite subscribe_bindings, Hid2.
    destruct (is_function (call_callback c2)).
    + apply lookup_insert_eq.
    + subst s1. rewrite subscribe_bindings, Hid1.
      destruct (is_function (call_callback c1)); [apply lookup_insert_eq | reflexivity].
Qed.

End EventsService.

(** * The model at work

    The theorems applied to runs on the sample platform. *)

Lemma openSocket_without_key_throws_witness :
  openSocket new_EventsService = Throw MISSING_KEY new_EventsService.
Proof. apply (openSocket_without_key_throws new_EventsService). reflexivity. Defined.

Lemma onLocationChanged_without_numeric_id_witness :
  onLocationChanged sample_stringify (sample_random 0) (VFun quiet_observer)
    VUndefined new_EventsService
  = Throw MISSING_LOCATION_ID new_EventsService.
Proof.
  apply (onLocationChanged_without_numeric_id sample_stringify).
  discriminate.
Defined.

Lemma unbound_frame_is_dropped_witness :
  socket_onmessage sample_parse sample_key (DText "{}")
    (connected_service sample_parse sample_stringify sample_key)
  = Return tt (connected_service sample_parse sample_stringify sample_key).
Proof.
  apply (unbound_frame_is_dropped sample_parse sample_key "{}" (VObj []));
    reflexivity.
Defined.


Lemma record_scopes_follow_filter_witness :
  sub_line (build_subscription (createId (sample_random 0)) TICKET_CREATED
              both_scopes VUndefined) = Some (VNum 1)
  /\ sub_location (build_subscription (createId (sample_random 0)) TICKET_CREATED
                     both_scopes VUndefined) = Some (VNum 2).
Proof.
  apply (record_scopes_follow_filter sample_stringify (sample_random 0)
           (OnTicketCreated (VFun quiet_observer) both_scopes) _ new_EventsService).
  reflexivity.
Defined.

Lemma observers_called_until_one_throws_witness :
  invoked (env (final (socket_onopen sample_stringify
                         (observed_service sample_parse sample_stringify sample_key))))
  = [quiet_observer; throwing_observer]
  /\ threw (socket_onclose 1006 (observed_service sample_parse sample_stringify sample_key))
     = Some (ThrownBy throwing_observer).
Proof.
  destruct (observers_called_until_one_throws sample_stringify
              (observed_service sample_parse sample_stringify sample_key) 0 1006
              [quiet_observer] [throwing_observer; late_observer]
              [] [throwing_observer; late_observer])
    as [[Hopen _] [_ Hclose]].
  - reflexivity.
  - reflexivity.
  - reflexivity.
  - repeat constructor.
  - constructor.
  - intros f [= <-]. reflexivity.
  - intros f [= <-]. reflexivity.
  - split; [exact Hopen | exact Hclose].
Defined.

Lemma replay_on_first_open_witness :
  sent (env (fire sample_parse sample_stringify sample_key
               (run sample_parse sample_stringify sample_key
                  (CallSetKey "k" :: sample_calls) new_EventsService)
               (SocketOpen 0)))
  = map (fun sub => (0%nat, sample_stringify (subscription_object sub)))
        (registry_after sample_calls []).
Proof.
  apply (replay_on_first_open sample_parse sample_stringify sample_key "k" sample_calls).
  - discriminate.
  - repeat constructor.
Defined.

Lemma retry_delay_after_closes_witness :
  exists t older,
    let s' := fire sample_parse sample_stringify sample_key
                (run sample_parse sample_stringify sample_key
                   [CallSetKey "k"; CallOpenSocket] new_EventsService)
                (SocketClose 0 1006) in
    retryTimeout (svc s') = Some t
    /\ timeouts (env s') = older ++ [(t, Z.min (5000 + 1000 * ((Z.of_nat 1 - 1) / 10)) 60000)].
Proof.
  apply (retry_delay_after_closes sample_parse sample_stringify sample_key
           (run sample_parse sample_stringify sample_key
              [CallSetKey "k"; CallOpenSocket] new_EventsService) 1 0 1006).
  - lia.
  - apply retrying_other; [| reflexivity].
    apply retrying_other; [| reflexivity].
    apply retrying_new.
  - reflexivity.
  - lia.
Defined.

Lemma normal_close_settles_idle_witness :
  let s' := fire sample_parse sample_stringify sample_key
              (connected_service sample_parse sample_stringify sample_key)
              (SocketClose 0 1000) in
  timeouts (env s') = [] /\ intervals (env s') = [].
Proof.
  apply (normal_close_settles_idle sample_parse sample_stringify sample_key
           (connected_service sample_parse sample_stringify sample_key) 0).
  - reflexivity.
  - unfold connected_service.
    apply (lifecycle_fire _ _ _ _ (SocketOpen 0)); [| reflexivity].
    apply (lifecycle_fire _ _ _ _ CallOpenSocket); [| reflexivity].
    apply (lifecycle_fire _ _ _ _ (CallSetKey "k")); [| reflexivity].
    apply lifecycle_new.
Defined.

Ltac retrying :=
  lazymatch goal with
  | |- Retrying _ _ _ new_EventsService _ => apply retrying_new
  | |- Retrying _ _ _ (fire _ _ _ ?s (SocketClose ?h 1006)) (S ?n) =>
      apply (retrying_close _ _ _ s n h 1006); [retrying | vm_compute; reflexivity | lia]
  | |- Retrying _ _ _ (fire _ _ _ ?s ?ev) ?n =>
      apply (retrying_other _ _ _ s n ev); [retrying | reflexivity]
  end.

(** C1 as the specification words it fails at [N = 10]: the tenth
    abnormal close in a row schedules the reconnection after 5000 ms, not
    after [min(5000 + 1000 * floor(10 / 10), 60000) = 6000] ms. *)
Lemma tenth_close_waits_five_seconds :
  let s := run sample_parse sample_stringify sample_key nine_failures new_EventsService in
  Retrying sample_parse sample_stringify sample_key s 9
  /\ deliverable (SocketClose 9 1006) s = true
  /\ timeouts (env (fire sample_parse sample_stringify sample_key s (SocketClose 9 1006)))
     = [(10%nat, 5000)]
  /\ 5000 <> Z.min (5000 + 1000 * (10 / 10)) 60000.
Proof.
  cbn zeta. split; [| split; [| split]].
  - unfold nine_failures. cbn [flat_map seq app run fold_left].
    retrying.
  - vm_compute. reflexivity.
  - vm_compute. reflexivity.
  - vm_compute. discriminate.
Qed.

(** C2 as the specification words it fails: the first disconnect observer
    throws, and the one registered after it is not called. *)
Lemma observer_after_a_throw_not_called :
  onDisconnectCallbacks (svc (observed_service sample_parse sample_stringify sample_key))
  = [VFun throwing_observer; VFun late_observer]
  /\ invoked (env (fire sample_parse sample_stringify sample_key
                     (observed_service sample_parse sample_stringify sample_key)
                     (SocketClose 0 1006)))
     = [throwing_observer]
  /\ ~ In late_observer
         (invoked (env (fire sample_parse sample_stringify sample_key
                          (observed_service sample_parse sample_stringify sample_key)
                          (SocketClose 0 1006)))).
Proof.
  split; [reflexivity |]. split; [reflexivity |].
  intros [H | []]. discriminate H.
Qed.

(** C5 as the specification words it fails: a filter with a line and a
    location gives a record with both. *)
Lemma filter_with_both_scopes :
  subscriptions (svc (final (onTicketCreated sample_stringify (sample_random 0)
                               (VFun quiet_observer) both_scopes new_EventsService)))
  = [{| sub_subscribe := TICKET_CREATED;
        sub_id := createId (sample_random 0);
        sub_line := Some (VNum 1);
        sub_location := Some (VNum 2);
        sub_parameters := None |}].
Proof. reflexivity. Qed.

(** C4 as the specification words it fails for a socket that outlives a
    [reset]: its close event with code 1000 finds the retry of the second
    socket pending and leaves it pending, and when that timeout fires the
    service opens a third socket. *)
Lemma normal_close_leaves_retry_pending :
  let s := stale_socket_service sample_parse sample_stringify sample_key in
  let s' := fire sample_parse sample_stringify sample_key s (SocketClose 0 1000) in
  let s'' := fire sample_parse sample_stringify sample_key s' (TimeoutFires 2) in
  deliverable (SocketClose 0 1000) s = true
  /\ timeouts (env s') = [(2%nat, 5000)]
  /\ retryTimeout (svc s') = Some 2%nat
  /\ timeouts (env s') <> []
  /\ connecting (svc s'') = true
  /\ length (sockets (env s'')) = S (length (sockets (env s'))).
Proof.
  cbn zeta. repeat split; try (vm_compute; reflexivity).
  vm_compute. discriminate.
Qed.


(** * The further properties at work *)

Ltac lifecycle :=
  lazymatch goal with
  | |- Lifecycle _ _ _ new_EventsService => apply lifecycle_new
  | |- Lifecycle _ _ _ (fire _ _ _ ?s ?ev) =>
      apply (lifecycle_fire _ _ _ s ev); [lifecycle | reflexivity]
  end.

Lemma one_live_socket_witness :
  0%nat = 0%nat
  /\ socket (svc (connected_service sample_parse sample_stringify sample_key)) = Some 0%nat
  /\ connecting (svc (connected_service sample_parse sample_stringify sample_key)) = true.
Proof.
  apply (one_live_socket sample_parse sample_stringify sample_key
           (connected_service sample_parse sample_stringify sample_key) 0 0).
  - unfold connected_service, run. cbn [fold_left]. lifecycle.
  - vm_compute. reflexivity.
  - vm_compute. reflexivity.
Defined.

Lemma one_timer_of_each_kind_witness :
  (length (timeouts (env (retrying_service sample_parse sample_stringify sample_key))) <= 1)%nat
  /\ (length (intervals (env (retrying_service sample_parse sample_stringify sample_key)))
      <= 1)%nat.
Proof.
  destruct (one_timer_of_each_kind sample_parse sample_stringify sample_key
              (retrying_service sample_parse sample_stringify sample_key))
    as (Ht & Hi & _).
  - unfold retrying_service, run. cbn [fold_left]. lifecycle.
  - split; [exact Ht | exact Hi].
Defined.

Lemma open_starts_the_pings_witness :
  connected (svc (fire sample_parse sample_stringify sample_key
                    (run sample_parse sample_stringify sample_key
                       [CallSetKey "k"; CallOpenSocket] new_EventsService)
                    (SocketOpen 0))) = true.
Proof.
  apply (open_starts_the_pings sample_parse sample_stringify sample_key
           (run sample_parse sample_stringify sample_key
              [CallSetKey "k"; CallOpenSocket] new_EventsService) 0).
  - unfold run. cbn [fold_left]. lifecycle.
  - vm_compute. reflexivity.
Defined.

Lemma ping_is_sent_witness :
  exists h,
    socket (svc (connected_service sample_parse sample_stringify sample_key)) = Some h
    /\ connected (svc (connected_service sample_parse sample_stringify sample_key)) = true
    /\ readyState (env (connected_service sample_parse sample_stringify sample_key)) h
       <> Some 0
    /\ handle sample_parse sample_stringify sample_key (IntervalFires 1)
         (connected_service sample_parse sample_stringify sample_key)
       = Return tt (add_sent [(h, "PING"%string)]
                      (connected_service sample_parse sample_stringify sample_key)).
Proof.
  apply (ping_is_sent sample_parse sample_stringify sample_key
           (connected_service sample_parse sample_stringify sample_key) 1).
  - unfold connected_service, run. cbn [fold_left]. lifecycle.
  - vm_compute. reflexivity.
Defined.

Lemma abnormal_close_schedules_one_retry_witness :
  timeouts (env (fire sample_parse sample_stringify sample_key
                   (connected_service sample_parse sample_stringify sample_key)
                   (SocketClose 0 1006)))
  = [(nextTimer (env (connected_service sample_parse sample_stringify sample_key)),
      Z.min (5000 + connectionRetries
                      (svc (connected_service sample_parse sample_stringify sample_key))
                    / 10 * 1000) 60000)].
Proof.
  apply (abnormal_close_schedules_one_retry sample_parse sample_stringify sample_key
           (connected_service sample_parse sample_stringify sample_key) 0 1006).
  - unfold connected_service, run. cbn [fold_left]. lifecycle.
  - vm_compute. reflexivity.
  - lia.
Defined.

Lemma retry_opens_a_socket_witness :
  connecting (svc (fire sample_parse sample_stringify sample_key
                     (retrying_service sample_parse sample_stringify sample_key)
                     (TimeoutFires 1))) = true.
Proof.
  apply (retry_opens_a_socket sample_parse sample_stringify sample_key
           (retrying_service sample_parse sample_stringify sample_key) 1).
  - unfold retrying_service, run. cbn [fold_left]. lifecycle.
  - vm_compute. reflexivity.
  - vm_compute. discriminate.
Defined.

Lemma retry_without_key_gives_up_witness :
  threw (handle sample_parse sample_stringify sample_key (TimeoutFires 1)
           (keyless_service sample_parse sample_stringify sample_key))
  = Some MISSING_KEY.
Proof.
  apply (retry_without_key_gives_up sample_parse sample_stringify sample_key
           (keyless_service sample_parse sample_stringify sample_key) 1).
  - unfold keyless_service, run. cbn [fold_left]. lifecycle.
  - vm_compute. reflexivity.
  - vm_compute. reflexivity.
Defined.

Lemma reconnect_replays_registry_witness :
  connected
    (svc (run sample_parse sample_stringify sample_key
            [SocketClose 0 1006;
             TimeoutFires
               (nextTimer (env (subscribed_service sample_parse sample_stringify sample_key)));
             SocketOpen
               (length (sockets
                  (env (subscribed_service sample_parse sample_stringify sample_key))))]
            (subscribed_service sample_parse sample_stringify sample_key))) = true.
Proof.
  apply (reconnect_replays_registry sample_parse sample_stringify sample_key
           (subscribed_service sample_parse sample_stringify sample_key) 0 1006).
  - unfold subscribed_service, run. cbn [fold_left]. lifecycle.
  - vm_compute. reflexivity.
  - lia.
  - vm_compute. discriminate.
Defined.

Lemma createId_shape_witness : String.length (createId (sample_random 3)) = 30%nat.
Proof.
  apply (createId_shape (sample_random 3)).
  intros i _. unfold sample_random. apply Nat.mod_upper_bound. lia.
Defined.

Lemma subscribe_when_connected_witness :
  sent (env (final (subscribe sample_stringify sample_subscription VUndefined
                      (connected_service sample_parse sample_stringify sample_key))))
  = sent (env (connected_service sample_parse sample_stringify sample_key))
    ++ [(0%nat, sample_stringify (subscription_object sample_subscription))].
Proof.
  apply (subscribe_when_connected sample_stringify sample_subscription VUndefined 0
           (connected_service sample_parse sample_stringify sample_key));
    vm_compute; reflexivity.
Defined.

Lemma subscribe_when_not_connected_witness :
  sent (env (final (subscribe sample_stringify sample_subscription VUndefined
                      (retrying_service sample_parse sample_stringify sample_key))))
  = sent (env (retrying_service sample_parse sample_stringify sample_key)).
Proof.
  apply (subscribe_when_not_connected sample_stringify sample_subscription VUndefined
           (retrying_service sample_parse sample_stringify sample_key)).
  - vm_compute. reflexivity.
  - vm_compute. discriminate.
Defined.

Lemma quiet_frames_are_dropped_witness :
  socket_onmessage sample_parse sample_key (DText "not json")
    (subscribed_service sample_parse sample_stringify sample_key)
  = Return tt (subscribed_service sample_parse sample_stringify sample_key).
Proof.
  apply (quiet_frames_are_dropped sample_parse sample_key "not json"
           (subscribed_service sample_parse sample_stringify sample_key)).
  vm_compute. reflexivity.
Defined.

Lemma reset_cancels_timers_witness :
  timeouts (env (fire sample_parse sample_stringify sample_key
                   (retrying_service sample_parse sample_stringify sample_key)
                   CallReset)) = [].
Proof.
  apply (reset_cancels_timers sample_parse sample_stringify sample_key
           (retrying_service sample_parse sample_stringify sample_key)).
  unfold retrying_service, run. cbn [fold_left]. lifecycle.
Defined.

Lemma reset_then_subscribe_is_fresh_witness :
  subscriptions
    (svc (run sample_parse sample_stringify sample_key
            [CallReset; CallSetKey "k2";
             CallSubscribe sample_subscription (VFun late_observer)]
            (subscribed_service sample_parse sample_stringify sample_key)))
  = [sample_subscription].
Proof.
  apply (reset_then_subscribe_is_fresh sample_parse sample_stringify sample_key
           "k2" sample_subscription (VFun late_observer)
           (subscribed_service sample_parse sample_stringify sample_key)).
  discriminate.
Defined.

Lemma sockets_carry_a_key_witness :
  exists server key,
    key <> ""%string
    /\ ("wss://api.qminder.com:443/events?rest-api-key=k"%string
        = server +:+ "/events?rest-api-key=" +:+ key).
Proof.
  apply (sockets_carry_a_key sample_parse sample_stringify sample_key
           [CallSetKey "k"; CallOpenSocket] 0
           "wss://api.qminder.com:443/events?rest-api-key=k" 0).
  vm_compute. reflexivity.
Defined.

Lemma bound_callbacks_are_registered_witness :
  is_function (VFun quiet_observer) = true
  /\ exists sub,
       sub ∈ subscriptions
               (svc (run sample_parse sample_stringify sample_key
                       [CallSetKey "k";
                        CallSubscribe sample_subscription (VFun quiet_observer)]
                       new_EventsService))
       /\ sub_id sub = "abc"%string.
Proof.
  apply (bound_callbacks_are_registered sample_parse sample_stringify sample_key
           [CallSetKey "k"; CallSubscribe sample_subscription (VFun quiet_observer)]
           "abc" (VFun quiet_observer)).
  vm_compute. reflexivity.
Defined.

Lemma bound_callback_is_called_witness :
  socket_onmessage identifier_parse sample_key (DText "abc")
    (final (subscribe sample_stringify sample_subscription (VFun quiet_observer)
              (connected_service sample_parse sample_stringify sample_key)))
  = Return tt
      (add_invoked [quiet_observer]
         (final (subscribe sample_stringify sample_subscription (VFun quiet_observer)
                   (connected_service sample_parse sample_stringify sample_key)))).
Proof.
  apply (bound_callback_is_called identifier_parse sample_stringify sample_key
           sample_subscription quiet_observer "abc"
           (VObj [("subscriptionId"%string, VStr "abc")])
           (connected_service sample_parse sample_stringify sample_key)).
  - reflexivity.
  - discriminate.
  - reflexivity.
  - reflexivity.
Defined.

(** A callback that throws an error is caught by the message handler; one
    that throws [null] makes the handler throw. *)
Lemma thrown_null_escapes_the_handler :
  threw (socket_onmessage identifier_parse sample_key (DText "abc")
           (final (subscribe sample_stringify sample_subscription
                     (VFun throwing_observer)
                     (connected_service sample_parse sample_stringify sample_key))))
  = None
  /\ threw (socket_onmessage identifier_parse sample_key (DText "abc")
              (final (subscribe sample_stringify sample_subscription
                        (VFun null_thrower)
                        (connected_service sample_parse sample_stringify sample_key))))
     = Some TypeError.
Proof. split; vm_compute; reflexivity. Qed.

Lemma api_call_sends_frame_witness :
  threw (api_call sample_stringify (sample_random 3)
           (OnLinesChanged (VFun quiet_observer) VUndefined)
           (connected_service sample_parse sample_stringify sample_key)) = None.
Proof.
  apply (api_call_sends_frame sample_stringify (sample_random 3)
           (OnLinesChanged (VFun quiet_observer) VUndefined) 0
           (connected_service sample_parse sample_stringify sample_key));
    vm_compute; reflexivity.
Defined.

Lemma colliding_identifiers_witness :
  subscriptions
    (svc (run sample_parse sample_stringify sample_key
            [CallApi (sample_random 3) (OnTicketCalled (VFun quiet_observer) VUndefined);
             CallApi (sample_random 3) (OnTicketServed (VFun late_observer) VUndefined)]
            (connected_service sample_parse sample_stringify sample_key)))
  = register
      (subscriptions (svc (connected_service sample_parse sample_stringify sample_key)))
      (build_subscription (createId (sample_random 3)) TICKET_CALLED VUndefined VUndefined).
Proof.
  apply (colliding_identifiers sample_parse sample_stringify sample_key
           (sample_random 3)
           (OnTicketCalled (VFun quiet_observer) VUndefined)
           (OnTicketServed (VFun late_observer) VUndefined)
           (build_subscription (createId (sample_random 3)) TICKET_CALLED
              VUndefined VUndefined)
           (connected_service sample_parse sample_stringify sample_key));
    reflexivity.
Defined.

(** * Properties of [ApiBase] *)

Section ApiBaseProperties.

Import ApiBase.

Variable querystring_stringify : JsVal -> string.
Variable hundreds_of_string : string -> option Z.

Local Abbreviation request := (ApiBase.request querystring_stringify hundreds_of_string).
Local Abbreviation request_init := (ApiBase.request_init querystring_stringify).
Local Abbreviation check_status := (ApiBase.check_status hundreds_of_string).

Lemma request_outcome (o : ApiBase) (key url : string) (data : option RequestData)
    (method_ : option HTTPMethod) :
  apiKey o = Some key ->
  key <> ""%string ->
  request o url data method_
  = Fetched (request_url o url) (request_init key data method_)
      (then_ (then_ (fetch o (request_url o url) (request_init key data method_)) json)
             check_status).
Proof.
  intros Hk Hne. unfold ApiBase.request. rewrite Hk.
  apply String.eqb_neq in Hne. rewrite Hne. reflexivity.
Qed.

Lemma hundreds_two (n : Z) : n / 100 = 2 <-> 200 <= n <= 299.
Proof.
  split.
  - intros H.
    pose proof (Z.div_mod n 100 ltac:(lia)) as Hd.
    pose proof (Z.mod_pos_bound n 100 ltac:(lia)) as Hm. lia.
  - intros H. symmetry. apply (Z.div_unique n 100 2 (n - 200)); lia.
Qed.

(** X27. [request] throws, before it calls [fetch], exactly when the key
    is undefined or empty; the constructor leaves the key undefined, so a
    request on a new object always throws. *)
Theorem request_needs_key
    (o : ApiBase) (url : string) (data : option RequestData)
    (method_ : option HTTPMethod) :
  (request o url data method_ = Threw MISSING_KEY
   <-> apiKey o = None \/ apiKey o = Some ""%string)
  /\ (sent_options (request o url data method_) = None
      <-> apiKey o = None \/ apiKey o = Some ""%string)
  /\ request (new_ApiBase (fetch o)) url data method_ = Threw MISSING_KEY.
Proof.
  unfold ApiBase.request.
  destruct (apiKey o) as [key |] eqn:Hk; simpl.
  - destruct (String.eqb key "") eqn:He; simpl.
    + apply String.eqb_eq in He. subst key. intuition.
    + apply String.eqb_neq in He.
      repeat split; try discriminate; try reflexivity.
      * intros [H | H]; [discriminate | congruence].
      * intros [H | H]; [discriminate | congruence].
  - intuition.
Qed.

(** X28. With a key, [request] calls [fetch] on
    [https://<server>/v1/<url>] with the key in the header
    [X-Qminder-REST-API-Key] and the mode [cors].  When data is given the
    request is a POST whatever method was asked for, with the data as its
    body and a content type: the file itself and its type, or the form
    encoding of the object.  When no data is given the method is the one
    asked for, GET by default, and there is neither a body nor a content
    type. *)
Theorem request_with_data_posts
    (o : ApiBase) (key url : string) (data : option RequestData)
    (method_ : option HTTPMethod) :
  apiKey o = Some key ->
  key <> ""%string ->
  exists init result,
    request o url data method_
    = Fetched ("https://" +:+ apiServer o +:+ "/v1/" +:+ url) init result
    /\ mode init = "cors"%string
    /\ match data with
       | None =>
           method init = default GET method_
           /\ headers init = [("X-Qminder-REST-API-Key"%string, key)]
           /\ body init = None
       | Some (DataFile file) =>
           method init = POST
           /\ headers init = [("X-Qminder-REST-API-Key"%string, key);
                              ("Content-Type"%string, file_type file)]
           /\ body init = Some (BodyFile file)
       | Some (DataObject props) =>
           method init = POST
           /\ headers init = [("X-Qminder-REST-API-Key"%string, key);
                              ("Content-Type"%string,
                               "application/x-www-form-urlencoded"%string)]
           /\ body init = Some (BodyText (querystring_stringify (VObj props)))
       end.
Proof.
  intros Hk Hne. rewrite (request_outcome o key) by assumption.
  eexists _, _. split; [reflexivity |].
  destruct data as [[file | props] |]; simpl; auto.
Qed.

(** X29. A response whose body is an object with a numeric status code:
    the promise is fulfilled with the body when the code is 0 or lies in
    200..299, and is rejected otherwise, with an error that carries the
    developer message of the body or, when that is missing or empty, its
    message. *)
Theorem response_status
    (o : ApiBase) (key url : string) (data : option RequestData)
    (method_ : option HTTPMethod) (response : Response)
    (props : list (string * JsVal)) (n : Z) :
  apiKey o = Some key ->
  key <> ""%string ->
  fetch o (request_url o url) (request_init key data method_) = Fulfilled response ->
  json response = Fulfilled (VObj props) ->
  assoc "statusCode" props = Some (VNum n) ->
  returned (request o url data method_)
  = Some (if (n =? 0) || ((200 <=? n) && (n <=? 299))
          then Fulfilled (VObj props)
          else Rejected
                 (Error (if truthy (get_prop (VObj props) "developerMessage")
                         then get_prop (VObj props) "developerMessage"
                         else get_prop (VObj props) "message"))).
Proof.
  intros Hk Hne Hf Hj Hs.
  rewrite (request_outcome o key) by assumption. simpl.
  rewrite Hf. simpl. rewrite Hj. simpl. rewrite Hs. simpl.
  f_equal. unfold or_else.
  destruct (n =? 0) eqn:H0; simpl; [reflexivity |].
  destruct (bool_decide (Some (n / 100) = Some 2)) eqn:Hd.
  - apply bool_decide_eq_true in Hd. injection Hd as Hd.
    apply hundreds_two in Hd.
    replace (200 <=? n) with true by (symmetry; apply Z.leb_le; lia).
    replace (n <=? 299) with true by (symmetry; apply Z.leb_le; lia).
    reflexivity.
  - apply bool_decide_eq_false in Hd.
    assert (Hn : ~ (200 <= n <= 299)).
    { intros H. apply Hd. f_equal. by apply hundreds_two. }
    destruct (200 <=? n) eqn:Hl; simpl; [| reflexivity].
    destruct (n <=? 299) eqn:Hu; simpl; [| reflexivity].
    apply Z.leb_le in Hl, Hu. lia.
Qed.

(** X30. [request] handles no failure and checks nothing but the status
    code.  A promise of [fetch] that stays pending or is rejected, and a
    [json()] that stays pending or is rejected, give the same from
    [request]; a body that is [null] rejects the promise, the status code
    being read of it unchecked; any other body with no status code, or an
    empty one, is handed over as it is. *)
Theorem request_passes_failures_on
    (o : ApiBase) (key url : string) (data : option RequestData)
    (method_ : option HTTPMethod) :
  apiKey o = Some key ->
  key <> ""%string ->
  let answer := fetch o (request_url o url) (request_init key data method_) in
  let result := returned (request o url data method_) in
  (answer = Pending -> result = Some Pending)
  /\ (forall e, answer = Rejected e -> result = Some (Rejected e))
  /\ (forall response, answer = Fulfilled response ->
      (json response = Pending -> result = Some Pending)
      /\ (forall e, json response = Rejected e -> result = Some (Rejected e))
      /\ (json response = Fulfilled VNull -> result = Some (Rejected NoProperty))
      /\ (forall body_,
            json response = Fulfilled body_ ->
            body_ <> VNull -> body_ <> VUndefined ->
            truthy (get_prop body_ "statusCode") = false ->
            result = Some (Fulfilled body_))).
Proof.
  intros Hk Hne answer result. subst answer result.
  rewrite (request_outcome o key) by assumption. simpl.
  split; [intros ->; reflexivity |].
  split; [intros e ->; reflexivity |].
  intros response ->. simpl.
  split; [intros ->; reflexivity |].
  split; [intros e ->; reflexivity |].
  split; [intros ->; reflexivity |].
  intros b -> Hnull Hundef Hs. simpl.
  unfold ApiBase.check_status. rewrite Hs. simpl.
  destruct b; try reflexivity; congruence.
Qed.

End ApiBaseProperties.

Lemma request_with_data_posts_witness :
  exists init result,
    ApiBase.request ApiBase.sample_querystring ApiBase.no_hundreds
      (ApiBase.setKey "k" (ApiBase.new_ApiBase (ApiBase.answering ApiBase.not_found)))
      "tickets/create" (Some (ApiBase.DataObject [("line"%string, VNum 7)]))
      (Some ApiBase.DELETE)
    = ApiBase.Fetched "https://api.qminder.com/v1/tickets/create" init result
    /\ ApiBase.method init = ApiBase.POST.
Proof.
  destruct (request_with_data_posts ApiBase.sample_querystring ApiBase.no_hundreds
              (ApiBase.setKey "k" (ApiBase.new_ApiBase (ApiBase.answering ApiBase.not_found)))
              "k" "tickets/create" (Some (ApiBase.DataObject [("line"%string, VNum 7)]))
              (Some ApiBase.DELETE))
    as (init & result & Hr & _ & Hm & _).
  - reflexivity.
  - discriminate.
  - exists init, result. split; [exact Hr | exact Hm].
Defined.

Lemma response_status_witness :
  ApiBase.returned
    (ApiBase.request ApiBase.sample_querystring ApiBase.no_hundreds
       (ApiBase.setKey "k" (ApiBase.new_ApiBase (ApiBase.answering ApiBase.not_found)))
       "tickets/1" None None)
  = Some (ApiBase.Rejected (ApiBase.Error (VStr "Not found"))).
Proof.
  apply (response_status ApiBase.sample_querystring ApiBase.no_hundreds
           (ApiBase.setKey "k" (ApiBase.new_ApiBase (ApiBase.answering ApiBase.not_found)))
           "k" "tickets/1" None None
           {| ApiBase.json := ApiBase.Fulfilled ApiBase.not_found |}
           [("statusCode"%string, VNum 404); ("message"%string, VStr "Not found")] 404).
  - reflexivity.
  - discriminate.
  - reflexivity.
  - reflexivity.
  - reflexivity.
Defined.

Lemma request_passes_failures_on_witness :
  ApiBase.returned
    (ApiBase.request ApiBase.sample_querystring ApiBase.no_hundreds
       (ApiBase.setKey "k" (ApiBase.new_ApiBase (fun _ _ => ApiBase.Rejected (ApiBase.Reason 1))))
       "tickets/1" None None)
  = Some (ApiBase.Rejected (ApiBase.Reason 1)).
Proof.
  destruct (request_passes_failures_on ApiBase.sample_querystring ApiBase.no_hundreds
              (ApiBase.setKey "k"
                 (ApiBase.new_ApiBase (fun _ _ => ApiBase.Rejected (ApiBase.Reason 1))))
              "k" "tickets/1" None None)
    as (_ & Hrej & _).
  - reflexivity.
  - discriminate.
  - apply (Hrej (ApiBase.Reason 1)). reflexivity.
Defined.
